(** * vllm_deploy: worker pool, generated proxy configuration, monitor loop

    A shallow embedding of [src/vllm_deploy.py] and the properties of it
    that the specification states.

    - Python [str] values are Rocq [string]s, one [ascii] per character
      (code points below 256); Python [int]s are [Z]; the readings of
      [time.time()] are rationals ([Q]).
    - A function that may raise returns an [outcome].  [int(float(s))] is
      modelled in full for ASCII literals: the grammar of [float], rounding
      to the nearest binary64 (ties to even), truncation.
    - The parts of the script that act on the operating system ([main],
      [cleanup_processes]) are written in a monad [M] that threads
      [RUNNING_PROCESSES] and collects the [event]s in order.  What the
      system answers is given by a [world]: whether nginx is installed,
      which ports are in use, which [Popen] raises, and, for each turn of the
      monitoring loop, the clock, the answers of the workers, what
      [poll()] says of each process and whether Ctrl+C arrives during the
      sleep of that turn.
    - [while True] runs over the turns the world provides: a run whose loop
      has not ended when they are used up is [StillRunning], and the handler
      registered with [atexit] has not run yet. *)

From Stdlib Require Import Bool Arith ZArith QArith List Lia Lqa.
From Stdlib Require Import Ascii String DecimalString DecimalZ.
Import ListNotations.

Close Scope Q_scope.
Local Open Scope nat_scope.
Local Open Scope string_scope.
Local Open Scope list_scope.

(** ** Python string primitives *)

Module PyStr.

(** [str.isspace] on one character, for code points below 256:
    TAB..CR, FS..US, SPACE, NEL and NBSP. *)
Definition is_space (c : ascii) : bool :=
  let n := nat_of_ascii c in
  (((9 <=? n) && (n <=? 13)) || ((28 <=? n) && (n <=? 32))
   || (n =? 133) || (n =? 160))%nat.

(** [s.split(sep)] for a one-character separator. *)
Fixpoint split_on (sep : ascii) (s : string) : list string :=
  match s with
  | EmptyString => [EmptyString]
  | String c rest =>
      if Ascii.eqb c sep then EmptyString :: split_on sep rest
      else match split_on sep rest with
           | [] => [String c EmptyString]
           | field :: fields => String c field :: fields
           end
  end.

Fixpoint lstrip (s : string) : string :=
  match s with
  | EmptyString => EmptyString
  | String c rest => if is_space c then lstrip rest else s
  end.

Fixpoint rstrip (s : string) : string :=
  match s with
  | EmptyString => EmptyString
  | String c rest =>
      match rstrip rest with
      | EmptyString => if is_space c then EmptyString else String c EmptyString
      | kept => String c kept
      end
  end.

(** [s.strip()] *)
Definition strip (s : string) : string := rstrip (lstrip s).

(** [c in s] for a one-character needle. *)
Fixpoint contains (c : ascii) (s : string) : bool :=
  match s with
  | EmptyString => false
  | String d rest => Ascii.eqb d c || contains c rest
  end.

(** [list(s)]: the characters of [s] as one-character strings. *)
Fixpoint chars (s : string) : list string :=
  match s with
  | EmptyString => []
  | String c rest => String c EmptyString :: chars rest
  end.

(** [sep.join(parts)] *)
Fixpoint join (sep : string) (parts : list string) : string :=
  match parts with
  | [] => EmptyString
  | [p] => p
  | p :: more => p ++ sep ++ join sep more
  end.

(** [s.split()]: maximal runs of non-whitespace characters.  [word] holds
    the run being read, most recent character first. *)
Fixpoint split_ws_from (word : list ascii) (s : string) : list string :=
  let flush (rest : list string) :=
    match word with
    | [] => rest
    | _ => string_of_list_ascii (rev word) :: rest
    end in
  match s with
  | EmptyString => flush []
  | String c rest =>
      if is_space c then flush (split_ws_from [] rest)
      else split_ws_from (c :: word) rest
  end.

Definition split_ws (s : string) : list string := split_ws_from [] s.

(** [s.startswith(p)] *)
Fixpoint startswith (s p : string) : bool :=
  match p with
  | EmptyString => true
  | String a p' =>
      match s with
      | EmptyString => false
      | String b s' => Ascii.eqb a b && startswith s' p'
      end
  end.

(** [str(n)] for an [int]. *)
Definition str (n : Z) : string := NilEmpty.string_of_int (Z.to_int n).

End PyStr.

(** ** Topology planner: [parse_gpu_groups] *)

Definition comma : ascii := ","%char.

(** The body of the [for group in groups] loop: the value appended to
    [result] for one element of [gpu_str.split(',')]. *)
Definition expand_group (group : string) : string :=
  let group := PyStr.strip group in
  if (1 <? String.length group)%nat && negb (PyStr.contains comma group)
  then PyStr.join "," (PyStr.chars group)
  else group.

Definition parse_gpu_groups (gpu_str : string) : list string :=
  map expand_group (PyStr.split_on comma gpu_str).

(** ** Exceptions *)

Inductive exn : Type :=
| ValueError
| IndexError
| OverflowError
| OSError
| RequestException
| KeyboardInterrupt
| SystemExit (code : Z).

(** [isinstance(e, Exception)]: everything but the two [BaseException]s. *)
Definition is_Exception (e : exn) : bool :=
  match e with
  | KeyboardInterrupt | SystemExit _ => false
  | _ => true
  end.

Inductive outcome (A : Type) : Type :=
| Return (a : A)
| Raise (e : exn).
Arguments Return {A} a.
Arguments Raise {A} e.

Definition obind {A B : Type} (x : outcome A) (k : A -> outcome B) : outcome B :=
  match x with
  | Return a => k a
  | Raise e => Raise e
  end.

Declare Scope outcome_scope.
Delimit Scope outcome_scope with outcome.
Notation "'let*' x ':=' c 'in' k" := (obind c (fun x => k))
  (at level 10, x pattern, c at level 100, k at level 200) : outcome_scope.
Local Open Scope outcome_scope.

(** ** [float(token)] and [int(float)] *)

Module PyFloat.

Local Open Scope Z_scope.

(** A float as Python holds it: an IEEE binary64 value.  A finite value is
    kept as [mant * 2 ^ exp2] with its sign apart. *)
Inductive float : Type :=
| Finite (negative : bool) (mant : Z) (exp2 : Z)
| Inf (negative : bool)
| NaN.

Definition digit_of (c : ascii) : option Z :=
  let n := nat_of_ascii c in
  if ((48 <=? n) && (n <=? 57))%nat then Some (Z.of_nat (n - 48)) else None.

Definition lower (c : ascii) : ascii :=
  let n := nat_of_ascii c in
  if ((65 <=? n) && (n <=? 90))%nat then ascii_of_nat (n + 32) else c.

Fixpoint lowercase (s : string) : string :=
  match s with
  | EmptyString => EmptyString
  | String c rest => String (lower c) (lowercase rest)
  end.

(** The rest of a [digitpart ::= digit (["_"] digit)*] once its first digit
    has been read: the digits are folded into [acc], [cnt] counts them. *)
Fixpoint digitpart_rest (acc cnt : Z) (s : string) : Z * Z * string :=
  match s with
  | EmptyString => (acc, cnt, s)
  | String c rest =>
      match digit_of c with
      | Some d => digitpart_rest (acc * 10 + d) (cnt + 1) rest
      | None =>
          if Ascii.eqb c "_" then
            match rest with
            | String c' rest' =>
                match digit_of c' with
                | Some d => digitpart_rest (acc * 10 + d) (cnt + 1) rest'
                | None => (acc, cnt, s)
                end
            | EmptyString => (acc, cnt, s)
            end
          else (acc, cnt, s)
      end
  end.

Definition digitpart (acc : Z) (s : string) : option (Z * Z * string) :=
  match s with
  | String c rest =>
      match digit_of c with
      | Some d => Some (digitpart_rest (acc * 10 + d) 1 rest)
      | None => None
      end
  | EmptyString => None
  end.

(** [number ::= [digitpart] "." digitpart | digitpart ["."]]: the digits
    read as one integer, the number of them after the point, and the rest. *)
Definition number (s : string) : option (Z * Z * string) :=
  match digitpart 0 s with
  | Some (ip, _, String "." rest) =>
      match digitpart ip rest with
      | Some r => Some r
      | None => Some (ip, 0, rest)
      end
  | Some (ip, _, rest) => Some (ip, 0, rest)
  | None =>
      match s with
      | String "." rest => digitpart 0 rest
      | _ => None
      end
  end.

Definition sign (s : string) : bool * string :=
  match s with
  | String "-" rest => (true, rest)
  | String "+" rest => (false, rest)
  | _ => (false, s)
  end.

(** [exponent ::= ("e" | "E") [sign] digitpart], when one is there. *)
Definition exponent (s : string) : option (Z * string) :=
  match s with
  | EmptyString => Some (0, s)
  | String c rest =>
      if Ascii.eqb (lower c) "e" then
        let (neg, rest) := sign rest in
        match digitpart 0 rest with
        | Some (e, _, rest) => Some (if neg then - e else e, rest)
        | None => None
        end
      else Some (0, s)
  end.

(** [floatnumber ::= number [exponent]] with nothing left over: the
    decimal value [digits * 10 ^ exp10]. *)
Definition floatnumber (s : string) : option (Z * Z) :=
  match number s with
  | Some (digits, frac, rest) =>
      match exponent rest with
      | Some (e, EmptyString) => Some (digits, e - frac)
      | _ => None
      end
  | None => None
  end.

(** floor (log2 (p / q)) for positive [p] and [q]. *)
Definition floor_log2_ratio (p q : Z) : Z :=
  let e := Z.log2 p - Z.log2 q in
  let reaches :=
    if 0 <=? e then q * 2 ^ e <=? p else q <=? p * 2 ^ (- e) in
  if reaches then e else e - 1.

(** [n / d] rounded to the nearest integer, ties to even. *)
Definition round_half_even (n d : Z) : Z :=
  let q := n / d in
  let r := n mod d in
  if 2 * r <? d then q
  else if d <? 2 * r then q + 1
  else if Z.even q then q else q + 1.

(** The binary64 nearest to the positive rational [p / q]: 53 bits of
    mantissa, exponents no lower than that of the subnormals, and infinity
    from [2 ^ 1024] on. *)
Definition nearest_binary64 (negative : bool) (p q : Z) : float :=
  let e := floor_log2_ratio p q in
  let s := Z.max (e - 52) (- 1074) in
  let m :=
    if 0 <=? s then round_half_even p (q * 2 ^ s)
    else round_half_even (p * 2 ^ (- s)) q in
  if (0 <=? s) && (2 ^ 1024 <=? m * 2 ^ s) then Inf negative
  else Finite negative m s.

Definition of_decimal (negative : bool) (digits exp10 : Z) : float :=
  if digits =? 0 then Finite negative 0 0
  else if 0 <=? exp10 then nearest_binary64 negative (digits * 10 ^ exp10) 1
  else nearest_binary64 negative digits (10 ^ (- exp10)).

(** [float(s)] for a string without surrounding whitespace. *)
Definition of_str (s : string) : outcome float :=
  let (negative, body) := sign s in
  let word := lowercase body in
  if (String.eqb word "inf" || String.eqb word "infinity")%bool
  then Return (Inf negative)
  else if String.eqb word "nan" then Return NaN
  else match floatnumber body with
       | Some (digits, exp10) => Return (of_decimal negative digits exp10)
       | None => Raise ValueError
       end.

(** [int(x)]: truncation towards zero. *)
Definition to_int (x : float) : outcome Z :=
  match x with
  | Inf _ => Raise OverflowError
  | NaN => Raise ValueError
  | Finite negative m s =>
      let magnitude := if 0 <=? s then m * 2 ^ s else m / 2 ^ (- s) in
      Return (if negative then - magnitude else magnitude)
  end.

End PyFloat.

(** [int(float(token))] *)
Definition int_float (token : string) : outcome Z :=
  let* x := PyFloat.of_str token in PyFloat.to_int x.

(** ** Metrics poller: [get_worker_stats] *)

(** What [requests.get(url, timeout=2)] does: it raises on a refused
    connection, a timeout or any other transport error, and otherwise
    gives a response with a status code and a body. *)
Inductive http_reply : Type :=
| TransportError
| Response (status_code : Z) (text : string).

(** A field of the returned dict: an [int], or the string ['-']. *)
Inductive stat : Type :=
| Unknown
| Count (n : Z).

Record worker_stats : Type := mk_stats {
  current_processing : stat;
  total_processed : stat
}.

Definition unknown_stats : worker_stats := mk_stats Unknown Unknown.

Definition nl : ascii := ascii_of_nat 10.

Definition running_prefix : string := "vllm:num_requests_running{".
Definition success_prefix : string := "vllm:request_success_total{".

(** [line.split()[-1]] *)
Definition last_token (line : string) : outcome string :=
  match rev (PyStr.split_ws line) with
  | [] => Raise IndexError
  | token :: _ => Return token
  end.

(** [int(float(line.split()[-1]))] *)
Definition line_value (line : string) : outcome Z :=
  let* token := last_token line in int_float token.

(** One turn of [for line in text.split('\n')] on [(running, total)]. *)
Definition scan_line (vars : Z * Z) (line : string) : outcome (Z * Z) :=
  let (running, total) := vars in
  if PyStr.startswith line running_prefix then
    let* v := line_value line in Return (v, total)
  else if PyStr.startswith line success_prefix then
    let* v := line_value line in Return (running, v)
  else Return vars.

Fixpoint scan_lines (vars : Z * Z) (lines : list string) : outcome (Z * Z) :=
  match lines with
  | [] => Return vars
  | line :: more => let* vars := scan_line vars line in scan_lines vars more
  end.

(** The [try] block: [Some] is the [return] inside it, [None] is falling
    out of the [if]. *)
Definition get_worker_stats_try (reply : http_reply)
  : outcome (option worker_stats) :=
  match reply with
  | TransportError => Raise RequestException
  | Response status_code text =>
      if (status_code =? 200)%Z then
        let* vars := scan_lines (0, 0)%Z (PyStr.split_on nl text) in
        let (running, total) := vars in
        Return (Some (mk_stats (Count running) (Count total)))
      else Return None
  end.

(** [get_worker_stats(port)], with [net port] the reply the worker on
    [port] gives to this request. *)
Definition get_worker_stats (net : Z -> http_reply) (port : Z)
  : outcome worker_stats :=
  match get_worker_stats_try (net port) with
  | Return (Some stats) => Return stats
  | Return None => Return unknown_stats
  | Raise e => if is_Exception e then Return unknown_stats else Raise e
  end.

Definition metrics_example : string :=
  "# HELP vllm:num_requests_running Number of requests running.
vllm:num_requests_running{model_name=m} 3.0
# TYPE vllm:request_success_total counter
vllm:request_success_total{finished_reason=stop,model_name=m} 128.0
".

(** ** Processes, events and the world outside the script *)

(** A [Popen] object of [RUNNING_PROCESSES]: the process started for
    [GPU_GROUPS[i]], or the nginx process. *)
Inductive handle : Type :=
| Worker (i : nat)
| Nginx.

Inductive preflight_error : Type :=
| NginxNotFound
| LoadBalancerPortInUse (port : Z)
| WorkerPortInUse (port : Z).

(** What the script does to its surroundings, in the order it does it. *)
Inductive event : Type :=
| Fatal (why : preflight_error)
| CleanLogs
| Popen (proc : handle) (cmd : list string)
        (cuda_visible_devices : option string) (log_file : string)
| Append (proc : handle)
| WriteConfig (path text : string)
| StatsTable (at_time : Q) (rows : list (Z * stat * stat))
| NginxCrashed (returncode : Z)
| WorkerCrashed (i : nat) (worker_port : Z) (worker_log : string)
| Stopping
| CleanupBegin
| Sigterm (proc : handle)
| CleanupEnd.

(** One turn of the monitoring loop as the script observes it. *)
Record tick : Type := mk_tick {
  interrupted : bool;            (* Ctrl+C arrives during [time.sleep(1)] *)
  clock : Q;                     (* [time.time()] *)
  net : Z -> http_reply;         (* the workers' answers to [/metrics] *)
  poll : handle -> option Z      (* [proc.poll()] *)
}.

Record world : Type := mk_world {
  which_nginx : bool;            (* [shutil.which("nginx")] finds it *)
  is_port_in_use : Z -> bool;
  popen_raises : handle -> bool; (* [subprocess.Popen] raises [OSError] *)
  ticks : list tick;
  poll_at_exit : handle -> option Z;
  killpg_raises : handle -> bool (* [os.killpg(os.getpgid(pid), 15)] *)
}.

Record args : Type := mk_args {
  model : string;
  gpus : string;
  port : Z;
  start_port : Z;
  tp : Z;
  vllm_bin : string;
  extra_args : string
}.

Definition default_args : args :=
  mk_args "Qwen/Qwen3-4B-Instruct-2507" "01,23,45,67" 8080 8000 2
          "/home/anh/projects/lighteval/.venv/bin/vllm"
          "--reasoning-parser qwen3".

(** ** The monad of the script: [RUNNING_PROCESSES], events, exceptions *)

Definition M (A : Type) : Type :=
  list handle -> outcome A * list handle * list event.

Definition ret {A : Type} (a : A) : M A := fun procs => (Return a, procs, []).

Definition bind {A B : Type} (m : M A) (k : A -> M B) : M B :=
  fun procs =>
    match m procs with
    | (Return a, procs', evs) =>
        let '(r, procs'', evs') := k a procs' in (r, procs'', evs ++ evs')
    | (Raise e, procs', evs) => (Raise e, procs', evs)
    end.

Definition raise {A : Type} (e : exn) : M A := fun procs => (Raise e, procs, []).

Definition emit (e : event) : M unit := fun procs => (Return tt, procs, [e]).

Definition running_processes : M (list handle) :=
  fun procs => (Return procs, procs, []).

(** [RUNNING_PROCESSES.append(proc)] *)
Definition append (proc : handle) : M unit :=
  fun procs => (Return tt, procs ++ [proc], [Append proc]).

Definition lift {A : Type} (x : outcome A) : M A := fun procs => (x, procs, []).

(** [try: m except E: handler], for the exceptions [catches] selects. *)
Definition try_except {A : Type} (m : M A) (catches : exn -> bool)
    (handler : M A) : M A :=
  fun procs =>
    match m procs with
    | (Raise e, procs', evs) =>
        if catches e then
          let '(r, procs'', evs') := handler procs' in (r, procs'', evs ++ evs')
        else (Raise e, procs', evs)
    | done => done
    end.

Declare Scope script_scope.
Delimit Scope script_scope with script.
Notation "x <- c ;; k" := (bind c (fun x => k))
  (at level 61, c at next level, right associativity) : script_scope.
Notation "c ;; k" := (bind c (fun _ => k))
  (at level 61, right associativity) : script_scope.

(** [for x in xs: body x] *)
Fixpoint for_each {A : Type} (xs : list A) (body : A -> M unit) : M unit :=
  match xs with
  | [] => ret tt
  | x :: more => (body x ;; for_each more body)%script
  end.

Definition trace {A : Type} (r : outcome A * list handle * list event)
  : list event := snd r.

Definition registry {A : Type} (r : outcome A * list handle * list event)
  : list handle := snd (fst r).

Definition result {A : Type} (r : outcome A * list handle * list event)
  : outcome A := fst (fst r).

(** ** The script *)

Definition LOG_DIR : string := "/tmp/vllm_py".

(** [os.path.join(a, b)] for a relative [b] and an [a] without a final
    slash. *)
Definition path_join (a b : string) : string := a ++ "/" ++ b.

Definition NGINX_CONF : string := path_join LOG_DIR "nginx_vllm.conf".
Definition NGINX_LOG_OUT : string := path_join LOG_DIR "nginx_stdout.log".
Definition NGINX_LOG_ERR : string := path_join LOG_DIR "nginx_error.log".

Definition STATS_INTERVAL : Q := 5%Q.

Definition dquote : string := String (ascii_of_nat 34) EmptyString.

(** One turn of [for port in port_list: upstream_block += ...]. *)
Definition upstream_line (upstream_block : string) (port : Z) : string :=
  upstream_block ++ "        server 127.0.0.1:" ++ PyStr.str port ++ ";
".

(** The template of the configuration up to [{upstream_block}]. *)
Definition config_head : string :=
  "
worker_processes auto;
pid " ++ LOG_DIR ++ "/nginx.pid;
error_log " ++ NGINX_LOG_ERR ++ " warn;
events { worker_connections 1024; }
http {
    access_log /dev/null;
    proxy_read_timeout 1200s;
    upstream vllm_backend {
        least_conn;
".

(** The template after [{upstream_block}], for [NGINX_PORT = nginx_port]. *)
Definition config_tail (nginx_port : Z) : string :=
  "
    }
    server {
        listen " ++ PyStr.str nginx_port ++ ";
        location / {
            proxy_pass http://vllm_backend;
            proxy_http_version 1.1;
            proxy_set_header Connection " ++ dquote ++ dquote ++ ";
            proxy_buffering off; 
        }
    }
}
".

(** The text [generate_nginx_config] writes, for [NGINX_PORT = nginx_port]. *)
Definition nginx_config (nginx_port : Z) (port_list : list Z) : string :=
  let upstream_block := fold_left upstream_line port_list "" in
  config_head ++ upstream_block ++ config_tail nginx_port.

(** [enumerate(xs)] *)
Definition enumerate {A : Type} (xs : list A) : list (nat * A) :=
  combine (seq 0 (List.length xs)) xs.

(** [xs[i]] *)
Definition item {A : Type} (xs : list A) (i : nat) : outcome A :=
  match nth_error xs i with
  | Some x => Return x
  | None => Raise IndexError
  end.

(** How the script stands when the model stops looking at it. *)
Inductive status : Type :=
| Finished        (* [main] has returned *)
| StillRunning.   (* the loop is in its next [time.sleep(1)] *)

Section Script.

Variable ARGS : args.
Variable w : world.

Local Open Scope script_scope.

Definition NGINX_PORT : Z := port ARGS.
Definition START_PORT : Z := start_port ARGS.
Definition GPU_GROUPS : list string := parse_gpu_groups (gpus ARGS).

Definition is_OSError (e : exn) : bool :=
  match e with OSError => true | _ => false end.

Definition is_KeyboardInterrupt (e : exn) : bool :=
  match e with KeyboardInterrupt => true | _ => false end.

(** [os.killpg(os.getpgid(proc.pid), 15)] *)
Definition killpg (proc : handle) : M unit :=
  if killpg_raises w proc then raise OSError else emit (Sigterm proc).

(** The body of [for proc in RUNNING_PROCESSES] in the cleanup handler. *)
Definition terminate (proc : handle) : M unit :=
  match poll_at_exit w proc with
  | None => try_except (killpg proc) is_OSError (ret tt)
  | Some _ => ret tt
  end.

Definition cleanup_processes : M unit :=
  emit CleanupBegin ;;
  procs <- running_processes ;;
  for_each procs terminate ;;
  emit CleanupEnd.

Fixpoint stats_rows (net : Z -> http_reply) (worker_ports : list Z)
  : outcome (list (Z * stat * stat)) :=
  match worker_ports with
  | [] => Return []
  | port :: more =>
      let* stats := get_worker_stats net port in
      let* rows := stats_rows net more in
      Return ((port, current_processing stats, total_processed stats) :: rows)
  end.

Definition print_stats_table (t : tick) (worker_ports : list Z) : M unit :=
  rows <- lift (stats_rows (net t) worker_ports) ;;
  emit (StatsTable (clock t) rows).

Definition sys_exit {A : Type} (code : Z) : M A := raise (SystemExit code).

(** The body of [for i in range(len(GPU_GROUPS))] in the preflight. *)
Definition check_worker_port (i : nat) : M unit :=
  let port := (START_PORT + Z.of_nat i)%Z in
  if is_port_in_use w port
  then emit (Fatal (WorkerPortInUse port)) ;; sys_exit 1
  else ret tt.

Definition check_requirements : M unit :=
  (if which_nginx w then ret tt
   else emit (Fatal NginxNotFound) ;; sys_exit 1) ;;
  (if is_port_in_use w NGINX_PORT
   then emit (Fatal (LoadBalancerPortInUse NGINX_PORT)) ;; sys_exit 1
   else ret tt) ;;
  for_each (seq 0 (List.length GPU_GROUPS)) check_worker_port.

Definition generate_nginx_config (port_list : list Z) : M unit :=
  emit (WriteConfig NGINX_CONF (nginx_config NGINX_PORT port_list)).

(** [subprocess.Popen(cmd, ...)] with its output sent to [log_file]. *)
Definition popen (proc : handle) (cmd : list string)
    (cuda_visible_devices : option string) (log_file : string) : M unit :=
  if popen_raises w proc then raise OSError
  else emit (Popen proc cmd cuda_visible_devices log_file).

Definition worker_log (worker_port : Z) : string :=
  path_join LOG_DIR ("worker_" ++ PyStr.str worker_port ++ ".log").

Definition worker_cmd (current_port : Z) : list string :=
  [vllm_bin ARGS; "serve"; model ARGS; "-tp"; PyStr.str (tp ARGS);
   "--port"; PyStr.str current_port]
  ++ (if String.eqb (extra_args ARGS) "" then []
      else PyStr.split_ws (extra_args ARGS)).

(** [for gpus in GPU_GROUPS: ...], from the [i]-th group on, threading
    [current_port] and [worker_ports]. *)
Fixpoint start_workers (groups : list string) (i : nat) (current_port : Z)
    (worker_ports : list Z) : M (list Z) :=
  match groups with
  | [] => ret worker_ports
  | gpus :: more =>
      popen (Worker i) (worker_cmd current_port) (Some gpus)
            (worker_log current_port) ;;
      append (Worker i) ;;
      start_workers more (S i) (current_port + 1)%Z
                    (worker_ports ++ [current_port])
  end.

(** [for i, proc in enumerate(RUNNING_PROCESSES[:-1]): ...], which ends at
    the first process found dead. *)
Fixpoint scan_workers (t : tick) (worker_ports : list Z)
    (procs : list (nat * handle)) : M unit :=
  match procs with
  | [] => ret tt
  | (i, proc) :: more =>
      match poll t proc with
      | Some _ =>
          worker_port <- lift (item worker_ports i) ;;
          emit (WorkerCrashed i worker_port (worker_log worker_port))
      | None => scan_workers t worker_ports more
      end
  end.

(** [while True: ...] over the turns the world provides. *)
Fixpoint monitor (worker_ports : list Z) (last_stats_time : Q)
    (turns : list tick) : M status :=
  match turns with
  | [] => ret StillRunning
  | t :: later =>
      (if interrupted t then raise KeyboardInterrupt else ret tt) ;;
      let current_time := clock t in
      last_stats_time <-
        (if Qle_bool STATS_INTERVAL (current_time - last_stats_time)
         then print_stats_table t worker_ports ;; ret current_time
         else ret last_stats_time) ;;
      match poll t Nginx with
      | Some returncode => emit (NginxCrashed returncode) ;; ret Finished
      | None =>
          procs <- running_processes ;;
          scan_workers t worker_ports (enumerate (removelast procs)) ;;
          monitor worker_ports last_stats_time later
      end
  end.

Definition main : M status :=
  check_requirements ;;
  emit CleanLogs ;;
  worker_ports <- start_workers GPU_GROUPS 0 START_PORT [] ;;
  generate_nginx_config worker_ports ;;
  popen Nginx ["nginx"; "-c"; NGINX_CONF; "-g"; "daemon off;"] None
        NGINX_LOG_OUT ;;
  append Nginx ;;
  try_except (monitor worker_ports 0%Q (ticks w)) is_KeyboardInterrupt
             (emit Stopping ;; ret Finished).

(** The whole run: [main()] on an empty [RUNNING_PROCESSES], and then, once
    the interpreter exits (by return, [sys.exit] or an exception), the
    handler given to [atexit.register]. *)
Definition run : outcome status * list handle * list event :=
  let r := main [] in
  match result r with
  | Return StillRunning => r
  | _ =>
      let c := cleanup_processes (registry r) in
      (result r, registry c, trace r ++ trace c)
  end.

End Script.

(** ** Placements *)

(** A worker's place: which process of the pool it is, the value its
    [CUDA_VISIBLE_DEVICES] gets, and the port it listens on. *)
Record placement : Type := mk_placement {
  index : nat;
  gpu_set : string;
  listen_port : Z
}.

(** The placements the worker loop of [main] goes through when it starts
    at process [i] with [current_port = port]. *)
Fixpoint plan_from (i : nat) (port : Z) (groups : list string)
  : list placement :=
  match groups with
  | [] => []
  | gpus :: more =>
      mk_placement i gpus port :: plan_from (S i) (port + 1)%Z more
  end.

Definition plan (groups : list string) (start : Z) : list placement :=
  plan_from 0 start groups.

(** The planner as one function of the two command-line values. *)
Definition topology (gpu_str : string) (start : Z) : outcome (list placement) :=
  Return (plan (parse_gpu_groups gpu_str) start).

(** The device ids a group names, as [CUDA_VISIBLE_DEVICES] is read: a
    comma-separated list, empty for the empty string. *)
Definition devices (group : string) : list string :=
  if String.eqb group "" then [] else PyStr.split_on comma group.

(** What starting the worker of one placement does. *)
Definition launch (ARGS : args) (p : placement) : list event :=
  [Popen (Worker (index p)) (worker_cmd ARGS (listen_port p))
         (Some (gpu_set p)) (worker_log (listen_port p));
   Append (Worker (index p))].

(** The parsing rule in the words of the specification, with no stripping:
    a token of length above one that holds no comma is split into its
    characters, rejoined with commas; any other token is kept. *)
Definition spec_expand (token : string) : string :=
  if (1 <? String.length token)%nat && negb (PyStr.contains comma token)
  then PyStr.join "," (PyStr.chars token)
  else token.

Definition spec_parse (gpu_str : string) : list string :=
  map spec_expand (PyStr.split_on comma gpu_str).

(** ** Reading a trace *)

(** The processes that were sent SIGTERM, in the order of the signals. *)
Definition sigterms (tr : list event) : list handle :=
  flat_map (fun e => match e with Sigterm proc => [proc] | _ => [] end) tr.

(** How many times the cleanup handler was entered. *)
Definition cleanups (tr : list event) : nat :=
  List.length
    (filter (fun e => match e with CleanupBegin => true | _ => false end) tr).

(** The workers reported as crashed, one entry per report. *)
Definition crashes (tr : list event) : list nat :=
  flat_map (fun e => match e with WorkerCrashed i _ _ => [i] | _ => [] end) tr.

(** The clock readings of the turns in which the stats table was printed. *)
Definition refresh_times (tr : list event) : list Q :=
  flat_map (fun e => match e with StatsTable now _ => [now] | _ => [] end) tr.

(** The events of the setup: starting a process, registering it, and
    writing the proxy configuration. *)
Definition is_setup (e : event) : bool :=
  match e with
  | Popen _ _ _ _ | Append _ | WriteConfig _ _ => true
  | _ => false
  end.

Definition is_dead (t : tick) (proc : handle) : bool :=
  match poll t proc with Some _ => true | None => false end.

(** The first of the [n] workers, in placement order, that a turn finds
    dead. *)
Definition first_dead (t : tick) (n : nat) : option nat :=
  find (fun i => is_dead t (Worker i)) (seq 0 n).

(** Refreshes are [spaced] after [last] when each comes at least
    [STATS_INTERVAL] after the one before it, the first after [last]. *)
Fixpoint spaced (last : Q) (times : list Q) : Prop :=
  match times with
  | [] => True
  | now :: later => (last + STATS_INTERVAL <= now)%Q /\ spaced now later
  end.

(** The preflight finds nothing wrong: nginx is installed and the port of
    the load balancer and of every worker to come is free. *)
Definition preflight_ok (ARGS : args) (w : world) : bool :=
  which_nginx w
  && negb (is_port_in_use w (NGINX_PORT ARGS))
  && forallb (fun i => negb (is_port_in_use w (START_PORT ARGS + Z.of_nat i)%Z))
             (seq 0 (List.length (GPU_GROUPS ARGS))).

(** ** Reading a proxy configuration *)

Module NginxConf.

(** A configuration as nginx tokenises it here: one directive per line,
    each line a list of words. *)
Definition directives (text : string) : list (list string) :=
  map PyStr.split_ws (PyStr.split_on nl text).

Fixpoint words_eqb (u v : list string) : bool :=
  match u, v with
  | [], [] => true
  | a :: u', b :: v' => String.eqb a b && words_eqb u' v'
  | _, _ => false
  end.

(** The lines after the first one that reads [opening]. *)
Fixpoint after (opening : list string) (ls : list (list string))
  : list (list string) :=
  match ls with
  | [] => []
  | l :: more => if words_eqb l opening then more else after opening more
  end.

(** The lines up to the closing brace of the block being read, [depth]
    counting the blocks opened inside it. *)
Fixpoint body (depth : nat) (ls : list (list string)) : list (list string) :=
  match ls with
  | [] => []
  | l :: more =>
      if words_eqb l ["}"] then
        match depth with
        | O => []
        | S d => l :: body d more
        end
      else if String.eqb (last l "") "{" then l :: body (S depth) more
      else l :: body depth more
  end.

(** The directives inside the first block opened by the line [opening]. *)
Definition block (opening : list string) (text : string)
  : list (list string) :=
  body 0 (after opening (directives text)).

(** How many lines of a configuration read [line]. *)
Definition occurrences (line : list string) (text : string) : nat :=
  List.length (filter (fun l => words_eqb l line) (directives text)).

(** [s] without its final [";"]. *)
Fixpoint chop_semicolon (s : string) : option string :=
  match s with
  | EmptyString => None
  | String c rest =>
      match rest with
      | EmptyString => if Ascii.eqb c ";" then Some EmptyString else None
      | _ => option_map (String c) (chop_semicolon rest)
      end
  end.

Definition read_int (s : string) : option Z :=
  option_map Z.of_int (NilEmpty.int_of_string s).

(** [s] without the prefix [p], when it has it. *)
Fixpoint drop_prefix (p s : string) : option string :=
  match p, s with
  | EmptyString, _ => Some s
  | String a p', String b s' =>
      if Ascii.eqb a b then drop_prefix p' s' else None
  | String _ _, EmptyString => None
  end.

(** The port of a [server 127.0.0.1:PORT;] line. *)
Definition server_port (l : list string) : option Z :=
  match l with
  | [directive; address] =>
      if String.eqb directive "server" then
        match drop_prefix "127.0.0.1:" address with
        | Some rest =>
            match chop_semicolon rest with
            | Some digits => read_int digits
            | None => None
            end
        | None => None
        end
      else None
  | _ => None
  end.

(** The port of a [listen PORT;] line. *)
Definition listen_port_of (l : list string) : option Z :=
  match l with
  | [directive; value] =>
      if String.eqb directive "listen"
      then match chop_semicolon value with
           | Some digits => read_int digits
           | None => None
           end
      else None
  | _ => None
  end.

(** The ports of the servers of the upstream pool, in the order listed. *)
Definition upstream_ports (text : string) : list Z :=
  flat_map (fun l => match server_port l with Some p => [p] | None => [] end)
           (block ["upstream"; "vllm_backend"; "{"] text).

(** The ports the virtual server listens on. *)
Definition listen_ports (text : string) : list Z :=
  flat_map (fun l => match listen_port_of l with Some p => [p] | None => [] end)
           (block ["server"; "{"] text).

End NginxConf.

(** ** How far the setup gets *)

(** How many of [groups] get their worker started, from process [i] on,
    before a [Popen] raises. *)
Fixpoint launched (w : world) (i : nat) (groups : list string) : nat :=
  match groups with
  | [] => 0
  | _ :: more =>
      if popen_raises w (Worker i) then 0 else S (launched w (S i) more)
  end.

(** Every process of the run starts: no [Popen] raises. *)
Definition popen_ok (ARGS : args) (w : world) : bool :=
  forallb (fun i => negb (popen_raises w (Worker i)))
          (seq 0 (List.length (GPU_GROUPS ARGS)))
  && negb (popen_raises w Nginx).

(** The events of the setup when all of it succeeds. *)
Definition setup_trace (ARGS : args) : list event :=
  let placements := plan (GPU_GROUPS ARGS) (START_PORT ARGS) in
  CleanLogs :: flat_map (launch ARGS) placements
  ++ [WriteConfig NGINX_CONF
        (nginx_config (NGINX_PORT ARGS) (map listen_port placements));
      Popen Nginx ["nginx"; "-c"; NGINX_CONF; "-g"; "daemon off;"] None
            NGINX_LOG_OUT;
      Append Nginx].

(** [RUNNING_PROCESSES] once the setup is done: the workers in placement
    order, then nginx. *)
Definition full_registry (n : nat) : list handle :=
  map Worker (seq 0 n) ++ [Nginx].

(** ** Reading a metrics page *)

(** The request or the parsing of its answer fails: a transport error, a
    status other than 200, or an exception while the lines are scanned. *)
Definition poll_failed (reply : http_reply) : Prop :=
  match reply with
  | TransportError => True
  | Response status_code text =>
      status_code <> 200%Z
      \/ exists e, scan_lines (0, 0)%Z (PyStr.split_on nl text) = Raise e
  end.

(** The last of [lines] that starts with [prefix], after [seen]. *)
Definition last_match (prefix : string) (seen : option string)
    (lines : list string) : option string :=
  fold_left (fun found line =>
               if PyStr.startswith line prefix then Some line else found)
            lines seen.

(** The value a metric has on a page: that of its last line, and 0 when
    no line carries it. *)
Definition field_value (prefix : string) (lines : list string) : outcome Z :=
  match last_match prefix None lines with
  | Some line => line_value line
  | None => Return 0%Z
  end.

(** The state of one metric during the scan: [v] is the value of the last
    line seen for it, or still the initial 0. *)
Definition tracks (found : option string) (v : Z) : Prop :=
  match found with
  | Some line => line_value line = Return v
  | None => v = 0%Z
  end.

(** Every line that carries one of the two metrics ends in a token that
    [int(float(...))] accepts. *)
Definition parses (lines : list string) : Prop :=
  Forall (fun line =>
            PyStr.startswith line running_prefix
            || PyStr.startswith line success_prefix = true ->
            exists v, line_value line = Return v)
         lines.

(** ** What one turn of the loop shows *)

(** The rows of the stats table for a turn with network [net]. *)
Definition table_rows (net : Z -> http_reply) (worker_ports : list Z)
  : list (Z * stat * stat) :=
  map (fun port =>
         let stats := match get_worker_stats net port with
                      | Return stats => stats
                      | Raise _ => unknown_stats
                      end in
         (port, current_processing stats, total_processed stats))
      worker_ports.

(** The table of a turn that comes [STATS_INTERVAL] or more after
    [last_stats_time], and nothing otherwise. *)
Definition is_due (last_stats_time : Q) (t : tick) : bool :=
  Qle_bool STATS_INTERVAL (clock t - last_stats_time).

Definition stats_report (last_stats_time : Q) (t : tick)
    (worker_ports : list Z) : list event :=
  if is_due last_stats_time t
  then [StatsTable (clock t) (table_rows (net t) worker_ports)]
  else [].

(** The crash report of a turn: the first dead worker, if there is one. *)
Definition crash_report (t : tick) (worker_ports : list Z) : list event :=
  match first_dead t (List.length worker_ports) with
  | Some i =>
      let worker_port := nth i worker_ports 0%Z in
      [WorkerCrashed i worker_port (worker_log worker_port)]
  | None => []
  end.

(** The events of the monitoring loop. *)
Definition is_loop_event (e : event) : bool :=
  match e with
  | StatsTable _ _ | NginxCrashed _ | WorkerCrashed _ _ _ => true
  | _ => false
  end.

(** The cleanup handler sends SIGTERM to [proc]: the process has not
    exited, and the system call does not raise. *)
Definition signalled (w : world) (proc : handle) : bool :=
  match poll_at_exit w proc with
  | None => negb (killpg_raises w proc)
  | Some _ => false
  end.

(** A turn that ends the loop: Ctrl+C, or nginx found dead. *)
Definition ends_loop (t : tick) : bool :=
  interrupted t || is_dead t Nginx.

(** The ports of the workers, as [main] collects them in [worker_ports]
    when every worker starts. *)
Definition planned_ports (ARGS : args) : list Z :=
  map listen_port (plan (GPU_GROUPS ARGS) (START_PORT ARGS)).

(** The number of the first dead worker of a turn, as a list. *)
Definition reported (n : nat) (t : tick) : list nat :=
  match first_dead t n with
  | Some i => [i]
  | None => []
  end.

(** The processes appended to [RUNNING_PROCESSES], in order. *)
Definition appended (tr : list event) : list handle :=
  flat_map (fun e => match e with Append proc => [proc] | _ => [] end) tr.

(** The events of the cleanup handler. *)
Definition is_cleanup_event (e : event) : bool :=
  match e with
  | CleanupBegin | Sigterm _ | CleanupEnd => true
  | _ => false
  end.

(** The events that concern the proxy: its configuration, its start and
    its registration. *)
Definition is_proxy_setup (e : event) : bool :=
  match e with
  | WriteConfig _ _ | Popen Nginx _ _ _ | Append Nginx => true
  | _ => false
  end.

(** What [main] does once the setup is done: the loop, and the handler of
    Ctrl+C around it. *)
Definition monitoring (worker_ports : list Z) (turns : list tick)
  : M status :=
  try_except (monitor worker_ports 0%Q turns) is_KeyboardInterrupt
             (bind (emit Stopping) (fun _ => ret Finished)).

(** ** Sample runs *)

Definition quiet_tick (now : Q) : tick :=
  mk_tick false now (fun _ => TransportError) (fun _ => None).

Definition interrupt_tick (now : Q) : tick :=
  mk_tick true now (fun _ => TransportError) (fun _ => None).

(** A turn in which every worker is found dead and nginx alive. *)
Definition workers_dead_tick (now : Q) : tick :=
  mk_tick false now (fun _ => TransportError)
          (fun proc => match proc with Worker _ => Some 1%Z | Nginx => None end).

(** Three workers, on ports 8000 to 8002. *)
Definition three_groups : args :=
  mk_args "m" "01,23,45" 8080 8000 2 "vllm" "".

(** Ctrl+C in the second turn, when worker 1 has already exited. *)
Definition world_interrupted : world :=
  mk_world true (fun _ => false) (fun _ => false)
           [quiet_tick 1700000001; interrupt_tick 1700000002]
           (fun proc => match proc with Worker 1 => Some 1%Z | _ => None end)
           (fun _ => false).

(** Port 8080 is taken before the script starts. *)
Definition world_port_busy : world :=
  mk_world true (fun p => (p =? 8080)%Z) (fun _ => false)
           [quiet_tick 1700000001] (fun _ => None) (fun _ => false).

(** All workers die at once; nginx stays up and nobody presses Ctrl+C. *)
Definition world_workers_dead : world :=
  mk_world true (fun _ => false) (fun _ => false)
           [quiet_tick 1700000001; workers_dead_tick 1700000002;
            workers_dead_tick 1700000003]
           (fun _ => None) (fun _ => false).

(** ** Sample metrics pages *)

(** The two lines of the specification's example. *)
Definition metrics_two_lines : string :=
  "vllm:num_requests_running{...} 3.0
vllm:request_success_total{...} 128.0".

(** A page whose only metric line ends in a token that is no number. *)
Definition metrics_malformed : string :=
  "vllm:request_success_total{model_name=m} n/a".

(** ** Characters of a string *)

(** Every character of [s] passes the test [p]. *)
Fixpoint all_chars (p : ascii -> bool) (s : string) : bool :=
  match s with
  | EmptyString => true
  | String c rest => p c && all_chars p rest
  end.

(** A character [str] can produce: a digit or the minus sign. *)
Definition is_decimal_char (c : ascii) : bool :=
  let n := nat_of_ascii c in
  (((48 <=? n) && (n <=? 57)) || (n =? 45))%nat.

(** The line of the upstream pool for one port, without its newline. *)
Definition server_line (port : Z) : string :=
  "        server 127.0.0.1:" ++ PyStr.str port ++ ";".

(** The lines [ls], each followed by a newline. *)
Fixpoint lines_text (ls : list string) : string :=
  match ls with
  | [] => EmptyString
  | l :: more => l ++ String nl (lines_text more)
  end.

(** A line that neither opens nor closes a block. *)
Definition is_plain (l : list string) : bool :=
  negb (NginxConf.words_eqb l ["}"]) && negb (String.eqb (last l "") "{").

(** ** The directives of the generated configuration *)

(** The directives before the servers of the upstream pool. *)
Definition head_directives : list (list string) :=
  [[];
   ["worker_processes"; "auto;"];
   ["pid"; "/tmp/vllm_py/nginx.pid;"];
   ["error_log"; "/tmp/vllm_py/nginx_error.log"; "warn;"];
   ["events"; "{"; "worker_connections"; "1024;"; "}"];
   ["http"; "{"];
   ["access_log"; "/dev/null;"];
   ["proxy_read_timeout"; "1200s;"];
   ["upstream"; "vllm_backend"; "{"];
   ["least_conn;"]].

(** The directive of the pool for one worker port. *)
Definition server_directive (port : Z) : list string :=
  ["server"; ("127.0.0.1:" ++ PyStr.str port ++ ";")%string].

(** The directives of the virtual server, in its block. *)
Definition server_block (nginx_port : Z) : list (list string) :=
  [["listen"; (PyStr.str nginx_port ++ ";")%string];
   ["location"; "/"; "{"];
   ["proxy_pass"; "http://vllm_backend;"];
   ["proxy_http_version"; "1.1;"];
   ["proxy_set_header"; "Connection"; (dquote ++ dquote ++ ";")%string];
   ["proxy_buffering"; "off;"];
   ["}"]].

(** The directives after the servers of the upstream pool. *)
Definition tail_directives (nginx_port : Z) : list (list string) :=
  [[]; ["}"]; ["server"; "{"]] ++ server_block nginx_port
  ++ [["}"]; ["}"]; []].

(** ** Counting *)

(** How many times the character [c] occurs in [s]. *)
Fixpoint count_char (c : ascii) (s : string) : nat :=
  match s with
  | EmptyString => 0
  | String d rest => (if Ascii.eqb d c then 1 else 0) + count_char c rest
  end.

(** ** Turns that do not end the loop *)

(** [last_stats_time] after the turns [turns], none of which ends the
    loop. *)
Fixpoint stats_time_after (last_stats_time : Q) (turns : list tick) : Q :=
  match turns with
  | [] => last_stats_time
  | t :: later =>
      stats_time_after
        (if is_due last_stats_time t then clock t else last_stats_time) later
  end.

(** What the loop prints during them: for each turn the table if it is
    due, then the crash report. *)
Fixpoint quiet_trace (worker_ports : list Z) (last_stats_time : Q)
    (turns : list tick) : list event :=
  match turns with
  | [] => []
  | t :: later =>
      stats_report last_stats_time t worker_ports
      ++ crash_report t worker_ports
      ++ quiet_trace worker_ports
           (if is_due last_stats_time t then clock t else last_stats_time)
           later
  end.

(** The events of the cleanup handler on the registry [procs]. *)
Definition cleanup_trace (w : world) (procs : list handle) : list event :=
  CleanupBegin :: map Sigterm (filter (signalled w) procs) ++ [CleanupEnd].

(** ** More sample runs *)

(** A turn in which nginx is found dead with exit code 1, and worker 0
    too. *)
Definition nginx_dead_tick (now : Q) : tick :=
  mk_tick false now (fun _ => TransportError)
          (fun proc => match proc with
                       | Nginx | Worker 0 => Some 1%Z
                       | _ => None
                       end).

(** nginx dies in the second turn. *)
Definition world_nginx_crash : world :=
  mk_world true (fun _ => false) (fun _ => false)
           [quiet_tick 1700000001; nginx_dead_tick 1700000002;
            quiet_tick 1700000003]
           (fun proc => match proc with Nginx => Some 1%Z | _ => None end)
           (fun _ => false).

(** ** Numbers on a metrics page *)

(** What may follow the digits of a number: nothing, or the point. *)
Definition ends_digits (rest : string) : Prop :=
  rest = EmptyString \/ exists r, rest = String "." r.

(** ** A port given twice *)

(** The load balancer is given the port of worker 1. *)
Definition clashing_ports : args :=
  mk_args "m" "01,23,45" 8001 8000 2 "vllm" "".

(** ** A steady pace *)

(** Turns at a steady pace after a turn at [prev]: each comes a second or
    more after the one before it, and less than a second and a quarter. *)
Fixpoint steady (prev : Q) (turns : list tick) : Prop :=
  match turns with
  | [] => True
  | t :: later =>
      (prev + 1 <= clock t)%Q /\ (clock t < prev + (5 # 4))%Q
      /\ steady (clock t) later
  end.

(** Every fifth turn, once [wait] turns have been left out. *)
Fixpoint every_fifth (wait : nat) (turns : list tick) : list tick :=
  match turns with
  | [] => []
  | t :: later =>
      match wait with
      | 0 => t :: every_fifth 4 later
      | S wait => every_fifth wait later
      end
  end.

(** Six turns a second apart in which nothing happens. *)
Definition world_six_turns : world :=
  mk_world true (fun _ => false) (fun _ => false)
           [quiet_tick 1700000001; quiet_tick 1700000002;
            quiet_tick 1700000003; quiet_tick 1700000004;
            quiet_tick 1700000005; quiet_tick 1700000006]
           (fun _ => None) (fun _ => false).

(** * Properties *)

(** ** The string primitives on examples *)

Example parse_gpu_groups_default :
  parse_gpu_groups "01,23,45,67" = ["0,1"; "2,3"; "4,5"; "6,7"].
Proof. reflexivity. Qed.

Example parse_gpu_groups_singles :
  parse_gpu_groups "0,1,2,3" = ["0"; "1"; "2"; "3"].
Proof. reflexivity. Qed.

Example parse_gpu_groups_blank_token :
  parse_gpu_groups "01,,23" = ["0,1"; ""; "2,3"].
Proof. reflexivity. Qed.

Example parse_gpu_groups_spaces :
  parse_gpu_groups "0, 1" = ["0"; "1"].
Proof. reflexivity. Qed.

Example str_examples :
  PyStr.str 8000%Z = "8000" /\ PyStr.str 0%Z = "0" /\ PyStr.str (-7)%Z = "-7".
Proof. repeat split; reflexivity. Qed.

Example split_ws_example :
  PyStr.split_ws "  a{x=1}   3.0 " = ["a{x=1}"; "3.0"].
Proof. reflexivity. Qed.

Example int_float_examples :
  map int_float ["3.0"; "128.0"; "-2.75"; "1e3"; "1_0.5E-1"; ".5"; "7."; "+0"]
  = map Return [3; 128; -2; 1000; 1; 0; 7; 0]%Z.
Proof. vm_compute. reflexivity. Qed.

Example int_float_rounds_to_binary64 :
  map int_float ["0.99999999999999999999"; "9007199254740993"; "1e23"]
  = map Return [1; 9007199254740992; 99999999999999991611392]%Z.
Proof. vm_compute. reflexivity. Qed.

Example int_float_rejects :
  map int_float ["abc"; "nan"; "inf"; "-Infinity"; "1e400"; "1e"; "1__0"; "."; ""; "0x10"]
  = map Raise [ValueError; ValueError; OverflowError; OverflowError;
               OverflowError; ValueError; ValueError; ValueError; ValueError;
               ValueError].
Proof. vm_compute. reflexivity. Qed.

Example get_worker_stats_example :
  get_worker_stats (fun _ => Response 200 metrics_example) 8000%Z
  = Return (mk_stats (Count 3) (Count 128)).
Proof. vm_compute. reflexivity. Qed.

(** ** Facts about the string primitives *)

Section StringFacts.

Lemma split_on_nonempty (sep : ascii) (s : string) :
  PyStr.split_on sep s <> [].
Proof.
  destruct s as [|c rest]; simpl; [discriminate|].
  destruct (Ascii.eqb c sep); [discriminate|].
  destruct (PyStr.split_on sep rest); discriminate.
Qed.

(** No field of a split holds the separator. *)
Lemma split_on_fields (sep : ascii) (s : string) :
  Forall (fun field => PyStr.contains sep field = false)
         (PyStr.split_on sep s).
Proof.
  induction s as [|c rest IH]; simpl.
  - constructor; [reflexivity | constructor].
  - destruct (Ascii.eqb c sep) eqn:E.
    + constructor; [reflexivity | exact IH].
    + destruct (PyStr.split_on sep rest) as [|field fields].
      * constructor; [simpl; now rewrite E | constructor].
      * inversion IH as [|? ? Hf Hfs]; subst.
        constructor; [simpl; now rewrite E | exact Hfs].
Qed.

Lemma contains_lstrip (c : ascii) (s : string) :
  PyStr.contains c s = false -> PyStr.contains c (PyStr.lstrip s) = false.
Proof.
  induction s as [|d rest IH]; simpl; [trivial|].
  intros H. apply orb_false_iff in H as [Hd Hrest].
  destruct (PyStr.is_space d); [auto|].
  simpl. now rewrite Hd, Hrest.
Qed.

Lemma contains_rstrip (c : ascii) (s : string) :
  PyStr.contains c s = false -> PyStr.contains c (PyStr.rstrip s) = false.
Proof.
  induction s as [|d rest IH]; simpl; [trivial|].
  intros H. apply orb_false_iff in H as [Hd Hrest].
  specialize (IH Hrest).
  destruct (PyStr.rstrip rest) as [|k kept].
  - destruct (PyStr.is_space d); simpl; [reflexivity | now rewrite Hd].
  - simpl in *. now rewrite Hd, IH.
Qed.

Lemma contains_strip (c : ascii) (s : string) :
  PyStr.contains c s = false -> PyStr.contains c (PyStr.strip s) = false.
Proof.
  intros H. unfold PyStr.strip. now apply contains_rstrip, contains_lstrip.
Qed.

(** Splitting the expansion of a token at the commas gives its characters
    back, when none of them is a comma. *)
Lemma split_join_chars (s : string) :
  s <> EmptyString ->
  PyStr.contains comma s = false ->
  PyStr.split_on comma (PyStr.join "," (PyStr.chars s)) = PyStr.chars s.
Proof.
  induction s as [|c rest IH]; [congruence|].
  intros _ H. simpl in H. apply orb_false_iff in H as [Hc Hrest].
  destruct rest as [|d rest'].
  - simpl. now rewrite Hc.
  - change (PyStr.join "," (PyStr.chars (String c (String d rest'))))
      with (String c (String comma
              (PyStr.join "," (PyStr.chars (String d rest'))))).
    cbn [PyStr.split_on]. rewrite Hc, Ascii.eqb_refl.
    rewrite IH by (congruence || assumption).
    reflexivity.
Qed.

Lemma startswith_app (p s : string) :
  PyStr.startswith s p = true -> exists rest, s = (p ++ rest)%string.
Proof.
  revert s. induction p as [|a p' IH]; intros s; simpl.
  - intros _. now exists s.
  - destruct s as [|b s']; [discriminate|].
    intros H. apply andb_true_iff in H as [Hab Hrest].
    apply Ascii.eqb_eq in Hab as <-.
    destruct (IH _ Hrest) as [rest ->]. now exists rest.
Qed.

End StringFacts.

(** ** The worker loop of [main] *)

Section Setup.

Variable ARGS : args.
Variable w : world.

Lemma plan_from_length (groups : list string) (i : nat) (p : Z) :
  List.length (plan_from i p groups) = List.length groups.
Proof.
  revert i p. induction groups as [|g more IH]; intros; simpl; [reflexivity|].
  now rewrite IH.
Qed.

(** The [k]-th placement is process [i + k], with the [k]-th group, on port
    [p + k]. *)
Lemma plan_from_nth (groups : list string) (i : nat) (p : Z) (k : nat) :
  nth_error (plan_from i p groups) k
  = option_map (fun g => mk_placement (i + k) g (p + Z.of_nat k))
               (nth_error groups k).
Proof.
  revert i p k. induction groups as [|g more IH]; intros i p k.
  - destruct k; reflexivity.
  - destruct k as [|k]; simpl.
    + now rewrite Nat.add_0_r, Z.add_0_r.
    + rewrite IH. destruct (nth_error more k); simpl; [|reflexivity].
      f_equal. f_equal; lia.
Qed.

Lemma plan_from_ports (groups : list string) (i : nat) (p : Z) :
  map listen_port (plan_from i p groups)
  = map (fun k => (p + Z.of_nat k)%Z) (seq 0 (List.length groups)).
Proof.
  revert i p. induction groups as [|g more IH]; intros i p; simpl.
  - reflexivity.
  - rewrite Z.add_0_r. f_equal. rewrite IH, <- seq_shift, map_map.
    apply map_ext. intros k. lia.
Qed.

Lemma plan_from_indices (groups : list string) (i : nat) (p : Z) :
  map index (plan_from i p groups) = seq i (List.length groups).
Proof.
  revert i p. induction groups as [|g more IH]; intros i p; simpl.
  - reflexivity.
  - now rewrite IH.
Qed.

Lemma plan_from_groups (groups : list string) (i : nat) (p : Z) :
  map gpu_set (plan_from i p groups) = groups.
Proof.
  revert i p. induction groups as [|g more IH]; intros i p; simpl.
  - reflexivity.
  - now rewrite IH.
Qed.

Lemma launched_le (groups : list string) (i : nat) :
  launched w i groups <= List.length groups.
Proof.
  revert i. induction groups as [|g more IH]; intros i; simpl; [lia|].
  destruct (popen_raises w (Worker i)); [lia|].
  specialize (IH (S i)). lia.
Qed.

(** What the worker loop does in any world: it starts the placements one
    by one, registering each, up to the first [Popen] that raises. *)
Lemma start_workers_run (groups : list string) (i : nat) (p : Z)
    (ports : list Z) (procs : list handle) :
  let k := launched w i groups in
  let started := firstn k (plan_from i p groups) in
  start_workers ARGS w groups i p ports procs
  = (if (k =? List.length groups)%nat
     then Return (ports ++ map listen_port started)
     else Raise OSError,
     procs ++ map Worker (seq i k),
     flat_map (launch ARGS) started).
Proof.
  revert i p ports procs.
  induction groups as [|g more IH]; intros i p ports procs; simpl.
  - unfold ret. now rewrite !app_nil_r.
  - unfold bind at 1, popen at 1.
    destruct (popen_raises w (Worker i)) eqn:E; simpl.
    + unfold raise. now rewrite app_nil_r.
    + unfold bind at 1, append at 1.
      rewrite IH. simpl.
      rewrite <- !app_assoc. simpl.
      destruct (launched w (S i) more =? List.length more)%nat; reflexivity.
Qed.

Lemma launched_all (groups : list string) (i : nat) :
  forallb (fun j => negb (popen_raises w (Worker j)))
          (seq i (List.length groups)) = true ->
  launched w i groups = List.length groups.
Proof.
  revert i. induction groups as [|g more IH]; intros i; simpl; [reflexivity|].
  intros H. apply andb_true_iff in H as [Hi Hmore].
  apply negb_true_iff in Hi. rewrite Hi. now rewrite IH.
Qed.

End Setup.

(** ** The metrics poller *)

Section Poller.

Lemma int_float_raises (token : string) (e : exn) :
  int_float token = Raise e -> is_Exception e = true.
Proof.
  unfold int_float, PyFloat.of_str.
  destruct (PyFloat.sign token) as [negative body].
  destruct (String.eqb _ "inf" || String.eqb _ "infinity").
  { simpl. intros [= <-]. reflexivity. }
  destruct (String.eqb _ "nan").
  { simpl. intros [= <-]. reflexivity. }
  destruct (PyFloat.floatnumber body) as [[digits exp10]|]; simpl.
  - destruct (PyFloat.of_decimal negative digits exp10); simpl;
      intros [= <-] || discriminate; reflexivity.
  - intros [= <-]. reflexivity.
Qed.

Lemma line_value_raises (line : string) (e : exn) :
  line_value line = Raise e -> is_Exception e = true.
Proof.
  unfold line_value, last_token.
  destruct (rev (PyStr.split_ws line)) as [|token ?]; simpl.
  - intros [= <-]. reflexivity.
  - apply int_float_raises.
Qed.

Lemma scan_line_raises (vars : Z * Z) (line : string) (e : exn) :
  scan_line vars line = Raise e -> is_Exception e = true.
Proof.
  destruct vars as [running total]. unfold scan_line.
  destruct (PyStr.startswith line running_prefix).
  - destruct (line_value line) eqn:E; simpl; [discriminate|].
    intros [= <-]. eapply line_value_raises, E.
  - destruct (PyStr.startswith line success_prefix); [|discriminate].
    destruct (line_value line) eqn:E; simpl; [discriminate|].
    intros [= <-]. eapply line_value_raises, E.
Qed.

Lemma scan_lines_raises (lines : list string) (vars : Z * Z) (e : exn) :
  scan_lines vars lines = Raise e -> is_Exception e = true.
Proof.
  revert vars. induction lines as [|line more IH]; intros vars; simpl.
  - discriminate.
  - destruct (scan_line vars line) eqn:E; simpl.
    + apply IH.
    + intros [= <-]. eapply scan_line_raises, E.
Qed.

(** Whatever the worker answers, the poller returns a value. *)
Lemma get_worker_stats_returns (net : Z -> http_reply) (port : Z) :
  exists stats, get_worker_stats net port = Return stats.
Proof.
  unfold get_worker_stats, get_worker_stats_try.
  destruct (net port) as [|status_code text]; simpl; [eauto|].
  destruct (status_code =? 200)%Z; [|eauto].
  destruct (scan_lines _ _) as [[running total]|e] eqn:E; simpl; [eauto|].
  rewrite (scan_lines_raises _ _ _ E). eauto.
Qed.

Lemma get_worker_stats_failed (net : Z -> http_reply) (port : Z) :
  poll_failed (net port) -> get_worker_stats net port = Return unknown_stats.
Proof.
  unfold get_worker_stats, get_worker_stats_try, poll_failed.
  destruct (net port) as [|status_code text]; simpl; [reflexivity|].
  intros [Hcode | [e He]].
  - apply Z.eqb_neq in Hcode. now rewrite Hcode.
  - destruct (status_code =? 200)%Z; [|reflexivity].
    rewrite He. simpl. now rewrite (scan_lines_raises _ _ _ He).
Qed.

(** A line carries at most one of the two metrics. *)
Lemma prefixes_exclusive (line : string) :
  PyStr.startswith line running_prefix = true ->
  PyStr.startswith line success_prefix = false.
Proof.
  intros Hr.
  destruct (PyStr.startswith line success_prefix) eqn:Hs; [|reflexivity].
  apply startswith_app in Hr as [rest ->].
  apply startswith_app in Hs as [rest' Hs].
  discriminate Hs.
Qed.

Lemma scan_lines_tracks (lines : list string) :
  parses lines ->
  forall (running total : Z) (seen_r seen_t : option string),
    tracks seen_r running -> tracks seen_t total ->
    exists r t,
      scan_lines (running, total) lines = Return (r, t)
      /\ tracks (last_match running_prefix seen_r lines) r
      /\ tracks (last_match success_prefix seen_t lines) t.
Proof.
  unfold parses.
  induction 1 as [|line more Hline _ IH]; intros running total seen_r seen_t Hr Ht.
  - exists running, total. simpl. auto.
  - simpl. unfold scan_line.
    destruct (PyStr.startswith line running_prefix) eqn:Er.
    + rewrite (prefixes_exclusive _ Er).
      destruct (Hline eq_refl) as [v Hv]. rewrite Hv. simpl.
      apply IH; [exact Hv | exact Ht].
    + destruct (PyStr.startswith line success_prefix) eqn:Et.
      * destruct (Hline eq_refl) as [v Hv]. rewrite Hv. simpl.
        apply IH; [exact Hr | exact Hv].
      * simpl. apply IH; assumption.
Qed.

Lemma last_match_none (prefix : string) (lines : list string) :
  Forall (fun line => PyStr.startswith line prefix = false) lines ->
  last_match prefix None lines = None.
Proof.
  unfold last_match. induction 1 as [|line more Hline _ IH]; simpl.
  - reflexivity.
  - now rewrite Hline.
Qed.

End Poller.

(** ** Running the script *)

Section Run.

Variable ARGS : args.
Variable w : world.

Lemma terminate_run (proc : handle) (reg : list handle) :
  terminate w proc reg
  = (Return tt, reg, if signalled w proc then [Sigterm proc] else []).
Proof.
  unfold terminate, signalled, try_except, killpg.
  destruct (poll_at_exit w proc); [reflexivity|].
  destruct (killpg_raises w proc); reflexivity.
Qed.

Lemma terminate_all (procs reg : list handle) :
  for_each procs (terminate w) reg
  = (Return tt, reg, map Sigterm (filter (signalled w) procs)).
Proof.
  induction procs as [|proc more IH]; cbn [for_each]; [reflexivity|].
  unfold bind at 1. rewrite terminate_run, IH. cbn [filter].
  destruct (signalled w proc); reflexivity.
Qed.

(** The cleanup handler never raises, leaves [RUNNING_PROCESSES] as it is,
    and signals the processes that [signalled] selects, in order. *)
Lemma cleanup_processes_run (procs : list handle) :
  cleanup_processes w procs
  = (Return tt, procs,
     CleanupBegin :: map Sigterm (filter (signalled w) procs) ++ [CleanupEnd]).
Proof.
  unfold cleanup_processes, bind, emit, running_processes.
  rewrite terminate_all. reflexivity.
Qed.

Lemma check_worker_ports_free (l : list nat) (procs : list handle) :
  forallb (fun i => negb (is_port_in_use w (START_PORT ARGS + Z.of_nat i)%Z)) l
  = true ->
  for_each l (check_worker_port ARGS w) procs = (Return tt, procs, []).
Proof.
  induction l as [|i more IH]; cbn [for_each forallb]; [reflexivity|].
  intros H. apply andb_true_iff in H as [Hi Hmore].
  apply negb_true_iff in Hi.
  unfold bind at 1, check_worker_port at 1. rewrite Hi.
  unfold ret at 1. cbv beta iota. now rewrite (IH Hmore).
Qed.

Lemma check_worker_ports_busy (l : list nat) (procs : list handle) :
  forallb (fun i => negb (is_port_in_use w (START_PORT ARGS + Z.of_nat i)%Z)) l
  = false ->
  exists why,
    for_each l (check_worker_port ARGS w) procs
    = (Raise (SystemExit 1), procs, [Fatal why]).
Proof.
  induction l as [|i more IH]; cbn [for_each forallb]; [discriminate|].
  intros H. unfold bind at 1, check_worker_port at 1.
  destruct (is_port_in_use w (START_PORT ARGS + Z.of_nat i)) eqn:Hi.
  - eexists. reflexivity.
  - simpl in H. destruct (IH H) as [why E].
    unfold ret at 1. cbv beta iota. rewrite E. now exists why.
Qed.

Lemma check_requirements_passes (procs : list handle) :
  preflight_ok ARGS w = true ->
  check_requirements ARGS w procs = (Return tt, procs, []).
Proof.
  unfold preflight_ok, check_requirements. intros H.
  apply andb_true_iff in H as [H Hworkers].
  apply andb_true_iff in H as [Hnginx Hport].
  apply negb_true_iff in Hport.
  rewrite Hnginx, Hport. unfold bind, ret.
  now rewrite (check_worker_ports_free _ _ Hworkers).
Qed.

Lemma check_requirements_aborts (procs : list handle) :
  preflight_ok ARGS w = false ->
  exists why,
    check_requirements ARGS w procs = (Raise (SystemExit 1), procs, [Fatal why]).
Proof.
  unfold preflight_ok, check_requirements. intros H.
  destruct (which_nginx w); simpl in H.
  - destruct (is_port_in_use w (NGINX_PORT ARGS)); simpl in H.
    + eexists. reflexivity.
    + unfold bind, ret.
      destruct (check_worker_ports_busy _ procs H) as [why ->].
      now exists why.
  - eexists. reflexivity.
Qed.

End Run.

(** ** The monitoring loop *)

Section Monitor.

Lemma stats_rows_run (net : Z -> http_reply) (worker_ports : list Z) :
  stats_rows net worker_ports = Return (table_rows net worker_ports).
Proof.
  induction worker_ports as [|port more IH]; simpl; [reflexivity|].
  destruct (get_worker_stats_returns net port) as [stats ->].
  simpl. rewrite IH. reflexivity.
Qed.

Lemma print_stats_table_run (t : tick) (worker_ports : list Z)
    (procs : list handle) :
  print_stats_table t worker_ports procs
  = (Return tt, procs,
     [StatsTable (clock t) (table_rows (net t) worker_ports)]).
Proof.
  unfold print_stats_table, bind, lift, emit.
  rewrite stats_rows_run. reflexivity.
Qed.

Lemma combine_map_self {A B : Type} (f : A -> B) (l : list A) :
  combine l (map f l) = map (fun a => (a, f a)) l.
Proof.
  induction l as [|a l IH]; simpl; [reflexivity|]. now rewrite IH.
Qed.

(** The processes the worker scan goes through, with their numbers. *)
Lemma enumerate_workers (n : nat) :
  enumerate (removelast (full_registry n))
  = map (fun i => (i, Worker i)) (seq 0 n).
Proof.
  unfold full_registry, enumerate.
  rewrite removelast_last, length_map, length_seq.
  apply combine_map_self.
Qed.

Lemma scan_workers_run (t : tick) (worker_ports : list Z) (l : list nat)
    (procs : list handle) :
  Forall (fun i => i < List.length worker_ports) l ->
  scan_workers t worker_ports (map (fun i => (i, Worker i)) l) procs
  = (Return tt, procs,
     match find (fun i => is_dead t (Worker i)) l with
     | Some i =>
         let worker_port := nth i worker_ports 0%Z in
         [WorkerCrashed i worker_port (worker_log worker_port)]
     | None => []
     end).
Proof.
  induction 1 as [|i more Hi _ IH]; simpl; [reflexivity|].
  unfold is_dead at 1.
  destruct (poll t (Worker i)); [|exact IH].
  unfold bind, lift, item, emit.
  destruct (nth_error worker_ports i) as [worker_port|] eqn:E.
  - now rewrite (nth_error_nth _ _ 0%Z E).
  - apply nth_error_None in E. lia.
Qed.

(** One turn of the loop, for the registry and the ports [main] gives it. *)
Lemma monitor_turn (worker_ports : list Z) (last_stats_time : Q) (t : tick)
    (later : list tick) :
  let procs := full_registry (List.length worker_ports) in
  monitor worker_ports last_stats_time (t :: later) procs
  = if interrupted t then (Raise KeyboardInterrupt, procs, [])
    else
      match poll t Nginx with
      | Some returncode =>
          (Return Finished, procs,
           stats_report last_stats_time t worker_ports
           ++ [NginxCrashed returncode])
      | None =>
          let r := monitor worker_ports
                     (if is_due last_stats_time t then clock t
                      else last_stats_time) later procs in
          (result r, registry r,
           stats_report last_stats_time t worker_ports
           ++ crash_report t worker_ports ++ trace r)
      end.
Proof.
  intros procs. cbn [monitor].
  unfold bind at 1.
  destruct (interrupted t); [reflexivity|].
  unfold ret at 1. cbv beta iota.
  unfold bind at 1, stats_report, is_due.
  destruct (Qle_bool STATS_INTERVAL (clock t - last_stats_time)).
  - unfold bind at 1. rewrite print_stats_table_run.
    unfold ret at 1. cbv beta iota.
    destruct (poll t Nginx) as [returncode|].
    + reflexivity.
    + unfold bind at 1, running_processes at 1. cbv beta iota.
      unfold bind at 1. subst procs.
      rewrite enumerate_workers, scan_workers_run
        by (apply Forall_forall; intros i Hi; apply in_seq in Hi; lia).
      unfold crash_report, first_dead, result, registry, trace.
      destruct (monitor worker_ports (clock t) later _) as [[r reg] evs].
      simpl. reflexivity.
  - unfold ret at 1. cbv beta iota.
    destruct (poll t Nginx) as [returncode|].
    + reflexivity.
    + unfold bind at 1, running_processes at 1. cbv beta iota.
      unfold bind at 1. subst procs.
      rewrite enumerate_workers, scan_workers_run
        by (apply Forall_forall; intros i Hi; apply in_seq in Hi; lia).
      unfold crash_report, first_dead, result, registry, trace.
      destruct (monitor worker_ports last_stats_time later _) as [[r reg] evs].
      simpl. reflexivity.
Qed.

Lemma monitor_registry (worker_ports : list Z) (turns : list tick)
    (last_stats_time : Q) :
  registry (monitor worker_ports last_stats_time turns
                    (full_registry (List.length worker_ports)))
  = full_registry (List.length worker_ports).
Proof.
  revert last_stats_time.
  induction turns as [|t later IH]; intros last_stats_time; [reflexivity|].
  rewrite monitor_turn.
  destruct (interrupted t); [reflexivity|].
  destruct (poll t Nginx); [reflexivity|].
  apply IH.
Qed.

Lemma stats_report_events (last_stats_time : Q) (t : tick)
    (worker_ports : list Z) :
  Forall (fun e => is_loop_event e = true)
         (stats_report last_stats_time t worker_ports).
Proof.
  unfold stats_report. destruct (is_due last_stats_time t); repeat constructor.
Qed.

Lemma crash_report_events (t : tick) (worker_ports : list Z) :
  Forall (fun e => is_loop_event e = true) (crash_report t worker_ports).
Proof.
  unfold crash_report.
  destruct (first_dead t (List.length worker_ports)); repeat constructor.
Qed.

(** The loop prints tables and crash reports, and does nothing else. *)
Lemma monitor_events (worker_ports : list Z) (turns : list tick)
    (last_stats_time : Q) :
  Forall (fun e => is_loop_event e = true)
         (trace (monitor worker_ports last_stats_time turns
                         (full_registry (List.length worker_ports)))).
Proof.
  revert last_stats_time.
  induction turns as [|t later IH]; intros last_stats_time; [constructor|].
  rewrite monitor_turn.
  destruct (interrupted t); [constructor|].
  destruct (poll t Nginx).
  - apply Forall_app. split; [apply stats_report_events | repeat constructor].
  - cbn [trace snd]. apply Forall_app. split; [apply stats_report_events|].
    apply Forall_app. split; [apply crash_report_events | apply IH].
Qed.

(** The loop ends only in a turn with Ctrl+C or with nginx dead. *)
Lemma monitor_stops (worker_ports : list Z) (turns : list tick)
    (last_stats_time : Q) :
  result (monitor worker_ports last_stats_time turns
                  (full_registry (List.length worker_ports)))
  <> Return StillRunning ->
  Exists (fun t => ends_loop t = true) turns.
Proof.
  revert last_stats_time.
  induction turns as [|t later IH]; intros last_stats_time.
  - intros H. now contradiction H.
  - rewrite monitor_turn. unfold ends_loop, is_dead.
    destruct (interrupted t) eqn:Ei.
    { intros _. left. now rewrite Ei. }
    destruct (poll t Nginx) eqn:En.
    { intros _. left. now rewrite Ei, En. }
    cbn [result fst]. intros H. right. eapply IH, H.
Qed.

Lemma crashes_app (tr tr' : list event) :
  crashes (tr ++ tr') = crashes tr ++ crashes tr'.
Proof. apply flat_map_app. Qed.

Lemma crashes_stats_report (last_stats_time : Q) (t : tick)
    (worker_ports : list Z) :
  crashes (stats_report last_stats_time t worker_ports) = [].
Proof.
  unfold stats_report. now destruct (is_due last_stats_time t).
Qed.

Lemma crashes_crash_report (t : tick) (worker_ports : list Z) :
  crashes (crash_report t worker_ports)
  = reported (List.length worker_ports) t.
Proof.
  unfold crash_report, reported.
  now destruct (first_dead t (List.length worker_ports)).
Qed.

(** While no turn has Ctrl+C or a dead nginx the loop goes on, whatever
    the workers do, and each turn reports its first dead worker only. *)
Lemma monitor_keeps_running (worker_ports : list Z) (turns : list tick)
    (last_stats_time : Q) :
  Forall (fun t => ends_loop t = false) turns ->
  let r := monitor worker_ports last_stats_time turns
                   (full_registry (List.length worker_ports)) in
  result r = Return StillRunning
  /\ crashes (trace r) = flat_map (reported (List.length worker_ports)) turns.
Proof.
  intros H. revert last_stats_time.
  induction H as [|t later Ht _ IH]; intros last_stats_time.
  - split; reflexivity.
  - cbv zeta. rewrite monitor_turn.
    unfold ends_loop, is_dead in Ht. apply orb_false_iff in Ht as [Ei En].
    rewrite Ei. destruct (poll t Nginx); [discriminate|].
    cbn [result trace fst snd flat_map].
    destruct (IH (if is_due last_stats_time t then clock t
                  else last_stats_time)) as [Hres Hcr].
    split; [exact Hres|].
    rewrite !crashes_app, crashes_stats_report, crashes_crash_report.
    cbn [app]. f_equal. exact Hcr.
Qed.

Lemma monitor_result (worker_ports : list Z) (turns : list tick)
    (last_stats_time : Q) :
  let r := result (monitor worker_ports last_stats_time turns
                           (full_registry (List.length worker_ports))) in
  r = Return Finished \/ r = Return StillRunning \/ r = Raise KeyboardInterrupt.
Proof.
  revert last_stats_time.
  induction turns as [|t later IH]; intros last_stats_time; cbv zeta.
  - right. left. reflexivity.
  - rewrite monitor_turn.
    destruct (interrupted t); [right; right; reflexivity|].
    destruct (poll t Nginx); [left; reflexivity|].
    apply IH.
Qed.

(** The loop under the handler of Ctrl+C: an interrupt makes [main] say
    so and return; anything else is left as the loop has it. *)
Lemma monitoring_run (worker_ports : list Z) (turns : list tick) :
  let procs := full_registry (List.length worker_ports) in
  let m := monitor worker_ports 0%Q turns procs in
  monitoring worker_ports turns procs
  = match result m with
    | Raise _ => (Return Finished, procs, trace m ++ [Stopping])
    | Return _ => m
    end.
Proof.
  cbv zeta. unfold monitoring, try_except.
  pose proof (monitor_result worker_ports turns 0%Q) as Hres.
  pose proof (monitor_registry worker_ports turns 0%Q) as Hreg.
  destruct (monitor worker_ports 0%Q turns _) as [[r reg] evs].
  cbn [result registry trace fst snd] in *. subst reg.
  destruct Hres as [-> | [-> | ->]]; reflexivity.
Qed.

End Monitor.

(** ** [main] case by case *)

Section Main.

Variable ARGS : args.
Variable w : world.

Let n : nat := List.length (GPU_GROUPS ARGS).
Let placements : list placement := plan (GPU_GROUPS ARGS) (START_PORT ARGS).

Lemma planned_ports_length : List.length (planned_ports ARGS) = n.
Proof.
  unfold planned_ports, plan. now rewrite length_map, plan_from_length.
Qed.

(** The preflight fails: nothing else happens. *)
Lemma main_preflight_fails :
  preflight_ok ARGS w = false ->
  exists why, main ARGS w [] = (Raise (SystemExit 1), [], [Fatal why]).
Proof.
  intros H. destruct (check_requirements_aborts ARGS w [] H) as [why E].
  exists why. unfold main. unfold bind at 1. now rewrite E.
Qed.

(** A worker fails to start: the ones before it are running and
    registered, and no configuration is written. *)
Lemma main_worker_fails :
  preflight_ok ARGS w = true ->
  launched w 0 (GPU_GROUPS ARGS) <> n ->
  main ARGS w []
  = (Raise OSError,
     map Worker (seq 0 (launched w 0 (GPU_GROUPS ARGS))),
     CleanLogs
     :: flat_map (launch ARGS)
          (firstn (launched w 0 (GPU_GROUPS ARGS)) placements)).
Proof.
  intros Hpre Hk. unfold main.
  unfold bind at 1. rewrite (check_requirements_passes ARGS w [] Hpre).
  unfold bind at 1, emit at 1. cbv beta iota.
  unfold bind at 1. rewrite start_workers_run. cbv zeta.
  apply Nat.eqb_neq in Hk. fold n. rewrite Hk. reflexivity.
Qed.

(** Every worker starts, nginx does not: the configuration is written,
    and that is all. *)
Lemma main_nginx_fails :
  preflight_ok ARGS w = true ->
  launched w 0 (GPU_GROUPS ARGS) = n ->
  popen_raises w Nginx = true ->
  main ARGS w []
  = (Raise OSError,
     map Worker (seq 0 n),
     CleanLogs
     :: flat_map (launch ARGS) placements
     ++ [WriteConfig NGINX_CONF
           (nginx_config (NGINX_PORT ARGS) (planned_ports ARGS))]).
Proof.
  intros Hpre Hk Hnginx. unfold main.
  unfold bind at 1. rewrite (check_requirements_passes ARGS w [] Hpre).
  unfold bind at 1, emit at 1. cbv beta iota.
  unfold bind at 1. rewrite start_workers_run. cbv zeta.
  rewrite Hk. fold n. rewrite Nat.eqb_refl.
  replace (firstn n (plan_from 0 (START_PORT ARGS) (GPU_GROUPS ARGS)))
    with placements
    by (symmetry; apply firstn_all2; unfold n, placements, plan;
        now rewrite plan_from_length).
  cbv beta iota.
  unfold bind at 1, generate_nginx_config at 1, emit at 1. cbv beta iota.
  unfold bind at 1, popen at 1. rewrite Hnginx.
  reflexivity.
Qed.

(** The setup succeeds: [main] goes on with the monitoring loop, on the
    full registry and the planned ports. *)
Lemma main_monitors :
  preflight_ok ARGS w = true ->
  launched w 0 (GPU_GROUPS ARGS) = n ->
  popen_raises w Nginx = false ->
  main ARGS w []
  = let r := monitoring (planned_ports ARGS) (ticks w) (full_registry n) in
    (result r, registry r, setup_trace ARGS ++ trace r).
Proof.
  intros Hpre Hk Hnginx. unfold main.
  unfold bind at 1. rewrite (check_requirements_passes ARGS w [] Hpre).
  unfold bind at 1, emit at 1. cbv beta iota.
  unfold bind at 1. rewrite start_workers_run. cbv zeta.
  rewrite Hk. fold n. rewrite Nat.eqb_refl.
  replace (firstn n (plan_from 0 (START_PORT ARGS) (GPU_GROUPS ARGS)))
    with placements
    by (symmetry; apply firstn_all2; unfold n, placements, plan;
        now rewrite plan_from_length).
  cbv beta iota.
  unfold bind at 1, generate_nginx_config at 1, emit at 1. cbv beta iota.
  unfold bind at 1, popen at 1. rewrite Hnginx.
  unfold emit at 1. cbv beta iota.
  unfold bind at 1, append at 1. cbv beta iota.
  cbn [app]. fold (full_registry n).
  change (try_except (monitor (map listen_port placements) 0%Q (ticks w))
            is_KeyboardInterrupt (bind (emit Stopping) (fun _ => ret Finished)))
    with (monitoring (planned_ports ARGS) (ticks w)).
  destruct (monitoring _ _ _) as [[r reg] evs].
  unfold result, registry, trace, setup_trace. cbn [fst snd].
  fold placements. fold (planned_ports ARGS).
  cbn [app]. rewrite <- app_assoc. reflexivity.
Qed.

(** The four ways [main] can go. *)
Lemma main_cases :
  let r := main ARGS w [] in
  (exists why, r = (Raise (SystemExit 1), [], [Fatal why]))
  \/ (exists k, k < n
        /\ r = (Raise OSError, map Worker (seq 0 k),
                CleanLogs :: flat_map (launch ARGS) (firstn k placements)))
  \/ r = (Raise OSError, map Worker (seq 0 n),
          CleanLogs
          :: flat_map (launch ARGS) placements
          ++ [WriteConfig NGINX_CONF
                (nginx_config (NGINX_PORT ARGS) (planned_ports ARGS))])
  \/ r = (let g := monitoring (planned_ports ARGS) (ticks w)
                              (full_registry n) in
          (result g, registry g, setup_trace ARGS ++ trace g)).
Proof.
  cbv zeta.
  destruct (preflight_ok ARGS w) eqn:Hpre.
  2:{ left. now apply main_preflight_fails. }
  destruct (Nat.eq_dec (launched w 0 (GPU_GROUPS ARGS)) n) as [Hk|Hk].
  2:{ right. left. exists (launched w 0 (GPU_GROUPS ARGS)). split.
      - pose proof (launched_le w (GPU_GROUPS ARGS) 0). fold n in H. lia.
      - now apply main_worker_fails. }
  destruct (popen_raises w Nginx) eqn:Hnginx.
  - right. right. left. now apply main_nginx_fails.
  - right. right. right. now apply main_monitors.
Qed.

End Main.

(** ** Reading the trace of a run *)

Section Traces.

Variable ARGS : args.

Lemma launch_appended (ps : list placement) :
  appended (flat_map (launch ARGS) ps) = map Worker (map index ps).
Proof.
  induction ps as [|p more IH]; simpl; [reflexivity|]. now rewrite IH.
Qed.

Lemma launch_setup (ps : list placement) :
  Forall (fun e => is_setup e = true /\ is_proxy_setup e = false)
         (flat_map (launch ARGS) ps).
Proof.
  induction ps as [|p more IH]; simpl; repeat constructor. exact IH.
Qed.

Lemma loop_event_kinds (e : event) :
  is_loop_event e = true \/ e = Stopping ->
  is_setup e = false /\ is_cleanup_event e = false
  /\ is_proxy_setup e = false.
Proof.
  intros [H | ->]; [|repeat split].
  destruct e; try discriminate; repeat split.
Qed.

Lemma setup_event_kinds (e : event) :
  is_setup e = true -> is_cleanup_event e = false /\ is_loop_event e = false.
Proof. destruct e; try discriminate; repeat split. Qed.

Lemma sigterms_none (tr : list event) :
  Forall (fun e => is_cleanup_event e = false) tr ->
  sigterms tr = [] /\ cleanups tr = 0.
Proof.
  induction 1 as [|e more He _ [IHs IHc]]; [split; reflexivity|].
  unfold sigterms, cleanups in *. simpl. rewrite IHs.
  destruct e; try discriminate; simpl; auto.
Qed.

Lemma appended_none (tr : list event) :
  Forall (fun e => is_setup e = false) tr -> appended tr = [].
Proof.
  induction 1 as [|e more He _ IH]; [reflexivity|].
  unfold appended in *. simpl. rewrite IH.
  destruct e; try discriminate; reflexivity.
Qed.

Lemma refresh_times_none (tr : list event) :
  Forall (fun e => is_loop_event e = false) tr -> refresh_times tr = [].
Proof.
  induction 1 as [|e more He _ IH]; [reflexivity|].
  unfold refresh_times in *. simpl. rewrite IH.
  destruct e; try discriminate; reflexivity.
Qed.

Lemma crashes_none (tr : list event) :
  Forall (fun e => is_loop_event e = false) tr -> crashes tr = [].
Proof.
  induction 1 as [|e more He _ IH]; [reflexivity|].
  unfold crashes in *. simpl. rewrite IH.
  destruct e; try discriminate; reflexivity.
Qed.

(** The setup has none of the events of the loop or of the cleanup. *)
Lemma setup_trace_kinds :
  Forall (fun e => is_cleanup_event e = false /\ is_loop_event e = false)
         (setup_trace ARGS).
Proof.
  unfold setup_trace. constructor; [split; reflexivity|].
  apply Forall_app. split.
  - eapply Forall_impl; [|apply launch_setup].
    intros e [He _]. now apply setup_event_kinds.
  - repeat constructor.
Qed.

Lemma setup_trace_appended :
  appended (setup_trace ARGS)
  = full_registry (List.length (GPU_GROUPS ARGS)).
Proof.
  unfold setup_trace, appended. cbn [flat_map app].
  rewrite flat_map_app. fold (appended (flat_map (launch ARGS)
    (plan (GPU_GROUPS ARGS) (START_PORT ARGS)))).
  rewrite launch_appended. unfold plan. rewrite plan_from_indices.
  reflexivity.
Qed.

End Traces.

(** ** The whole run *)

Section WholeRun.

Variable ARGS : args.
Variable w : world.

(** A run that ends is [main] followed by the cleanup handler on the
    registry [main] leaves; a run still in its loop is just [main]. *)
Lemma run_unfold :
  run ARGS w
  = let r := main ARGS w [] in
    match result r with
    | Return StillRunning => r
    | _ =>
        (result r, registry r,
         trace r
         ++ CleanupBegin
            :: map Sigterm (filter (signalled w) (registry r))
            ++ [CleanupEnd])
    end.
Proof.
  unfold run. cbv zeta. rewrite cleanup_processes_run.
  destruct (result (main ARGS w [])) as [[]|]; reflexivity.
Qed.

Lemma preflight_fails_when :
  which_nginx w = false
  \/ is_port_in_use w (NGINX_PORT ARGS) = true
  \/ (exists i, i < List.length (GPU_GROUPS ARGS)
        /\ is_port_in_use w (START_PORT ARGS + Z.of_nat i)%Z = true) ->
  preflight_ok ARGS w = false.
Proof.
  unfold preflight_ok. intros [H | [H | [i [Hi H]]]].
  - now rewrite H.
  - rewrite H. now rewrite andb_false_r.
  - apply andb_false_iff. right.
    destruct (forallb _ _) eqn:E; [|reflexivity].
    rewrite forallb_forall in E.
    specialize (E i). rewrite H in E.
    symmetry. apply E, in_seq. lia.
Qed.

Lemma popen_ok_launched :
  popen_ok ARGS w = true ->
  launched w 0 (GPU_GROUPS ARGS) = List.length (GPU_GROUPS ARGS)
  /\ popen_raises w Nginx = false.
Proof.
  unfold popen_ok. intros H. apply andb_true_iff in H as [Hw Hn].
  split; [now apply launched_all | now apply negb_true_iff].
Qed.

(** A run whose setup succeeds: the setup, then the loop under the
    handler of Ctrl+C. *)
Lemma main_after_setup :
  preflight_ok ARGS w = true ->
  popen_ok ARGS w = true ->
  main ARGS w []
  = (let g := monitoring (planned_ports ARGS) (ticks w)
                (full_registry (List.length (GPU_GROUPS ARGS))) in
     (result g, registry g, setup_trace ARGS ++ trace g)).
Proof.
  intros Hpre Hpopen. destruct (popen_ok_launched Hpopen) as [Hk Hn].
  now apply main_monitors.
Qed.

End WholeRun.

(** ** Preflight *)

(** C6. When nginx is not installed, or the port of the load balancer is
    in use, or the port [START_PORT + i] of some worker to come is in use,
    the run ends with [sys.exit(1)] after reporting the cause: no process
    has been started, [RUNNING_PROCESSES] is empty, and the cleanup handler
    finds nothing to signal. *)
Theorem preflight_failure_aborts (ARGS : args) (w : world)
    (H : which_nginx w = false
         \/ is_port_in_use w (NGINX_PORT ARGS) = true
         \/ (exists i, i < List.length (GPU_GROUPS ARGS)
               /\ is_port_in_use w (START_PORT ARGS + Z.of_nat i)%Z = true)) :
  (exists why,
     run ARGS w
     = (Raise (SystemExit 1), [], [Fatal why; CleanupBegin; CleanupEnd]))
  /\ registry (run ARGS w) = []
  /\ Forall (fun e => is_setup e = false) (trace (run ARGS w))
  /\ sigterms (trace (run ARGS w)) = [].
Proof.
  apply preflight_fails_when in H.
  destruct (main_preflight_fails ARGS w H) as [why E].
  rewrite run_unfold. cbv zeta. rewrite E.
  cbn [result registry trace fst snd filter map app].
  repeat split; [now exists why | repeat constructor].
Qed.

Lemma preflight_failure_aborts_witness :
  exists why,
    run default_args world_port_busy
    = (Raise (SystemExit 1), [], [Fatal why; CleanupBegin; CleanupEnd]).
Proof.
  apply (preflight_failure_aborts default_args world_port_busy).
  right. left. reflexivity.
Defined.

(** ** Cleanup *)

Section Cleanup.

Variable ARGS : args.
Variable w : world.

Lemma firstn_seq_le (k i n : nat) :
  k <= n -> firstn k (seq i n) = seq i k.
Proof.
  revert i n. induction k as [|k IH]; intros i n Hk; [reflexivity|].
  destruct n as [|n]; [lia|]. simpl. f_equal. apply IH. lia.
Qed.

Lemma workers_NoDup (i k : nat) : NoDup (map Worker (seq i k)).
Proof.
  revert i. induction k as [|k IH]; intros i; simpl; constructor.
  - rewrite in_map_iff. intros [j [[= ->] Hj]]. apply in_seq in Hj. lia.
  - apply IH.
Qed.

Lemma full_registry_NoDup (n : nat) : NoDup (full_registry n).
Proof.
  unfold full_registry. apply NoDup_app.
  - apply workers_NoDup.
  - repeat constructor. intros [].
  - intros proc Hin [<- | []]. apply in_map_iff in Hin as [j [[=] _]].
Qed.

Lemma monitoring_events (worker_ports : list Z) (turns : list tick) :
  Forall (fun e => is_loop_event e = true \/ e = Stopping)
         (trace (monitoring worker_ports turns
                            (full_registry (List.length worker_ports)))).
Proof.
  rewrite monitoring_run. cbv zeta.
  pose proof (monitor_events worker_ports turns 0%Q) as Hev.
  assert (Hloop : Forall (fun e => is_loop_event e = true \/ e = Stopping)
            (trace (monitor worker_ports 0%Q turns
                      (full_registry (List.length worker_ports))))).
  { eapply Forall_impl; [|exact Hev]. intros e He. now left. }
  destruct (result _); [exact Hloop|].
  cbn [trace snd]. apply Forall_app. split; [exact Hloop|].
  constructor; [now right | constructor].
Qed.

Lemma monitoring_registry (worker_ports : list Z) (turns : list tick) :
  registry (monitoring worker_ports turns
                       (full_registry (List.length worker_ports)))
  = full_registry (List.length worker_ports).
Proof.
  rewrite monitoring_run. cbv zeta.
  destruct (result _); [apply monitor_registry | reflexivity].
Qed.

(** What [main] leaves behind: a registry without repetition that holds
    exactly the processes it appended, and no trace of the cleanup. *)
Lemma main_leaves :
  let r := main ARGS w [] in
  NoDup (registry r)
  /\ appended (trace r) = registry r
  /\ Forall (fun e => is_cleanup_event e = false) (trace r).
Proof.
  cbv zeta.
  pose proof (planned_ports_length ARGS) as Hlen.
  destruct (main_cases ARGS w) as [[why ->] | [[k [Hk ->]] | [-> | ->]]];
    cbn [registry trace fst snd].
  - repeat split; repeat constructor.
  - split; [apply workers_NoDup|]. split.
    + change (appended (CleanLogs :: ?l)) with (appended l).
      rewrite launch_appended. unfold plan.
      rewrite <- firstn_map, plan_from_indices. f_equal.
      apply firstn_seq_le. lia.
    + constructor; [reflexivity|].
      eapply Forall_impl; [|apply launch_setup].
      intros e [He _]. now apply setup_event_kinds.
  - split; [apply workers_NoDup|]. split.
    + change (appended (CleanLogs :: ?l)) with (appended l).
      unfold appended. rewrite flat_map_app.
      fold (appended (flat_map (launch ARGS)
              (plan (GPU_GROUPS ARGS) (START_PORT ARGS)))).
      rewrite launch_appended. unfold plan. rewrite plan_from_indices.
      cbn [flat_map app]. now rewrite app_nil_r.
    + constructor; [reflexivity|]. apply Forall_app. split.
      * eapply Forall_impl; [|apply launch_setup].
        intros e [He _]. now apply setup_event_kinds.
      * repeat constructor.
  - rewrite <- Hlen. rewrite monitoring_registry.
    pose proof (monitoring_events (planned_ports ARGS) (ticks w)) as Hev.
    split; [apply full_registry_NoDup|]. split.
    + unfold appended. rewrite flat_map_app.
      fold (appended (setup_trace ARGS)). rewrite setup_trace_appended.
      fold (appended (trace (monitoring (planned_ports ARGS) (ticks w)
              (full_registry (List.length (planned_ports ARGS)))))).
      rewrite appended_none, app_nil_r; [now rewrite Hlen|].
      eapply Forall_impl; [|exact Hev].
      intros e He. now apply loop_event_kinds.
    + apply Forall_app. split.
      * eapply Forall_impl; [|apply setup_trace_kinds]. now intros e [He _].
      * eapply Forall_impl; [|exact Hev].
        intros e He. now apply loop_event_kinds.
Qed.

Lemma cleanup_trace_read (procs : list handle) :
  let tr := CleanupBegin :: map Sigterm procs ++ [CleanupEnd] in
  sigterms tr = procs /\ cleanups tr = 1.
Proof.
  cbv zeta. unfold sigterms, cleanups. cbn [flat_map filter app List.length].
  induction procs as [|proc more [IHs IHc]]; [split; reflexivity|].
  cbn [map app flat_map filter]. split; [now rewrite IHs | exact IHc].
Qed.

Lemma run_result : result (run ARGS w) = result (main ARGS w []).
Proof.
  rewrite run_unfold. cbv zeta.
  destruct (result (main ARGS w [])) as [[]|] eqn:E; auto.
Qed.

End Cleanup.

(** C1 (amended). In every run that ends, the cleanup handler runs once,
    after everything else.  [RUNNING_PROCESSES] then holds, without
    repetition, exactly the processes that were appended to it, and the
    handler sends SIGTERM once, in registry order, to each of them that has
    not exited yet and whose [os.killpg] does not raise; it sends nothing to
    a process that has already exited, and it never raises. *)
Theorem cleanup_signals_running_processes (ARGS : args) (w : world)
    (Hends : result (run ARGS w) <> Return StillRunning) :
  cleanups (trace (run ARGS w)) = 1
  /\ appended (trace (run ARGS w)) = registry (run ARGS w)
  /\ NoDup (registry (run ARGS w))
  /\ sigterms (trace (run ARGS w))
     = filter (signalled w) (registry (run ARGS w))
  /\ (forall proc, poll_at_exit w proc <> None ->
        ~ In proc (sigterms (trace (run ARGS w))))
  /\ exists evs,
       cleanup_processes w (registry (run ARGS w))
       = (Return tt, registry (run ARGS w), evs)
       /\ trace (run ARGS w) = trace (main ARGS w []) ++ evs.
Proof.
  rewrite run_result in Hends.
  destruct (main_leaves ARGS w) as [Hnodup [Happ Hquiet]].
  destruct (sigterms_none _ Hquiet) as [Hs Hc].
  assert (E : run ARGS w
              = (result (main ARGS w []), registry (main ARGS w []),
                 trace (main ARGS w [])
                 ++ CleanupBegin
                    :: map Sigterm (filter (signalled w)
                                           (registry (main ARGS w [])))
                    ++ [CleanupEnd])).
  { rewrite run_unfold. cbv zeta.
    destruct (result (main ARGS w [])) as [[]|]; congruence. }
  rewrite E. cbn [registry trace fst snd].
  destruct (cleanup_trace_read
              (filter (signalled w) (registry (main ARGS w []))))
    as [Hcs Hcc].
  assert (Hsig : sigterms (trace (main ARGS w [])
                   ++ CleanupBegin
                      :: map Sigterm (filter (signalled w)
                                             (registry (main ARGS w [])))
                      ++ [CleanupEnd])
                 = filter (signalled w) (registry (main ARGS w []))).
  { unfold sigterms. rewrite flat_map_app.
    fold (sigterms (trace (main ARGS w []))). rewrite Hs.
    exact Hcs. }
  repeat split.
  - unfold cleanups. rewrite filter_app, length_app.
    fold (cleanups (trace (main ARGS w []))). rewrite Hc. exact Hcc.
  - unfold appended. rewrite flat_map_app.
    fold (appended (trace (main ARGS w []))). rewrite Happ.
    rewrite (appended_none (CleanupBegin :: _)), app_nil_r; [reflexivity|].
    constructor; [reflexivity|]. apply Forall_app. split.
    + apply Forall_forall. intros e He.
      apply in_map_iff in He as [proc [<- _]]. reflexivity.
    + repeat constructor.
  - exact Hnodup.
  - exact Hsig.
  - intros proc Hexited Hin. rewrite Hsig in Hin.
    apply filter_In in Hin as [_ Hin]. unfold signalled in Hin.
    destruct (poll_at_exit w proc); [discriminate | now apply Hexited].
  - eexists. split; [apply cleanup_processes_run | reflexivity].
Qed.

Lemma cleanup_signals_running_processes_witness :
  sigterms (trace (run three_groups world_interrupted))
  = filter (signalled world_interrupted)
           (registry (run three_groups world_interrupted)).
Proof.
  apply (cleanup_signals_running_processes three_groups world_interrupted).
  vm_compute. discriminate.
Defined.

(** C1 as stated fails: after three workers and nginx are started and
    Ctrl+C arrives, the worker that had already exited is in the registry
    and gets no signal; three signals are sent, not four. *)
Lemma exited_worker_gets_no_signal :
  registry (run three_groups world_interrupted)
  = [Worker 0; Worker 1; Worker 2; Nginx]
  /\ poll_at_exit world_interrupted (Worker 1) = Some 1%Z
  /\ sigterms (trace (run three_groups world_interrupted))
     = [Worker 0; Worker 2; Nginx]
  /\ ~ (forall proc,
          In proc (registry (run three_groups world_interrupted)) ->
          In proc (sigterms (trace (run three_groups world_interrupted)))).
Proof.
  assert (E : sigterms (trace (run three_groups world_interrupted))
              = [Worker 0; Worker 2; Nginx]) by (vm_compute; reflexivity).
  assert (R : registry (run three_groups world_interrupted)
              = [Worker 0; Worker 1; Worker 2; Nginx])
    by (vm_compute; reflexivity).
  split; [exact R|]. split; [reflexivity|]. split; [exact E|].
  intros H. specialize (H (Worker 1)). rewrite R, E in H.
  destruct H as [H | [H | [H | []]]]; try discriminate H.
  right. left. reflexivity.
Qed.


(** ** The loop inside a run *)

Section LoopInRun.

Variable ARGS : args.
Variable w : world.

Hypothesis Hpre : preflight_ok ARGS w = true.
Hypothesis Hpopen : popen_ok ARGS w = true.

Let n : nat := List.length (GPU_GROUPS ARGS).
Let ports : list Z := planned_ports ARGS.
Let loop := monitor ports 0%Q (ticks w) (full_registry (List.length ports)).

(** Once the setup has succeeded the run is the setup, the loop, the word
    of the Ctrl+C handler if the loop was interrupted, and the cleanup
    unless the loop is still going. *)
Lemma run_after_setup :
  run ARGS w
  = match result loop with
    | Return StillRunning =>
        (Return StillRunning, full_registry n, setup_trace ARGS ++ trace loop)
    | Return Finished =>
        (Return Finished, full_registry n,
         (setup_trace ARGS ++ trace loop)
         ++ CleanupBegin
            :: map Sigterm (filter (signalled w) (full_registry n))
            ++ [CleanupEnd])
    | Raise _ =>
        (Return Finished, full_registry n,
         (setup_trace ARGS ++ trace loop ++ [Stopping])
         ++ CleanupBegin
            :: map Sigterm (filter (signalled w) (full_registry n))
            ++ [CleanupEnd])
    end.
Proof.
  rewrite run_unfold, (main_after_setup ARGS w Hpre Hpopen). cbv zeta.
  pose proof (planned_ports_length ARGS) as Hlen. fold n ports in Hlen |- *.
  rewrite <- Hlen. rewrite monitoring_run. cbv zeta. fold loop.
  pose proof (monitor_registry ports (ticks w) 0%Q) as Hreg. fold loop in Hreg.
  destruct loop as [[r reg] evs]. cbn [result registry trace fst snd] in *.
  subst reg. destruct r as [[]|e]; reflexivity.
Qed.

End LoopInRun.

(** C2. Once the setup has succeeded, the run leaves the monitoring loop
    only in a turn in which Ctrl+C arrives or nginx is found dead.  As long
    as neither happens the loop keeps going, however many workers are dead,
    all of them included, and each turn reports one dead worker at most:
    the first one in placement order. *)
Theorem monitor_loop_exits (ARGS : args) (w : world)
    (Hpre : preflight_ok ARGS w = true)
    (Hpopen : popen_ok ARGS w = true) :
  (result (run ARGS w) <> Return StillRunning ->
   Exists (fun t => interrupted t = true \/ poll t Nginx <> None) (ticks w))
  /\ (Forall (fun t => interrupted t = false /\ poll t Nginx = None)
             (ticks w) ->
      result (run ARGS w) = Return StillRunning
      /\ crashes (trace (run ARGS w))
         = flat_map (reported (List.length (GPU_GROUPS ARGS))) (ticks w))
  /\ (forall t, List.length (reported (List.length (GPU_GROUPS ARGS)) t) <= 1).
Proof.
  pose proof (planned_ports_length ARGS) as Hlen.
  rewrite (run_after_setup ARGS w Hpre Hpopen).
  split; [|split].
  - intros Hres.
    assert (Hloop : result (monitor (planned_ports ARGS) 0%Q (ticks w)
                      (full_registry (List.length (planned_ports ARGS))))
                    <> Return StillRunning).
    { intros E. rewrite E in Hres. now apply Hres. }
    apply monitor_stops in Hloop.
    eapply Exists_impl; [|exact Hloop].
    intros t Ht. unfold ends_loop, is_dead in Ht.
    apply orb_true_iff in Ht as [Ht | Ht]; [now left | right].
    destruct (poll t Nginx); [discriminate | discriminate].
  - intros Hquiet.
    assert (Hno : Forall (fun t => ends_loop t = false) (ticks w)).
    { eapply Forall_impl; [|exact Hquiet].
      intros t [Hi Hp]. unfold ends_loop, is_dead. now rewrite Hi, Hp. }
    destruct (monitor_keeps_running (planned_ports ARGS) (ticks w) 0%Q Hno)
      as [Hres Hcr].
    rewrite Hres. cbn [result trace fst snd]. split; [reflexivity|].
    rewrite crashes_app, Hcr, Hlen.
    rewrite (crashes_none (setup_trace ARGS)); [reflexivity|].
    eapply Forall_impl; [|apply setup_trace_kinds]. now intros e [_ He].
  - intros t. unfold reported. destruct (first_dead t _); simpl; lia.
Qed.

Lemma monitor_loop_exits_witness :
  result (run three_groups world_workers_dead) = Return StillRunning
  /\ crashes (trace (run three_groups world_workers_dead)) = [0; 0].
Proof.
  apply (monitor_loop_exits three_groups world_workers_dead);
    repeat constructor.
Defined.

(** ** The stats refresh *)

Section Refresh.

Lemma refresh_times_app (tr tr' : list event) :
  refresh_times (tr ++ tr') = refresh_times tr ++ refresh_times tr'.
Proof. apply flat_map_app. Qed.

Lemma refresh_times_crash_report (t : tick) (worker_ports : list Z) :
  refresh_times (crash_report t worker_ports) = [].
Proof.
  unfold crash_report. now destruct (first_dead t (List.length worker_ports)).
Qed.

Lemma is_due_spec (last_stats_time : Q) (t : tick) :
  is_due last_stats_time t = true ->
  (last_stats_time + STATS_INTERVAL <= clock t)%Q.
Proof.
  unfold is_due. intros H. apply Qle_bool_iff in H. lra.
Qed.

(** With [last_stats_time] at zero any clock reading of five seconds or
    more makes the table due. *)
Lemma is_due_at_start (t : tick) :
  (STATS_INTERVAL <= clock t)%Q -> is_due 0%Q t = true.
Proof.
  unfold is_due. intros H. apply Qle_bool_iff. lra.
Qed.

(** The tables of the loop are spaced: each one comes [STATS_INTERVAL] or
    more after the one before, the first after [last_stats_time]. *)
Lemma monitor_spaced (worker_ports : list Z) (turns : list tick)
    (last_stats_time : Q) :
  spaced last_stats_time
         (refresh_times
            (trace (monitor worker_ports last_stats_time turns
                            (full_registry (List.length worker_ports))))).
Proof.
  revert last_stats_time.
  induction turns as [|t later IH]; intros last_stats_time; [exact I|].
  rewrite monitor_turn.
  destruct (interrupted t); [exact I|].
  unfold stats_report.
  destruct (is_due last_stats_time t) eqn:Hdue.
  - apply is_due_spec in Hdue.
    destruct (poll t Nginx).
    + cbn. split; [exact Hdue | exact I].
    + cbn [trace snd]. rewrite !refresh_times_app, refresh_times_crash_report.
      cbn. split; [exact Hdue | apply IH].
  - destruct (poll t Nginx); [exact I|].
    cbn [trace snd]. rewrite !refresh_times_app, refresh_times_crash_report.
    cbn [app refresh_times flat_map]. apply IH.
Qed.

(** The first turn of the loop, when it is not interrupted and the clock
    reads five seconds or more, starts with the table of all workers. *)
Lemma monitor_first_turn (worker_ports : list Z) (t : tick)
    (later : list tick) :
  interrupted t = false ->
  (STATS_INTERVAL <= clock t)%Q ->
  exists rest,
    trace (monitor worker_ports 0%Q (t :: later)
                   (full_registry (List.length worker_ports)))
    = StatsTable (clock t) (table_rows (net t) worker_ports) :: rest.
Proof.
  intros Hint Hclock. rewrite monitor_turn, Hint.
  unfold stats_report. rewrite (is_due_at_start t Hclock).
  destruct (poll t Nginx); cbn [trace snd app]; eauto.
Qed.

Lemma cleanup_trace_no_refresh (procs : list handle) :
  refresh_times (CleanupBegin :: map Sigterm procs ++ [CleanupEnd]) = [].
Proof.
  apply refresh_times_none. constructor; [reflexivity|].
  apply Forall_app. split; [|repeat constructor].
  apply Forall_forall. intros e He.
  apply in_map_iff in He as [proc [<- _]]. reflexivity.
Qed.

(** Tables are printed by the loop only. *)
Lemma run_refresh_times (ARGS : args) (w : world) :
  refresh_times (trace (run ARGS w))
  = refresh_times (trace (main ARGS w [])).
Proof.
  rewrite run_unfold. cbv zeta.
  destruct (result (main ARGS w [])) as [[]|]; cbn [trace snd];
    try reflexivity;
    now rewrite refresh_times_app, cleanup_trace_no_refresh, app_nil_r.
Qed.

Lemma main_spaced (ARGS : args) (w : world) :
  spaced 0%Q (refresh_times (trace (main ARGS w []))).
Proof.
  pose proof (planned_ports_length ARGS) as Hlen.
  destruct (main_cases ARGS w) as [[why ->] | [[k [Hk ->]] | [-> | ->]]];
    cbn [trace snd].
  - exact I.
  - rewrite refresh_times_none; [exact I|].
    constructor; [reflexivity|].
    eapply Forall_impl; [|apply launch_setup].
    intros e [He _]. now apply setup_event_kinds.
  - rewrite refresh_times_none; [exact I|].
    constructor; [reflexivity|]. apply Forall_app. split.
    + eapply Forall_impl; [|apply launch_setup].
      intros e [He _]. now apply setup_event_kinds.
    + repeat constructor.
  - rewrite refresh_times_app, (refresh_times_none (setup_trace ARGS)).
    2:{ eapply Forall_impl; [|apply setup_trace_kinds]. now intros e [_ He]. }
    cbn [app]. rewrite <- Hlen, monitoring_run. cbv zeta.
    pose proof (monitor_spaced (planned_ports ARGS) (ticks w) 0%Q) as Hsp.
    destruct (result _); cbn [trace snd]; [exact Hsp|].
    rewrite refresh_times_app. cbn. now rewrite app_nil_r.
Qed.

End Refresh.

(** C10. The first table is printed in the first turn of the loop: when
    the setup has succeeded, the first turn is not interrupted and the
    clock reads at least [STATS_INTERVAL] seconds (as Unix time does), the
    first thing the run does after the setup is to poll every planned port
    and print the table, since [last_stats_time] starts at zero.  In every
    run each later table comes at least [STATS_INTERVAL] seconds of clock
    after the one before. *)
Theorem first_refresh_is_immediate (ARGS : args) (w : world) :
  spaced 0%Q (refresh_times (trace (run ARGS w)))
  /\ (forall (t : tick) (later : list tick),
        preflight_ok ARGS w = true ->
        popen_ok ARGS w = true ->
        ticks w = t :: later ->
        interrupted t = false ->
        (STATS_INTERVAL <= clock t)%Q ->
        exists rest,
          trace (run ARGS w)
          = setup_trace ARGS
            ++ StatsTable (clock t) (table_rows (net t) (planned_ports ARGS))
            :: rest).
Proof.
  split.
  - rewrite run_refresh_times. apply main_spaced.
  - intros t later Hpre Hpopen Hticks Hint Hclock.
    rewrite (run_after_setup ARGS w Hpre Hpopen), Hticks.
    destruct (monitor_first_turn (planned_ports ARGS) t later Hint Hclock)
      as [rest Hrest].
    destruct (monitor (planned_ports ARGS) 0%Q (t :: later) _)
      as [[r reg] evs].
    cbn [result trace fst snd] in *. subst evs.
    destruct r as [[]|e]; cbn [trace snd app];
      rewrite <- ?app_assoc; cbn [app]; eauto.
Qed.

Lemma first_refresh_is_immediate_witness :
  exists rest,
    trace (run three_groups world_workers_dead)
    = setup_trace three_groups
      ++ StatsTable 1700000001%Q
           [(8000%Z, Unknown, Unknown); (8001%Z, Unknown, Unknown);
            (8002%Z, Unknown, Unknown)]
      :: rest.
Proof.
  apply (proj2 (first_refresh_is_immediate three_groups world_workers_dead)
           (quiet_tick 1700000001)
           [workers_dead_tick 1700000002; workers_dead_tick 1700000003]);
    try reflexivity.
  vm_compute. discriminate.
Defined.

(** ** The order of the setup *)

Section Ordering.

Variable ARGS : args.
Variable w : world.

Lemma cleanup_trace_kinds (procs : list handle) :
  Forall (fun e => is_setup e = false /\ is_proxy_setup e = false)
         (CleanupBegin :: map Sigterm procs ++ [CleanupEnd]).
Proof.
  constructor; [split; reflexivity|].
  apply Forall_app. split; [|repeat constructor].
  apply Forall_forall. intros e He.
  apply in_map_iff in He as [proc [<- _]]. split; reflexivity.
Qed.

(** A run is [main], and then at most events that set nothing up. *)
Lemma run_extends_main :
  exists tail,
    trace (run ARGS w) = trace (main ARGS w []) ++ tail
    /\ Forall (fun e => is_setup e = false /\ is_proxy_setup e = false) tail
    /\ registry (run ARGS w) = registry (main ARGS w []).
Proof.
  rewrite run_unfold. cbv zeta.
  destruct (result (main ARGS w [])) as [[]|]; cbn [trace registry fst snd].
  2:{ exists []. rewrite app_nil_r. repeat split. constructor. }
  all: eexists; split; [reflexivity|]; split;
    [apply cleanup_trace_kinds | reflexivity].
Qed.

Lemma Forall_and_l {A : Type} (P Q : A -> Prop) (l : list A) :
  Forall (fun a => P a /\ Q a) l -> Forall P l.
Proof. apply Forall_impl. now intros a [Ha _]. Qed.

Lemma Forall_and_r {A : Type} (P Q : A -> Prop) (l : list A) :
  Forall (fun a => P a /\ Q a) l -> Forall Q l.
Proof. apply Forall_impl. now intros a [_ Ha]. Qed.

End Ordering.

(** C9. In every run the setup goes in one order.  Either the run never
    gets to the proxy (the preflight or the start of a worker failed: no
    configuration is written, nginx is neither started nor registered), or
    its trace is: the logs are cleaned, every worker is started and
    registered, one placement after the other; then the configuration is
    written, for the ports of exactly these placements; then, unless its
    start fails, nginx is started and registered, which leaves the registry
    as the workers in placement order followed by nginx.  After the
    configuration is written no process is started or registered except
    nginx, and the configuration is never written again. *)
Theorem workers_before_proxy (ARGS : args) (w : world) :
  map index (plan (GPU_GROUPS ARGS) (START_PORT ARGS))
  = seq 0 (List.length (GPU_GROUPS ARGS))
  /\ map gpu_set (plan (GPU_GROUPS ARGS) (START_PORT ARGS)) = GPU_GROUPS ARGS
  /\ (Forall (fun e => is_proxy_setup e = false) (trace (run ARGS w))
      \/ exists after,
           trace (run ARGS w)
           = CleanLogs
             :: flat_map (launch ARGS) (plan (GPU_GROUPS ARGS) (START_PORT ARGS))
             ++ WriteConfig NGINX_CONF
                  (nginx_config (NGINX_PORT ARGS) (planned_ports ARGS))
             :: after
           /\ (Forall (fun e => is_setup e = false) after
               \/ exists rest,
                    after
                    = Popen Nginx ["nginx"; "-c"; NGINX_CONF; "-g"; "daemon off;"]
                            None NGINX_LOG_OUT
                      :: Append Nginx :: rest
                    /\ Forall (fun e => is_setup e = false) rest
                    /\ registry (run ARGS w)
                       = full_registry (List.length (GPU_GROUPS ARGS)))).
Proof.
  split; [apply plan_from_indices|]. split; [apply plan_from_groups|].
  destruct (run_extends_main ARGS w) as [tail [-> [Htail ->]]].
  pose proof (planned_ports_length ARGS) as Hlen.
  destruct (main_cases ARGS w) as [[why ->] | [[k [Hk ->]] | [-> | ->]]];
    cbn [registry trace fst snd].
  - left. constructor; [reflexivity|]. now apply Forall_and_r in Htail.
  - left. constructor; [reflexivity|]. apply Forall_app. split.
    + eapply Forall_and_r, launch_setup.
    + now apply Forall_and_r in Htail.
  - right. exists tail. split.
    + cbn [app]. now rewrite <- app_assoc.
    + left. now apply Forall_and_l in Htail.
  - right. rewrite <- Hlen, monitoring_registry, Hlen.
    pose proof (monitoring_events (planned_ports ARGS) (ticks w)) as Hev.
    rewrite Hlen in Hev.
    eexists. split.
    + unfold setup_trace. cbn [app]. rewrite <- !app_assoc. cbn [app].
      reflexivity.
    + right. eexists. split; [reflexivity|]. split; [|reflexivity].
      apply Forall_app. split.
      * eapply Forall_impl; [|exact Hev].
        intros e He. now apply loop_event_kinds.
      * now apply Forall_and_l in Htail.
Qed.

(** ** Polling *)

(** C3. Polling a port never raises.  When the request meets a transport
    error (a refused connection, a timeout), when the status is not 200, or
    when scanning the body raises (a last token that is no number, that is
    infinite or not a number), the result is the pair of unknowns. *)
Theorem poll_never_raises (net : Z -> http_reply) (port : Z) :
  (exists stats, get_worker_stats net port = Return stats)
  /\ (poll_failed (net port) ->
      get_worker_stats net port = Return unknown_stats).
Proof.
  split; [apply get_worker_stats_returns | apply get_worker_stats_failed].
Qed.

Lemma poll_never_raises_witness :
  get_worker_stats (fun _ => TransportError) 8000%Z = Return unknown_stats
  /\ get_worker_stats (fun _ => Response 503 metrics_two_lines) 8000%Z
     = Return unknown_stats
  /\ get_worker_stats (fun _ => Response 200 metrics_malformed) 8000%Z
     = Return unknown_stats.
Proof.
  split; [|split].
  - apply (proj2 (poll_never_raises (fun _ => TransportError) 8000%Z)).
    exact I.
  - apply (proj2 (poll_never_raises
                    (fun _ => Response 503 metrics_two_lines) 8000%Z)).
    left. discriminate.
  - apply (proj2 (poll_never_raises
                    (fun _ => Response 200 metrics_malformed) 8000%Z)).
    right. exists ValueError. vm_compute. reflexivity.
Defined.

(** C8 (amended). For a response with status 200 in which every line that
    starts with one of the two metric names ends in a token that
    [int(float(...))] accepts, the poller returns two counts: for each
    metric the value of the last line that carries it, truncated to an
    integer, and 0 when no line carries it. *)
Theorem poll_reads_last_lines (net : Z -> http_reply) (port : Z)
    (text : string)
    (H200 : net port = Response 200 text)
    (Hparse : parses (PyStr.split_on nl text)) :
  exists running total,
    field_value running_prefix (PyStr.split_on nl text) = Return running
    /\ field_value success_prefix (PyStr.split_on nl text) = Return total
    /\ get_worker_stats net port
       = Return (mk_stats (Count running) (Count total))
    /\ (Forall (fun line => PyStr.startswith line running_prefix = false)
               (PyStr.split_on nl text) -> running = 0%Z)
    /\ (Forall (fun line => PyStr.startswith line success_prefix = false)
               (PyStr.split_on nl text) -> total = 0%Z).
Proof.
  destruct (scan_lines_tracks _ Hparse 0%Z 0%Z None None eq_refl eq_refl)
    as [r [t [Hscan [Hr Ht]]]].
  exists r, t.
  assert (Hfr : field_value running_prefix (PyStr.split_on nl text) = Return r).
  { unfold field_value. unfold tracks in Hr.
    destruct (last_match running_prefix None _); congruence. }
  assert (Hft : field_value success_prefix (PyStr.split_on nl text) = Return t).
  { unfold field_value. unfold tracks in Ht.
    destruct (last_match success_prefix None _); congruence. }
  repeat split; try assumption.
  - unfold get_worker_stats, get_worker_stats_try.
    rewrite H200, Hscan. reflexivity.
  - intros Hnone. unfold field_value in Hfr.
    rewrite (last_match_none _ _ Hnone) in Hfr. congruence.
  - intros Hnone. unfold field_value in Hft.
    rewrite (last_match_none _ _ Hnone) in Hft. congruence.
Qed.

Lemma poll_reads_last_lines_witness :
  get_worker_stats (fun _ => Response 200 metrics_two_lines) 8000%Z
  = Return (mk_stats (Count 3) (Count 128)).
Proof.
  destruct (poll_reads_last_lines
              (fun _ => Response 200 metrics_two_lines) 8000%Z
              metrics_two_lines eq_refl)
    as [running [total [Hr [Ht [Hstats _]]]]].
  - unfold parses.
    set (lines := PyStr.split_on nl metrics_two_lines).
    vm_compute in lines. subst lines.
    repeat (apply Forall_cons || apply Forall_nil);
      intros _; eexists; vm_compute; reflexivity.
  - vm_compute in Hr, Ht. rewrite Hstats. congruence.
Defined.

(** C8 as stated fails: this page has status 200 and no line for the
    running gauge, and yet the running count is unknown, not 0, because
    the token of its other line is no number. *)
Lemma absent_metric_reads_unknown :
  Forall (fun line => PyStr.startswith line running_prefix = false)
         (PyStr.split_on nl metrics_malformed)
  /\ get_worker_stats (fun _ => Response 200 metrics_malformed) 8000%Z
     = Return (mk_stats Unknown Unknown)
  /\ ~ (exists stats,
          get_worker_stats (fun _ => Response 200 metrics_malformed) 8000%Z
          = Return stats
          /\ current_processing stats = Count 0).
Proof.
  assert (E : get_worker_stats (fun _ => Response 200 metrics_malformed)
                               8000%Z
              = Return (mk_stats Unknown Unknown)) by (vm_compute; reflexivity).
  split; [|split; [exact E|]].
  - set (lines := PyStr.split_on nl metrics_malformed).
    vm_compute in lines. subst lines. repeat constructor.
  - rewrite E. intros [stats [[= <-] H]]. discriminate H.
Qed.

(** ** The topology planner *)

Section Planner.

(** The code's rule is the specification's rule after stripping. *)
Lemma expand_group_strip (token : string) :
  expand_group token = spec_expand (PyStr.strip token).
Proof. reflexivity. Qed.

(** A token between commas holds no comma, so the test for one never
    decides: a stripped token is expanded exactly when it is longer than
    one character, and its devices are its characters. *)
Lemma expand_group_devices (token : string) :
  PyStr.contains comma token = false ->
  devices (expand_group token) = PyStr.chars (PyStr.strip token).
Proof.
  intros H. apply contains_strip in H.
  unfold expand_group. cbv zeta. rewrite H. cbn [negb]. rewrite andb_true_r.
  destruct (PyStr.strip token) as [|c [|d rest]] eqn:E.
  - reflexivity.
  - cbn in H. rewrite orb_false_r in H.
    unfold devices. cbn. now rewrite H.
  - change (1 <? String.length (String c (String d rest)))%nat with true.
    cbv iota. unfold devices.
    change (PyStr.join "," (PyStr.chars (String c (String d rest))))
      with (String c (String comma
              (PyStr.join "," (PyStr.chars (String d rest))))).
    cbn [String.eqb].
    change (String c (String comma
              (PyStr.join "," (PyStr.chars (String d rest)))))
      with (PyStr.join "," (PyStr.chars (String c (String d rest)))).
    apply split_join_chars; [discriminate | exact H].
Qed.

Lemma expand_group_blank (token : string) :
  PyStr.strip token = EmptyString -> expand_group token = EmptyString.
Proof. unfold expand_group. intros ->. reflexivity. Qed.

Lemma plan_nth (groups : list string) (start : Z) (k : nat) (g : string) :
  nth_error groups k = Some g ->
  nth_error (plan groups start) k
  = Some (mk_placement k g (start + Z.of_nat k)).
Proof.
  intros H. unfold plan. now rewrite plan_from_nth, H.
Qed.

End Planner.

(** C4 (amended). The planner is a function of the specification string
    and the start port.  Each comma-separated token is first stripped of
    the whitespace around it; a stripped token of more than one character
    is split into its characters, rejoined with commas, and any other
    stripped token is kept (a token never holds a comma, so that test
    decides nothing): the devices of a group are the characters of its
    stripped token.  The [k]-th group gets process [k] and port
    [start + k], and these are the placements the worker loop of [main]
    starts, in order, up to the first [Popen] that raises.  ["01,23,45,67"]
    from port 8000 gives the device lists 0 1, 2 3, 4 5, 6 7 on ports 8000
    to 8003, and ["0,1,2,3"] four single devices on the same ports. *)
Theorem planner_expands_stripped_tokens (gpu_str : string) (start : Z)
    (ARGS : args) (w : world) (procs : list handle) :
  parse_gpu_groups gpu_str
  = map (fun token => spec_expand (PyStr.strip token))
        (PyStr.split_on comma gpu_str)
  /\ Forall (fun token =>
               devices (expand_group token) = PyStr.chars (PyStr.strip token))
            (PyStr.split_on comma gpu_str)
  /\ topology gpu_str start = Return (plan (parse_gpu_groups gpu_str) start)
  /\ List.length (plan (parse_gpu_groups gpu_str) start)
     = List.length (PyStr.split_on comma gpu_str)
  /\ (forall k g, nth_error (parse_gpu_groups gpu_str) k = Some g ->
        nth_error (plan (parse_gpu_groups gpu_str) start) k
        = Some (mk_placement k g (start + Z.of_nat k)))
  /\ (let k := launched w 0 (GPU_GROUPS ARGS) in
      let started := firstn k (plan (GPU_GROUPS ARGS) (START_PORT ARGS)) in
      start_workers ARGS w (GPU_GROUPS ARGS) 0 (START_PORT ARGS) [] procs
      = (if (k =? List.length (GPU_GROUPS ARGS))%nat
         then Return (map listen_port started) else Raise OSError,
         procs ++ map Worker (seq 0 k),
         flat_map (launch ARGS) started))
  /\ topology "01,23,45,67" 8000
     = Return [mk_placement 0 "0,1" 8000; mk_placement 1 "2,3" 8001;
               mk_placement 2 "4,5" 8002; mk_placement 3 "6,7" 8003]
  /\ map devices (parse_gpu_groups "01,23,45,67")
     = [["0"; "1"]; ["2"; "3"]; ["4"; "5"]; ["6"; "7"]]
  /\ topology "0,1,2,3" 8000
     = Return [mk_placement 0 "0" 8000; mk_placement 1 "1" 8001;
               mk_placement 2 "2" 8002; mk_placement 3 "3" 8003]
  /\ map devices (parse_gpu_groups "0,1,2,3") = [["0"]; ["1"]; ["2"]; ["3"]].
Proof.
  split; [reflexivity|].
  split.
  { eapply Forall_impl; [|apply split_on_fields].
    intros token. apply expand_group_devices. }
  split; [reflexivity|].
  split.
  { unfold plan, parse_gpu_groups. now rewrite plan_from_length, length_map. }
  split; [intros k g; apply plan_nth|].
  split; [apply (start_workers_run ARGS w (GPU_GROUPS ARGS) 0
                   (START_PORT ARGS) [] procs)|].
  repeat split.
Qed.

Lemma planner_expands_stripped_tokens_witness :
  nth_error (plan (parse_gpu_groups "01,23,45,67") 8000) 2
  = Some (mk_placement 2 "4,5" 8002).
Proof.
  destruct (planner_expands_stripped_tokens "01,23,45,67" 8000 default_args
              world_port_busy [])
    as [_ [_ [_ [_ [Hnth _]]]]].
  apply (Hnth 2 "4,5"). reflexivity.
Defined.

(** C4 as stated fails on a token with a blank in it: read as the claim
    has it, the token [" 1"] of ["0, 1"] has two characters and no comma
    and becomes [" ,1"]; the code strips it and keeps ["1"]. *)
Lemma blank_in_token_is_stripped :
  parse_gpu_groups "0, 1" = ["0"; "1"]
  /\ spec_parse "0, 1" = ["0"; " ,1"]
  /\ parse_gpu_groups "0, 1" <> spec_parse "0, 1".
Proof. repeat split. discriminate. Qed.

(** C5 (amended). The planner never fails: for every specification string
    it returns one placement for each comma-separated token, and a token
    that is empty or all whitespace gives a placement whose device string
    is empty, on the port of its position like any other. *)
Theorem planner_never_fails (gpu_str : string) (start : Z) :
  exists placements,
    topology gpu_str start = Return placements
    /\ List.length placements = List.length (PyStr.split_on comma gpu_str)
    /\ placements <> []
    /\ forall k token,
         nth_error (PyStr.split_on comma gpu_str) k = Some token ->
         PyStr.strip token = EmptyString ->
         nth_error placements k
         = Some (mk_placement k EmptyString (start + Z.of_nat k))
         /\ devices EmptyString = [].
Proof.
  exists (plan (parse_gpu_groups gpu_str) start).
  split; [reflexivity|]. split; [|split].
  - unfold plan, parse_gpu_groups. now rewrite plan_from_length, length_map.
  - unfold plan, parse_gpu_groups.
    pose proof (split_on_nonempty comma gpu_str) as Hne.
    destruct (PyStr.split_on comma gpu_str); [congruence | discriminate].
  - intros k token Hk Hblank. split; [|reflexivity].
    apply plan_nth. unfold parse_gpu_groups.
    rewrite nth_error_map, Hk. cbn [option_map].
    now rewrite (expand_group_blank token Hblank).
Qed.

Lemma planner_never_fails_witness :
  exists placements,
    topology "01, ,23" 8000 = Return placements
    /\ nth_error placements 1 = Some (mk_placement 1 "" 8001).
Proof.
  destruct (planner_never_fails "01, ,23" 8000)
    as [placements [Hplan [_ [_ Hblank]]]].
  exists placements. split; [exact Hplan|].
  apply (Hblank 1 " "); reflexivity.
Defined.

(** C5 as stated fails: a specification with an empty group is planned
    like any other; no error is raised and three placements come back,
    the second with no device. *)
Lemma empty_group_is_planned :
  topology "01,,23" 8000
  = Return [mk_placement 0 "0,1" 8000; mk_placement 1 "" 8001;
            mk_placement 2 "2,3" 8002]
  /\ map devices (parse_gpu_groups "01,,23") = [["0"; "1"]; []; ["2"; "3"]]
  /\ ~ (exists e, topology "01,,23" 8000 = Raise e).
Proof.
  split; [reflexivity|]. split; [reflexivity|].
  intros [e H]. discriminate H.
Qed.

(** ** The text of the configuration *)

Section ConfigText.

Lemma string_app_assoc (a b c : string) :
  ((a ++ b) ++ c = a ++ (b ++ c))%string.
Proof.
  induction a as [|x a IH]; simpl; [reflexivity|]. now rewrite IH.
Qed.

Lemma string_app_nil_r (a : string) : (a ++ "")%string = a.
Proof.
  induction a as [|x a IH]; simpl; [reflexivity|]. now rewrite IH.
Qed.

Lemma all_chars_impl (p q : ascii -> bool) (s : string) :
  (forall c, p c = true -> q c = true) ->
  all_chars p s = true -> all_chars q s = true.
Proof.
  intros Hpq. induction s as [|c rest IH]; simpl; [trivial|].
  intros H. apply andb_true_iff in H as [Hc Hrest].
  now rewrite (Hpq c Hc), IH.
Qed.

Lemma all_chars_app (p : ascii -> bool) (a b : string) :
  all_chars p (a ++ b) = all_chars p a && all_chars p b.
Proof.
  induction a as [|c rest IH]; simpl; [reflexivity|].
  now rewrite IH, andb_assoc.
Qed.

Lemma uint_decimal (d : Decimal.uint) :
  all_chars is_decimal_char (NilEmpty.string_of_uint d) = true.
Proof. induction d; simpl; auto. Qed.

(** [str] writes digits, after a minus sign at most. *)
Lemma str_decimal (z : Z) : all_chars is_decimal_char (PyStr.str z) = true.
Proof.
  unfold PyStr.str, NilEmpty.string_of_int.
  destruct (Z.to_int z); simpl; apply uint_decimal.
Qed.

Lemma decimal_not_space (c : ascii) :
  is_decimal_char c = true -> negb (PyStr.is_space c) = true.
Proof.
  destruct c as [[] [] [] [] [] [] [] []]; vm_compute; congruence.
Qed.

Lemma decimal_not_newline (c : ascii) :
  is_decimal_char c = true -> negb (Ascii.eqb c nl) = true.
Proof.
  destruct c as [[] [] [] [] [] [] [] []]; vm_compute; congruence.
Qed.

Lemma all_chars_contains (c : ascii) (s : string) :
  all_chars (fun d => negb (Ascii.eqb d c)) s = true ->
  PyStr.contains c s = false.
Proof.
  induction s as [|d rest IH]; simpl; [trivial|].
  intros H. apply andb_true_iff in H as [Hd Hrest].
  apply negb_true_iff in Hd. now rewrite Hd, IH.
Qed.

Lemma split_on_none (c : ascii) (s : string) :
  PyStr.contains c s = false -> PyStr.split_on c s = [s].
Proof.
  induction s as [|d rest IH]; simpl; [trivial|].
  intros H. apply orb_false_iff in H as [Hd Hrest].
  now rewrite Hd, IH.
Qed.

(** A line and its separator come off the front of a text. *)
Lemma split_on_line (c : ascii) (a b : string) :
  PyStr.contains c a = false ->
  PyStr.split_on c (a ++ String c b) = a :: PyStr.split_on c b.
Proof.
  induction a as [|d rest IH]; simpl.
  - intros _. now rewrite Ascii.eqb_refl.
  - intros H. apply orb_false_iff in H as [Hd Hrest].
    now rewrite Hd, IH.
Qed.

(** Splitting a concatenation: the last field of the first text and the
    first field of the second are one field. *)
Lemma split_on_app (c : ascii) (a b : string) :
  PyStr.split_on c (a ++ b)
  = removelast (PyStr.split_on c a)
    ++ (last (PyStr.split_on c a) EmptyString
        ++ hd EmptyString (PyStr.split_on c b))%string
       :: tl (PyStr.split_on c b).
Proof.
  induction a as [|d rest IH].
  - cbn. pose proof (split_on_nonempty c b).
    destruct (PyStr.split_on c b); [congruence | reflexivity].
  - cbn [PyStr.split_on String.append]. rewrite IH.
    pose proof (split_on_nonempty c rest) as Hne.
    destruct (Ascii.eqb d c).
    + destruct (PyStr.split_on c rest) as [|field fields]; [congruence|].
      reflexivity.
    + destruct (PyStr.split_on c rest) as [|field [|field' fields]];
        [congruence | reflexivity | reflexivity].
Qed.

(** The upstream block is one line for each port, in order. *)
Lemma upstream_block_text (port_list : list Z) (upstream_block : string) :
  fold_left upstream_line port_list upstream_block
  = (upstream_block ++ lines_text (map server_line port_list))%string.
Proof.
  revert upstream_block.
  induction port_list as [|port more IH]; intros upstream_block; simpl.
  - now rewrite string_app_nil_r.
  - rewrite IH. unfold upstream_line, server_line.
    rewrite !string_app_assoc. reflexivity.
Qed.

Lemma server_line_no_newline (port : Z) :
  PyStr.contains nl (server_line port) = false.
Proof.
  apply all_chars_contains. unfold server_line.
  rewrite !all_chars_app. cbn [andb].
  rewrite (all_chars_impl _ _ _ decimal_not_newline (str_decimal port)).
  reflexivity.
Qed.

Lemma split_on_lines_text (ls : list string) (b : string) :
  Forall (fun l => PyStr.contains nl l = false) ls ->
  PyStr.split_on nl (lines_text ls ++ b) = ls ++ PyStr.split_on nl b.
Proof.
  induction 1 as [|l more Hl _ IH]; [reflexivity|].
  cbn [lines_text]. rewrite string_app_assoc.
  cbn [String.append]. rewrite (split_on_line nl l _ Hl), IH. reflexivity.
Qed.

Lemma string_of_list_ascii_app (l l' : list ascii) :
  string_of_list_ascii (l ++ l')
  = (string_of_list_ascii l ++ string_of_list_ascii l')%string.
Proof.
  induction l as [|c l IH]; simpl; [reflexivity|]. now rewrite IH.
Qed.

(** A run of characters without whitespace is one word. *)
Lemma split_ws_from_word (s : string) (word : list ascii) :
  all_chars (fun c => negb (PyStr.is_space c)) s = true ->
  (string_of_list_ascii (rev word) ++ s)%string <> EmptyString ->
  PyStr.split_ws_from word s
  = [(string_of_list_ascii (rev word) ++ s)%string].
Proof.
  revert word. induction s as [|c rest IH]; intros word Hs Hne.
  - cbn [PyStr.split_ws_from]. rewrite string_app_nil_r in *.
    destruct word as [|d word]; [now contradiction Hne | reflexivity].
  - cbn [all_chars] in Hs. apply andb_true_iff in Hs as [Hc Hrest].
    apply negb_true_iff in Hc.
    cbn [PyStr.split_ws_from]. rewrite Hc.
    assert (E : (string_of_list_ascii (rev (c :: word)) ++ rest
                 = string_of_list_ascii (rev word) ++ String c rest)%string).
    { cbn [rev]. rewrite string_of_list_ascii_app, string_app_assoc.
      reflexivity. }
    rewrite IH; [now rewrite E | exact Hrest | now rewrite E].
Qed.

(** What follows a blank is split on its own. *)
Lemma split_ws_from_app (a : string) (c : ascii) (b : string)
    (word : list ascii) :
  PyStr.is_space c = true ->
  PyStr.split_ws_from word (a ++ String c b)
  = PyStr.split_ws_from word (a ++ String c EmptyString)
    ++ PyStr.split_ws_from [] b.
Proof.
  intros Hc. revert word.
  induction a as [|x a IH]; intros word;
    cbn [String.append PyStr.split_ws_from].
  - rewrite Hc. destruct word; reflexivity.
  - destruct (PyStr.is_space x).
    + rewrite IH. destruct word; reflexivity.
    + apply IH.
Qed.

(** An indented word, a blank, and a run [d] without whitespace. *)
Lemma split_ws_two_words (indented d word : string) :
  all_chars (fun c => negb (PyStr.is_space c)) d = true ->
  d <> EmptyString ->
  PyStr.split_ws_from [] (indented ++ String " " EmptyString) = [word] ->
  PyStr.split_ws (indented ++ String " " d) = [word; d].
Proof.
  intros Hd Hne Hw. unfold PyStr.split_ws.
  rewrite split_ws_from_app by reflexivity. rewrite Hw.
  rewrite split_ws_from_word; [reflexivity | exact Hd | exact Hne].
Qed.

Lemma decimal_then_semicolon (d : string) :
  all_chars is_decimal_char d = true ->
  all_chars (fun c => negb (PyStr.is_space c)) (d ++ ";") = true
  /\ (d ++ ";")%string <> EmptyString.
Proof.
  intros Hd. split.
  - rewrite all_chars_app.
    now rewrite (all_chars_impl _ _ _ decimal_not_space Hd).
  - destruct d; discriminate.
Qed.

Lemma server_line_words (port : Z) :
  PyStr.split_ws (server_line port) = server_directive port.
Proof.
  unfold server_line, server_directive.
  pose proof (str_decimal port) as Hd. revert Hd.
  generalize (PyStr.str port). intros d Hd.
  apply (split_ws_two_words "        server" ("127.0.0.1:" ++ d ++ ";")
           "server").
  - change ("127.0.0.1:" ++ d ++ ";")%string
      with ("127.0.0.1:" ++ (d ++ ";"))%string.
    rewrite all_chars_app.
    now rewrite (proj1 (decimal_then_semicolon d Hd)).
  - discriminate.
  - reflexivity.
Qed.

Lemma hd_tl {A : Type} (d : A) (l : list A) :
  l <> [] -> hd d l :: tl l = l.
Proof. destruct l; [congruence | reflexivity]. Qed.

(** The configuration, directive by directive. *)
Lemma config_directives (nginx_port : Z) (port_list : list Z) :
  NginxConf.directives (nginx_config nginx_port port_list)
  = head_directives ++ map server_directive port_list
    ++ tail_directives nginx_port.
Proof.
  unfold NginxConf.directives, nginx_config. cbv zeta.
  rewrite upstream_block_text. cbn [String.append].
  rewrite split_on_app.
  set (head_lines := PyStr.split_on nl config_head).
  vm_compute in head_lines. subst head_lines.
  cbn [removelast last String.append].
  rewrite hd_tl by apply split_on_nonempty.
  rewrite split_on_lines_text
    by (apply Forall_forall; intros l Hl;
        apply in_map_iff in Hl as [p [<- _]]; apply server_line_no_newline).
  unfold config_tail, tail_directives, server_block.
  pose proof (str_decimal nginx_port) as Hd. revert Hd.
  generalize (PyStr.str nginx_port). intros d Hd.
  rewrite split_on_app, (split_on_app nl d), (split_on_none nl d)
    by (apply all_chars_contains;
        exact (all_chars_impl _ _ _ decimal_not_newline Hd)).
  match goal with
  | |- context [PyStr.split_on nl ?t] => set (l1 := PyStr.split_on nl t)
  end.
  vm_compute in l1. subst l1.
  match goal with
  | |- context [PyStr.split_on nl ?t] => set (l2 := PyStr.split_on nl t)
  end.
  vm_compute in l2. subst l2.
  cbn [removelast last hd tl String.append app].
  change (map PyStr.split_ws (?a :: ?b :: ?c :: ?d' :: ?e :: ?f :: ?g :: ?h
                               :: ?i :: ?j :: ?rest))
    with (map PyStr.split_ws [a; b; c; d'; e; f; g; h; i; j]
          ++ map PyStr.split_ws rest).
  rewrite map_app, map_map.
  rewrite (map_ext _ _ server_line_words).
  f_equal. f_equal.
  destruct (decimal_then_semicolon d Hd) as [Hnospace Hne].
  cbn [map]. f_equal. f_equal. f_equal. f_equal.
  apply (split_ws_two_words "        listen" (d ++ ";") "listen");
    [exact Hnospace | exact Hne | reflexivity].
Qed.

End ConfigText.

(** ** Reading the configuration back *)

Section ConfigReading.

Lemma after_app (opening : list string) (l1 l2 : list (list string)) :
  NginxConf.after opening (l1 ++ l2)
  = if existsb (fun l => NginxConf.words_eqb l opening) l1
    then NginxConf.after opening l1 ++ l2
    else NginxConf.after opening l2.
Proof.
  induction l1 as [|l more IH]; simpl; [reflexivity|].
  destruct (NginxConf.words_eqb l opening); [reflexivity | exact IH].
Qed.

Lemma body_plain (ls rest : list (list string)) (depth : nat) :
  forallb is_plain ls = true ->
  NginxConf.body depth (ls ++ rest) = ls ++ NginxConf.body depth rest.
Proof.
  induction ls as [|l more IH]; [reflexivity|].
  cbn [forallb app NginxConf.body]. intros H.
  apply andb_true_iff in H as [Hl Hmore]. unfold is_plain in Hl.
  apply andb_true_iff in Hl as [Hclose Hopen].
  apply negb_true_iff in Hclose, Hopen.
  rewrite Hclose, Hopen, (IH Hmore). reflexivity.
Qed.

Lemma servers_plain (port_list : list Z) :
  forallb is_plain (map server_directive port_list) = true.
Proof.
  induction port_list as [|port more IH]; [reflexivity|].
  cbn [map forallb]. now rewrite IH.
Qed.

Lemma servers_not_opening (port_list : list Z) :
  existsb (fun l => NginxConf.words_eqb l ["server"; "{"])
          (map server_directive port_list) = false.
Proof.
  induction port_list as [|port more IH]; [reflexivity|].
  cbn [map existsb]. now rewrite IH.
Qed.

Lemma chop_semicolon_app (d : string) :
  NginxConf.chop_semicolon (d ++ ";") = Some d.
Proof.
  induction d as [|c rest IH]; [reflexivity|].
  cbn [String.append NginxConf.chop_semicolon]. rewrite IH.
  destruct rest; reflexivity.
Qed.

(** Reading back what [str] wrote. *)
Lemma read_int_str (z : Z) : NginxConf.read_int (PyStr.str z) = Some z.
Proof.
  unfold NginxConf.read_int, PyStr.str.
  rewrite NilEmpty.isi. cbn [option_map]. now rewrite DecimalZ.of_to.
Qed.

Lemma server_port_directive (port : Z) :
  NginxConf.server_port (server_directive port) = Some port.
Proof.
  unfold NginxConf.server_port, server_directive.
  cbn [String.eqb Ascii.eqb Bool.eqb NginxConf.drop_prefix String.append].
  rewrite chop_semicolon_app. apply read_int_str.
Qed.

Lemma servers_ports (port_list : list Z) :
  flat_map (fun l => match NginxConf.server_port l with
                     | Some p => [p]
                     | None => []
                     end)
           (map server_directive port_list)
  = port_list.
Proof.
  induction port_list as [|port more IH]; [reflexivity|].
  cbn [map flat_map]. now rewrite server_port_directive, IH.
Qed.

Lemma not_open_brace (d : string) : String.eqb (d ++ ";") "{" = false.
Proof.
  destruct d as [|c [|c' d]]; cbn; try reflexivity;
    destruct (Ascii.eqb c "{"); reflexivity.
Qed.

Lemma servers_filter (opening : list string) (port_list : list Z) :
  (forall port, NginxConf.words_eqb (server_directive port) opening = false) ->
  filter (fun l => NginxConf.words_eqb l opening)
         (map server_directive port_list) = [].
Proof.
  intros H. induction port_list as [|port more IH]; [reflexivity|].
  cbn [map filter]. now rewrite H.
Qed.

End ConfigReading.

(** C7. For every list of worker ports and every listen port the rendered
    configuration reads, directive by directive, as the fixed head, one
    [server 127.0.0.1:PORT;] for each worker port in the order given, and
    the fixed tail.  It has one upstream pool, [vllm_backend], whose block
    holds [least_conn;] and these servers and nothing else, so that the
    ports read back from the pool are the worker ports; the read timeout
    is 1200s; and it has one virtual server, whose block listens on the
    listen port and sends every path to the pool with buffering off and
    the Connection header emptied.  For ports 8000 and 8001 behind 8080
    the pool reads 8000, 8001 and the server listens on 8080. *)
Theorem config_lists_every_worker (nginx_port : Z) (port_list : list Z) :
  NginxConf.directives (nginx_config nginx_port port_list)
  = head_directives ++ map server_directive port_list
    ++ tail_directives nginx_port
  /\ NginxConf.occurrences ["upstream"; "vllm_backend"; "{"]
                           (nginx_config nginx_port port_list) = 1
  /\ NginxConf.block ["upstream"; "vllm_backend"; "{"]
                     (nginx_config nginx_port port_list)
     = ["least_conn;"] :: map server_directive port_list ++ [[]]
  /\ NginxConf.upstream_ports (nginx_config nginx_port port_list) = port_list
  /\ In ["proxy_read_timeout"; "1200s;"]
        (NginxConf.block ["http"; "{"] (nginx_config nginx_port port_list))
  /\ NginxConf.occurrences ["server"; "{"]
                           (nginx_config nginx_port port_list) = 1
  /\ NginxConf.block ["server"; "{"] (nginx_config nginx_port port_list)
     = server_block nginx_port
  /\ NginxConf.listen_ports (nginx_config nginx_port port_list)
     = [nginx_port]
  /\ NginxConf.upstream_ports (nginx_config 8080 [8000; 8001]%Z)
     = [8000; 8001]%Z
  /\ NginxConf.listen_ports (nginx_config 8080 [8000; 8001]%Z) = [8080%Z].
Proof.
  pose proof (config_directives nginx_port port_list) as Hdir.
  assert (Hpool : NginxConf.block ["upstream"; "vllm_backend"; "{"]
                    (nginx_config nginx_port port_list)
                  = ["least_conn;"] :: map server_directive port_list ++ [[]]).
  { unfold NginxConf.block. rewrite Hdir, after_app.
    change (["least_conn;"] :: map server_directive port_list ++ [[]])
      with ((["least_conn;"] :: map server_directive port_list) ++ [[]]).
    cbn [existsb head_directives NginxConf.words_eqb String.eqb Ascii.eqb
         Bool.eqb andb orb NginxConf.after app].
    change (["least_conn;"] :: map server_directive port_list
            ++ tail_directives nginx_port)
      with ((["least_conn;"] :: map server_directive port_list)
            ++ tail_directives nginx_port).
    rewrite body_plain; [reflexivity|].
    cbn [forallb]. now rewrite servers_plain. }
  assert (Hserver : NginxConf.block ["server"; "{"]
                      (nginx_config nginx_port port_list)
                    = server_block nginx_port).
  { unfold NginxConf.block. rewrite Hdir, after_app.
    cbn [existsb head_directives NginxConf.words_eqb String.eqb Ascii.eqb
         Bool.eqb andb orb].
    rewrite after_app, servers_not_opening.
    unfold tail_directives, server_block.
    cbn [app NginxConf.after NginxConf.words_eqb String.eqb Ascii.eqb
         Bool.eqb andb NginxConf.body last].
    rewrite not_open_brace. reflexivity. }
  split; [exact Hdir|].
  split.
  { unfold NginxConf.occurrences. rewrite Hdir, !filter_app, !length_app.
    rewrite servers_filter by reflexivity. reflexivity. }
  split; [exact Hpool|].
  split.
  { unfold NginxConf.upstream_ports. rewrite Hpool.
    cbn [flat_map NginxConf.server_port app]. rewrite flat_map_app.
    rewrite servers_ports. cbn. now rewrite app_nil_r. }
  split.
  { unfold NginxConf.block. rewrite Hdir, after_app.
    cbn [existsb head_directives NginxConf.words_eqb String.eqb Ascii.eqb
         Bool.eqb andb orb NginxConf.after app NginxConf.body last].
    right. left. reflexivity. }
  split.
  { unfold NginxConf.occurrences. rewrite Hdir, !filter_app, !length_app.
    rewrite servers_filter by reflexivity. reflexivity. }
  split; [exact Hserver|].
  split.
  { unfold NginxConf.listen_ports. rewrite Hserver.
    unfold server_block.
    cbn [flat_map NginxConf.listen_port_of String.eqb Ascii.eqb Bool.eqb app].
    now rewrite chop_semicolon_app, read_int_str. }
  split; vm_compute; reflexivity.
Qed.

(** ** More on the topology planner *)

Section PlannerShape.

(** Splitting at a separator splits the two sides on their own. *)
Lemma split_on_sep_app (c : ascii) (a b : string) :
  PyStr.split_on c (a ++ String c b)
  = PyStr.split_on c a ++ PyStr.split_on c b.
Proof.
  induction a as [|d rest IH]; cbn [String.append PyStr.split_on].
  - now rewrite Ascii.eqb_refl.
  - rewrite IH. pose proof (split_on_nonempty c rest) as Hne.
    destruct (Ascii.eqb d c); [reflexivity|].
    destruct (PyStr.split_on c rest); [congruence | reflexivity].
Qed.

Lemma split_on_length (c : ascii) (s : string) :
  List.length (PyStr.split_on c s) = S (count_char c s).
Proof.
  induction s as [|d rest IH]; [reflexivity|].
  cbn [PyStr.split_on count_char].
  pose proof (split_on_nonempty c rest) as Hne.
  destruct (Ascii.eqb d c); cbn [List.length]; [now rewrite IH|].
  destruct (PyStr.split_on c rest); [congruence|]. exact IH.
Qed.

Lemma chars_single (s : string) :
  Forall (fun dev => String.length dev = 1) (PyStr.chars s).
Proof. induction s; constructor; [reflexivity | assumption]. Qed.

Lemma join_chars_short (s : string) :
  String.length s <= 1 -> PyStr.join "," (PyStr.chars s) = s.
Proof.
  destruct s as [|c [|d rest]]; cbn; intros H; [reflexivity | reflexivity | lia].
Qed.

Lemma rstrip_step (c : ascii) (s : string) :
  PyStr.rstrip (String c s)
  = match PyStr.rstrip s with
    | EmptyString =>
        if PyStr.is_space c then EmptyString else String c EmptyString
    | kept => String c kept
    end.
Proof. reflexivity. Qed.

Lemma rstrip_idempotent (s : string) :
  PyStr.rstrip (PyStr.rstrip s) = PyStr.rstrip s.
Proof.
  induction s as [|c rest IH]; [reflexivity|].
  rewrite rstrip_step.
  destruct (PyStr.rstrip rest) as [|k kept] eqn:E.
  - destruct (PyStr.is_space c) eqn:Ec; [reflexivity|].
    rewrite rstrip_step. cbn [PyStr.rstrip]. now rewrite Ec.
  - rewrite rstrip_step, IH. reflexivity.
Qed.

Lemma rstrip_cons (c : ascii) (s : string) :
  PyStr.is_space c = false ->
  PyStr.rstrip (String c s) = String c (PyStr.rstrip s).
Proof.
  intros Hc. cbn [PyStr.rstrip].
  destruct (PyStr.rstrip s); [now rewrite Hc | reflexivity].
Qed.

Lemma lstrip_head (s : string) :
  PyStr.lstrip s = EmptyString
  \/ exists c rest, PyStr.lstrip s = String c rest /\ PyStr.is_space c = false.
Proof.
  induction s as [|c rest IH]; [now left|].
  cbn [PyStr.lstrip]. destruct (PyStr.is_space c) eqn:Ec; [exact IH|].
  right. now exists c, rest.
Qed.

(** Stripping twice is stripping once. *)
Lemma strip_idempotent (s : string) :
  PyStr.strip (PyStr.strip s) = PyStr.strip s.
Proof.
  unfold PyStr.strip.
  destruct (lstrip_head s) as [-> | [c [rest [-> Hc]]]]; [reflexivity|].
  rewrite (rstrip_cons c rest Hc). cbn [PyStr.lstrip]. rewrite Hc.
  rewrite <- (rstrip_cons c rest Hc). apply rstrip_idempotent.
Qed.

End PlannerShape.

(** X1. Parsing distributes over the comma: the groups of [a,b] are the
    groups of [a] followed by the groups of [b], whatever [a] and [b]
    are. *)
Theorem parse_gpu_groups_comma (a b : string) :
  parse_gpu_groups (a ++ String comma b)
  = parse_gpu_groups a ++ parse_gpu_groups b.
Proof.
  unfold parse_gpu_groups. now rewrite split_on_sep_app, map_app.
Qed.

(** X2. There is one group for each comma of the string and one more: the
    planner never returns an empty list, and the empty string gives one
    group, the empty one. *)
Theorem parse_gpu_groups_count (gpu_str : string) :
  List.length (parse_gpu_groups gpu_str) = S (count_char comma gpu_str)
  /\ parse_gpu_groups gpu_str <> []
  /\ parse_gpu_groups "" = [""].
Proof.
  assert (H : List.length (parse_gpu_groups gpu_str)
              = S (count_char comma gpu_str)).
  { unfold parse_gpu_groups. now rewrite length_map, split_on_length. }
  split; [exact H|]. split; [|reflexivity].
  intros E. rewrite E in H. discriminate H.
Qed.

(** X3. Every group the planner returns is a list of single characters
    joined by commas, made from a stripped token that holds no comma: a
    device id is always one character, so two digits in a row are two
    devices. *)
Theorem groups_are_single_characters (gpu_str : string) :
  Forall (fun group =>
            (exists token,
               PyStr.contains comma token = false
               /\ PyStr.strip token = token
               /\ group = PyStr.join "," (PyStr.chars token))
            /\ Forall (fun dev => String.length dev = 1) (devices group))
         (parse_gpu_groups gpu_str).
Proof.
  unfold parse_gpu_groups. apply Forall_map.
  eapply Forall_impl; [|apply split_on_fields].
  intros token Hcomma. split.
  - exists (PyStr.strip token).
    pose proof (contains_strip _ _ Hcomma) as Hstripped.
    split; [exact Hstripped|]. split.
    + apply strip_idempotent.
    + unfold expand_group. cbv zeta. rewrite Hstripped. cbn [negb].
      rewrite andb_true_r.
      destruct (1 <? String.length (PyStr.strip token))%nat eqn:E;
        [reflexivity|].
      symmetry. apply join_chars_short. apply Nat.ltb_ge in E. exact E.
  - rewrite (expand_group_devices token Hcomma). apply chars_single.
Qed.

(** ** More on polling *)

(** X4. The poller answers with two unknowns exactly when the request or
    the scan failed, and otherwise with two counts: a row of the table
    never has one field known and the other unknown, and a reachable
    worker whose page parses is never shown as unknown. *)
Theorem poll_unknown_iff_failed (net : Z -> http_reply) (port : Z) :
  (get_worker_stats net port = Return unknown_stats
   <-> poll_failed (net port))
  /\ (get_worker_stats net port = Return unknown_stats
      \/ exists running total,
           get_worker_stats net port
           = Return (mk_stats (Count running) (Count total))).
Proof.
  assert (Hcases : poll_failed (net port)
                   \/ exists running total,
                        get_worker_stats net port
                        = Return (mk_stats (Count running) (Count total))).
  { unfold poll_failed, get_worker_stats, get_worker_stats_try.
    destruct (net port) as [|status_code text]; [now left|].
    destruct (status_code =? 200)%Z eqn:Ecode.
    - destruct (scan_lines _ _) as [[running total]|e] eqn:Escan.
      + right. now exists running, total.
      + left. right. now exists e.
    - left. left. now apply Z.eqb_neq. }
  split; [split|].
  - intros Hunknown. destruct Hcases as [H | [running [total H]]]; [exact H|].
    rewrite H in Hunknown. discriminate Hunknown.
  - apply get_worker_stats_failed.
  - destruct Hcases as [H | H]; [left; now apply get_worker_stats_failed|].
    now right.
Qed.

Section StatsTable.

Lemma table_rows_ports (net : Z -> http_reply) (worker_ports : list Z) :
  map (fun row => fst (fst row)) (table_rows net worker_ports) = worker_ports.
Proof.
  unfold table_rows. rewrite map_map. cbn [fst]. apply map_id.
Qed.

Lemma table_rows_polled (net : Z -> http_reply) (worker_ports : list Z) :
  Forall (fun row =>
            get_worker_stats net (fst (fst row))
            = Return (mk_stats (snd (fst row)) (snd row)))
         (table_rows net worker_ports).
Proof.
  unfold table_rows. apply Forall_map, Forall_forall. intros port _.
  cbn [fst snd].
  destruct (get_worker_stats_returns net port) as [[running total] E].
  rewrite E. reflexivity.
Qed.

End StatsTable.

(** X5. Printing the stats table never raises and never touches
    [RUNNING_PROCESSES]: it polls every worker port once and prints one
    table with one row for each port, in the order of [worker_ports], the
    row of a port being what the poller answers for it (two unknowns for a
    worker that cannot be reached). *)
Theorem stats_table_has_a_row_per_port (t : tick) (worker_ports : list Z)
    (procs : list handle) :
  exists rows,
    stats_rows (net t) worker_ports = Return rows
    /\ print_stats_table t worker_ports procs
       = (Return tt, procs, [StatsTable (clock t) rows])
    /\ map (fun row => fst (fst row)) rows = worker_ports
    /\ Forall (fun row =>
                 get_worker_stats (net t) (fst (fst row))
                 = Return (mk_stats (snd (fst row)) (snd row)))
              rows.
Proof.
  exists (table_rows (net t) worker_ports).
  split; [apply stats_rows_run|].
  split; [apply print_stats_table_run|].
  split; [apply table_rows_ports | apply table_rows_polled].
Qed.

(** ** More on the preflight *)

Section PreflightOrder.

Variable ARGS : args.
Variable w : world.

Lemma preflight_ok_spec :
  preflight_ok ARGS w = true
  <-> which_nginx w = true
      /\ is_port_in_use w (NGINX_PORT ARGS) = false
      /\ forall i, i < List.length (GPU_GROUPS ARGS) ->
           is_port_in_use w (START_PORT ARGS + Z.of_nat i)%Z = false.
Proof.
  unfold preflight_ok. rewrite !andb_true_iff, negb_true_iff, forallb_forall.
  split.
  - intros [[Hn Hp] Hw]. repeat split; try assumption.
    intros i Hi. apply negb_true_iff, Hw, in_seq. lia.
  - intros [Hn [Hp Hw]]. repeat split; try assumption.
    intros i Hi. apply in_seq in Hi. apply negb_true_iff, Hw. lia.
Qed.

(** The loop over the worker ports stops at the first one in use. *)
Lemma check_worker_ports_first (len a i : nat) (procs : list handle) :
  a <= i < a + len ->
  is_port_in_use w (START_PORT ARGS + Z.of_nat i)%Z = true ->
  (forall j, a <= j < i ->
     is_port_in_use w (START_PORT ARGS + Z.of_nat j)%Z = false) ->
  for_each (seq a len) (check_worker_port ARGS w) procs
  = (Raise (SystemExit 1), procs,
     [Fatal (WorkerPortInUse (START_PORT ARGS + Z.of_nat i)%Z)]).
Proof.
  revert a. induction len as [|len IH]; intros a Hi Hbusy Hfree; [lia|].
  cbn [seq for_each]. unfold bind at 1, check_worker_port at 1.
  destruct (Nat.eq_dec a i) as [-> | Hne].
  - rewrite Hbusy. reflexivity.
  - rewrite (Hfree a) by lia. unfold ret at 1. cbv beta iota.
    rewrite (IH (S a)); [reflexivity | lia | exact Hbusy|].
    intros j Hj. apply Hfree. lia.
Qed.

End PreflightOrder.

(** X6. The preflight passes, silently and without touching
    [RUNNING_PROCESSES], exactly when nginx is installed, the port of the
    load balancer is free and the port [START_PORT + i] of every group is
    free. *)
Theorem preflight_passes_iff (ARGS : args) (w : world) (procs : list handle) :
  check_requirements ARGS w procs = (Return tt, procs, [])
  <-> which_nginx w = true
      /\ is_port_in_use w (NGINX_PORT ARGS) = false
      /\ forall i, i < List.length (GPU_GROUPS ARGS) ->
           is_port_in_use w (START_PORT ARGS + Z.of_nat i)%Z = false.
Proof.
  rewrite <- preflight_ok_spec. split.
  - intros Hpass. destruct (preflight_ok ARGS w) eqn:E; [reflexivity|].
    destruct (check_requirements_aborts ARGS w procs E) as [why Hwhy].
    rewrite Hwhy in Hpass. discriminate Hpass.
  - apply check_requirements_passes.
Qed.

(** X7. The preflight reports one problem, the first it meets: a missing
    nginx whatever the ports are; else the port of the load balancer; else
    the lowest-numbered worker port in use.  In each case it reports that
    problem alone and exits with code 1. *)
Theorem preflight_reports_first_problem (ARGS : args) (w : world)
    (procs : list handle) :
  (which_nginx w = false ->
   check_requirements ARGS w procs
   = (Raise (SystemExit 1), procs, [Fatal NginxNotFound]))
  /\ (which_nginx w = true ->
      is_port_in_use w (NGINX_PORT ARGS) = true ->
      check_requirements ARGS w procs
      = (Raise (SystemExit 1), procs,
         [Fatal (LoadBalancerPortInUse (NGINX_PORT ARGS))]))
  /\ (forall i,
        which_nginx w = true ->
        is_port_in_use w (NGINX_PORT ARGS) = false ->
        i < List.length (GPU_GROUPS ARGS) ->
        is_port_in_use w (START_PORT ARGS + Z.of_nat i)%Z = true ->
        (forall j, j < i ->
           is_port_in_use w (START_PORT ARGS + Z.of_nat j)%Z = false) ->
        check_requirements ARGS w procs
        = (Raise (SystemExit 1), procs,
           [Fatal (WorkerPortInUse (START_PORT ARGS + Z.of_nat i)%Z)])).
Proof.
  split; [|split].
  - intros Hn. unfold check_requirements. now rewrite Hn.
  - intros Hn Hp. unfold check_requirements. now rewrite Hn, Hp.
  - intros i Hn Hp Hi Hbusy Hfree. unfold check_requirements.
    rewrite Hn, Hp. unfold bind, ret.
    rewrite (check_worker_ports_first ARGS w _ 0 i procs);
      [reflexivity | lia | exact Hbusy|].
    intros j Hj. apply Hfree. lia.
Qed.

Lemma preflight_reports_first_problem_witness :
  check_requirements default_args world_port_busy []
  = (Raise (SystemExit 1), [], [Fatal (LoadBalancerPortInUse 8080)]).
Proof.
  apply (proj1 (proj2 (preflight_reports_first_problem
                         default_args world_port_busy []))); reflexivity.
Defined.

(** ** More on the placements *)

Section Distinct.

Lemma string_app_length (a b : string) :
  String.length (a ++ b) = String.length a + String.length b.
Proof.
  induction a as [|c a IH]; simpl; [reflexivity|]. now rewrite IH.
Qed.

Lemma string_app_inv_head (a s s' : string) :
  (a ++ s = a ++ s')%string -> s = s'.
Proof.
  induction a as [|c a IH]; simpl; [trivial|].
  intros [= H]. now apply IH.
Qed.

Lemma string_app_inv_tail (s s' t : string) :
  (s ++ t = s' ++ t)%string -> s = s'.
Proof.
  revert s'. induction s as [|c s IH]; intros [|c' s'] H.
  - reflexivity.
  - apply (f_equal String.length) in H.
    rewrite !string_app_length in H. cbn in H. lia.
  - apply (f_equal String.length) in H.
    rewrite !string_app_length in H. cbn in H. lia.
  - cbn in H. injection H as -> H. f_equal. now apply IH.
Qed.

(** [str] tells integers apart. *)
Lemma str_injective (p q : Z) : PyStr.str p = PyStr.str q -> p = q.
Proof.
  intros H. apply (f_equal NginxConf.read_int) in H.
  rewrite !read_int_str in H. now injection H.
Qed.

Lemma worker_log_injective (p q : Z) : worker_log p = worker_log q -> p = q.
Proof.
  unfold worker_log, path_join. intros H.
  do 3 apply string_app_inv_head in H.
  apply string_app_inv_tail in H. now apply str_injective.
Qed.

Lemma NoDup_map_injective {A B : Type} (f : A -> B) (l : list A) :
  (forall x y, f x = f y -> x = y) -> NoDup l -> NoDup (map f l).
Proof.
  intros Hinj. induction 1 as [|x l Hx _ IH]; simpl; constructor; [|exact IH].
  rewrite in_map_iff. intros [y [Hy Hin]]. apply Hinj in Hy. now subst.
Qed.

End Distinct.

(** X8. No two workers of a plan share a port, a log file or a command
    line: the planned ports are pairwise distinct, and so are the log file
    names and the commands built from them. *)
Theorem workers_share_nothing (ARGS : args) :
  NoDup (planned_ports ARGS)
  /\ NoDup (map worker_log (planned_ports ARGS))
  /\ NoDup (map (worker_cmd ARGS) (planned_ports ARGS)).
Proof.
  assert (Hports : NoDup (planned_ports ARGS)).
  { unfold planned_ports, plan. rewrite plan_from_ports.
    apply NoDup_map_injective; [|apply seq_NoDup].
    intros x y H. cbv beta in H. lia. }
  split; [exact Hports|]. split.
  - apply NoDup_map_injective; [apply worker_log_injective | exact Hports].
  - apply NoDup_map_injective; [|exact Hports].
    intros p q H. unfold worker_cmd in H.
    apply (f_equal (fun cmd => nth 6 cmd EmptyString)) in H.
    cbn [app nth] in H. now apply str_injective.
Qed.

(** ** When a process does not start *)

Section StartFailure.

Variable ARGS : args.
Variable w : world.

Lemma launched_until (groups : list string) (a k : nat) :
  a <= k < a + List.length groups ->
  (forall j, a <= j < k -> popen_raises w (Worker j) = false) ->
  popen_raises w (Worker k) = true ->
  launched w a groups = k - a.
Proof.
  revert a. induction groups as [|g more IH]; intros a Hk Hok Hfail.
  - cbn in Hk. lia.
  - cbn [launched]. destruct (Nat.eq_dec a k) as [-> | Hne].
    + rewrite Hfail. lia.
    + rewrite (Hok a) by lia. cbn [List.length] in Hk.
      rewrite (IH (S a)); [lia | lia | | exact Hfail].
      intros j Hj. apply Hok. lia.
Qed.

Lemma launched_every (groups : list string) (a : nat) :
  (forall j, a <= j < a + List.length groups ->
     popen_raises w (Worker j) = false) ->
  launched w a groups = List.length groups.
Proof.
  revert a. induction groups as [|g more IH]; intros a Hok; [reflexivity|].
  cbn [launched List.length] in *. rewrite (Hok a) by lia.
  rewrite (IH (S a)); [reflexivity|]. intros j Hj. apply Hok. lia.
Qed.

End StartFailure.

(** X9. When the preflight passes and the [Popen] of worker [k] is the
    first to raise, the run ends with that [OSError]: the workers before
    [k] have been started and registered, in order; no later worker is
    started, no configuration is written and nginx is never started; and
    the cleanup handler then signals those of the workers before [k] that
    are still running. *)
Theorem worker_start_failure_is_cleaned_up (ARGS : args) (w : world) (k : nat)
    (Hpre : preflight_ok ARGS w = true)
    (Hk : k < List.length (GPU_GROUPS ARGS))
    (Hbefore : forall j, j < k -> popen_raises w (Worker j) = false)
    (Hfail : popen_raises w (Worker k) = true) :
  run ARGS w
  = (Raise OSError,
     map Worker (seq 0 k),
     (CleanLogs
      :: flat_map (launch ARGS)
           (firstn k (plan (GPU_GROUPS ARGS) (START_PORT ARGS))))
     ++ CleanupBegin
        :: map Sigterm (filter (signalled w) (map Worker (seq 0 k)))
        ++ [CleanupEnd]).
Proof.
  assert (Hl : launched w 0 (GPU_GROUPS ARGS) = k).
  { rewrite (launched_until w (GPU_GROUPS ARGS) 0 k); [lia | lia | | exact Hfail].
    intros j Hj. apply Hbefore. lia. }
  rewrite run_unfold. cbv zeta.
  rewrite (main_worker_fails ARGS w Hpre) by lia.
  rewrite Hl. reflexivity.
Qed.

Lemma worker_start_failure_is_cleaned_up_witness :
  result (run three_groups
              (mk_world true (fun _ => false)
                 (fun proc => match proc with Worker 2 => true | _ => false end)
                 [] (fun _ => None) (fun _ => false)))
  = Raise OSError.
Proof.
  rewrite (worker_start_failure_is_cleaned_up three_groups _ 2).
  - reflexivity.
  - reflexivity.
  - vm_compute. lia.
  - intros [|[|j]] Hj; [reflexivity | reflexivity | lia].
  - reflexivity.
Defined.

(** X10. When the preflight passes and every worker starts but the [Popen]
    of nginx raises, the run ends with that [OSError] after the
    configuration has been written: every worker is registered, nginx is
    not, and the cleanup handler signals the workers that are still
    running. *)
Theorem nginx_start_failure_is_cleaned_up (ARGS : args) (w : world)
    (Hpre : preflight_ok ARGS w = true)
    (Hworkers : forall j, j < List.length (GPU_GROUPS ARGS) ->
                  popen_raises w (Worker j) = false)
    (Hfail : popen_raises w Nginx = true) :
  run ARGS w
  = (Raise OSError,
     map Worker (seq 0 (List.length (GPU_GROUPS ARGS))),
     (CleanLogs
      :: flat_map (launch ARGS) (plan (GPU_GROUPS ARGS) (START_PORT ARGS))
      ++ [WriteConfig NGINX_CONF
            (nginx_config (NGINX_PORT ARGS) (planned_ports ARGS))])
     ++ CleanupBegin
        :: map Sigterm
             (filter (signalled w)
                     (map Worker (seq 0 (List.length (GPU_GROUPS ARGS)))))
        ++ [CleanupEnd]).
Proof.
  assert (Hl : launched w 0 (GPU_GROUPS ARGS) = List.length (GPU_GROUPS ARGS)).
  { apply launched_every. intros j Hj. apply Hworkers. lia. }
  rewrite run_unfold. cbv zeta.
  rewrite (main_nginx_fails ARGS w Hpre Hl Hfail). reflexivity.
Qed.

Lemma nginx_start_failure_is_cleaned_up_witness :
  sigterms
    (trace (run three_groups
                (mk_world true (fun _ => false)
                   (fun proc => match proc with Nginx => true | _ => false end)
                   [] (fun _ => None) (fun _ => false))))
  = [Worker 0; Worker 1; Worker 2].
Proof.
  rewrite (nginx_start_failure_is_cleaned_up three_groups _).
  - vm_compute. reflexivity.
  - reflexivity.
  - intros j _. reflexivity.
  - reflexivity.
Defined.

(** ** How the loop ends *)

Section LoopEnd.

(** The loop goes through the turns that do not end it, and then is where
    it would be had it started after them. *)
Lemma monitor_quiet_prefix (worker_ports : list Z) (before rest : list tick)
    (last_stats_time : Q) :
  Forall (fun t => ends_loop t = false) before ->
  let procs := full_registry (List.length worker_ports) in
  let r := monitor worker_ports (stats_time_after last_stats_time before)
                   rest procs in
  monitor worker_ports last_stats_time (before ++ rest) procs
  = (result r, registry r,
     quiet_trace worker_ports last_stats_time before ++ trace r).
Proof.
  intros H. revert last_stats_time.
  induction H as [|t later Ht _ IH]; intros last_stats_time; cbv zeta.
  - cbn [app stats_time_after quiet_trace].
    now destruct (monitor _ _ _ _) as [[r reg] evs].
  - cbn [app stats_time_after quiet_trace]. rewrite monitor_turn.
    unfold ends_loop, is_dead in Ht. apply orb_false_iff in Ht as [Ei En].
    rewrite Ei. destruct (poll t Nginx); [discriminate|].
    cbv zeta. rewrite IH. cbn [result registry trace fst snd].
    now rewrite <- !app_assoc.
Qed.

Variable ARGS : args.
Variable w : world.

Hypothesis Hpre : preflight_ok ARGS w = true.
Hypothesis Hpopen : popen_ok ARGS w = true.

(** The run when the loop ends in the turn [t] after the turns [before]. *)
Lemma run_ends_in_turn (before later : list tick) (t : tick) :
  ticks w = before ++ t :: later ->
  Forall (fun t => ends_loop t = false) before ->
  ends_loop t = true ->
  run ARGS w
  = (Return Finished,
     full_registry (List.length (GPU_GROUPS ARGS)),
     (setup_trace ARGS
      ++ quiet_trace (planned_ports ARGS) 0%Q before
      ++ (if interrupted t then [Stopping]
          else stats_report (stats_time_after 0%Q before) t
                            (planned_ports ARGS)
               ++ match poll t Nginx with
                  | Some returncode => [NginxCrashed returncode]
                  | None => []
                  end))
     ++ cleanup_trace w (full_registry (List.length (GPU_GROUPS ARGS)))).
Proof.
  intros Hticks Hquiet Hend.
  rewrite (run_after_setup ARGS w Hpre Hpopen), Hticks.
  rewrite (monitor_quiet_prefix (planned_ports ARGS) before (t :: later) 0%Q
             Hquiet).
  cbv zeta. rewrite monitor_turn.
  unfold ends_loop, is_dead in Hend. unfold cleanup_trace.
  destruct (interrupted t).
  - cbn [result registry trace fst snd]. rewrite app_nil_r. reflexivity.
  - destruct (poll t Nginx) as [returncode|]; [|discriminate].
    cbn [result registry trace fst snd]. reflexivity.
Qed.

End LoopEnd.

(** X11. When the setup has succeeded and nginx is found dead in a turn
    that is not interrupted, after turns that did not end the loop, the
    loop ends in that turn: its exit code is reported, after the table if
    one is due, the workers are not scanned in that turn, no later turn is
    looked at, [main] returns, and the cleanup handler runs on the full
    registry. *)
Theorem nginx_crash_ends_the_run (ARGS : args) (w : world)
    (before later : list tick) (t : tick) (returncode : Z)
    (Hpre : preflight_ok ARGS w = true)
    (Hpopen : popen_ok ARGS w = true)
    (Hticks : ticks w = before ++ t :: later)
    (Hquiet : Forall (fun t => interrupted t = false /\ poll t Nginx = None)
                     before)
    (Hint : interrupted t = false)
    (Hdead : poll t Nginx = Some returncode) :
  run ARGS w
  = (Return Finished,
     full_registry (List.length (GPU_GROUPS ARGS)),
     (setup_trace ARGS
      ++ quiet_trace (planned_ports ARGS) 0%Q before
      ++ stats_report (stats_time_after 0%Q before) t (planned_ports ARGS)
      ++ [NginxCrashed returncode])
     ++ cleanup_trace w (full_registry (List.length (GPU_GROUPS ARGS)))).
Proof.
  rewrite (run_ends_in_turn ARGS w Hpre Hpopen before later t Hticks).
  - now rewrite Hint, Hdead.
  - eapply Forall_impl; [|exact Hquiet].
    intros u [Hi Hp]. unfold ends_loop, is_dead. now rewrite Hi, Hp.
  - unfold ends_loop, is_dead. now rewrite Hdead, orb_true_r.
Qed.

(** X12. When the setup has succeeded and Ctrl+C arrives in a turn, after
    turns that did not end the loop, nothing else is done in that turn (no
    table, no look at nginx or at the workers): [main] says that it stops
    and returns normally, and the cleanup handler runs on the full
    registry. *)
Theorem interrupt_ends_the_run (ARGS : args) (w : world)
    (before later : list tick) (t : tick)
    (Hpre : preflight_ok ARGS w = true)
    (Hpopen : popen_ok ARGS w = true)
    (Hticks : ticks w = before ++ t :: later)
    (Hquiet : Forall (fun t => interrupted t = false /\ poll t Nginx = None)
                     before)
    (Hint : interrupted t = true) :
  run ARGS w
  = (Return Finished,
     full_registry (List.length (GPU_GROUPS ARGS)),
     (setup_trace ARGS
      ++ quiet_trace (planned_ports ARGS) 0%Q before
      ++ [Stopping])
     ++ cleanup_trace w (full_registry (List.length (GPU_GROUPS ARGS)))).
Proof.
  rewrite (run_ends_in_turn ARGS w Hpre Hpopen before later t Hticks).
  - now rewrite Hint.
  - eapply Forall_impl; [|exact Hquiet].
    intros u [Hi Hp]. unfold ends_loop, is_dead. now rewrite Hi, Hp.
  - unfold ends_loop. now rewrite Hint.
Qed.

Lemma nginx_crash_ends_the_run_witness :
  result (run three_groups world_nginx_crash) = Return Finished
  /\ crashes (trace (run three_groups world_nginx_crash)) = []
  /\ sigterms (trace (run three_groups world_nginx_crash))
     = [Worker 0; Worker 1; Worker 2].
Proof.
  rewrite (nginx_crash_ends_the_run three_groups world_nginx_crash
             [quiet_tick 1700000001] [quiet_tick 1700000003]
             (nginx_dead_tick 1700000002) 1%Z).
  - vm_compute. repeat split.
  - reflexivity.
  - reflexivity.
  - reflexivity.
  - repeat constructor.
  - reflexivity.
  - reflexivity.
Defined.

Lemma interrupt_ends_the_run_witness :
  result (run three_groups world_interrupted) = Return Finished
  /\ refresh_times (trace (run three_groups world_interrupted))
     = [1700000001%Q].
Proof.
  rewrite (interrupt_ends_the_run three_groups world_interrupted
             [quiet_tick 1700000001] [] (interrupt_tick 1700000002)).
  - vm_compute. repeat split.
  - reflexivity.
  - reflexivity.
  - reflexivity.
  - repeat constructor.
  - reflexivity.
Defined.

(** ** The worker scan *)

Section WorkerScan.

Lemma find_first_dead (t : tick) (len a i : nat) :
  a <= i < a + len ->
  is_dead t (Worker i) = true ->
  (forall j, a <= j < i -> is_dead t (Worker j) = false) ->
  find (fun k => is_dead t (Worker k)) (seq a len) = Some i.
Proof.
  revert a. induction len as [|len IH]; intros a Hi Hdead Halive; [lia|].
  cbn [seq find]. destruct (Nat.eq_dec a i) as [-> | Hne].
  - now rewrite Hdead.
  - rewrite (Halive a) by lia. apply IH; [lia | exact Hdead|].
    intros j Hj. apply Halive. lia.
Qed.

Lemma find_none_dead (t : tick) (len a : nat) :
  (forall j, a <= j < a + len -> is_dead t (Worker j) = false) ->
  find (fun k => is_dead t (Worker k)) (seq a len) = None.
Proof.
  revert a. induction len as [|len IH]; intros a Halive; [reflexivity|].
  cbn [seq find]. rewrite (Halive a) by lia. apply IH.
  intros j Hj. apply Halive. lia.
Qed.

Lemma planned_port_nth (ARGS : args) (i : nat) :
  i < List.length (GPU_GROUPS ARGS) ->
  nth i (planned_ports ARGS) 0%Z = (START_PORT ARGS + Z.of_nat i)%Z.
Proof.
  intros Hi. unfold planned_ports, plan. rewrite plan_from_ports.
  rewrite (nth_indep _ 0%Z (START_PORT ARGS + Z.of_nat 0)%Z)
    by (now rewrite length_map, length_seq).
  rewrite (map_nth (fun k => (START_PORT ARGS + Z.of_nat k)%Z)).
  now rewrite seq_nth.
Qed.

End WorkerScan.

(** X13. The worker scan of a turn reports the lowest-numbered dead
    worker, with the port and the log file of that worker, and no other:
    a dead worker is not reported as long as one before it is dead.  When
    no worker is dead it reports nothing.  The scan never raises and leaves
    [RUNNING_PROCESSES] as it is. *)
Theorem worker_scan_reports_first_dead (ARGS : args) (t : tick)
    (procs : list handle) :
  (forall i,
     i < List.length (GPU_GROUPS ARGS) ->
     poll t (Worker i) <> None ->
     (forall j, j < i -> poll t (Worker j) = None) ->
     scan_workers t (planned_ports ARGS)
       (enumerate (removelast (full_registry (List.length (GPU_GROUPS ARGS)))))
       procs
     = (Return tt, procs,
        [WorkerCrashed i (START_PORT ARGS + Z.of_nat i)%Z
                       (worker_log (START_PORT ARGS + Z.of_nat i)%Z)]))
  /\ ((forall j, j < List.length (GPU_GROUPS ARGS) ->
         poll t (Worker j) = None) ->
      scan_workers t (planned_ports ARGS)
        (enumerate (removelast (full_registry (List.length (GPU_GROUPS ARGS)))))
        procs
      = (Return tt, procs, [])).
Proof.
  pose proof (planned_ports_length ARGS) as Hlen.
  assert (Hrange : Forall (fun i => i < List.length (planned_ports ARGS))
                          (seq 0 (List.length (GPU_GROUPS ARGS)))).
  { apply Forall_forall. intros i Hi. apply in_seq in Hi. lia. }
  split.
  - intros i Hi Hdead Halive.
    rewrite enumerate_workers, (scan_workers_run _ _ _ _ Hrange).
    rewrite (find_first_dead t _ 0 i).
    + cbv zeta. now rewrite (planned_port_nth ARGS i Hi).
    + lia.
    + unfold is_dead. destruct (poll t (Worker i)); [reflexivity | congruence].
    + intros j Hj. unfold is_dead. rewrite Halive by lia. reflexivity.
  - intros Halive.
    rewrite enumerate_workers, (scan_workers_run _ _ _ _ Hrange).
    rewrite find_none_dead; [reflexivity|].
    intros j Hj. unfold is_dead. rewrite Halive by lia. reflexivity.
Qed.

Lemma worker_scan_reports_first_dead_witness :
  trace (scan_workers
           (mk_tick false 0%Q (fun _ => TransportError)
              (fun proc => match proc with
                           | Worker 0 => None
                           | _ => Some 1%Z
                           end))
           (planned_ports three_groups)
           (enumerate (removelast (full_registry 3))) [])
  = [WorkerCrashed 1 8001 (worker_log 8001)].
Proof.
  rewrite (proj1 (worker_scan_reports_first_dead three_groups _ []) 1).
  - reflexivity.
  - vm_compute. lia.
  - discriminate.
  - intros [|j] Hj; [reflexivity | lia].
Defined.

(** ** How a run can end *)

Section Results.

Variable ARGS : args.
Variable w : world.




End Results.


(** ** Blanks at the end of a metrics line *)

Section TrailingBlank.

Variable c : ascii.
Hypothesis Hc : PyStr.is_space c = true.

Lemma split_ws_from_trailing (line : string) (word : list ascii) :
  PyStr.split_ws_from word (line ++ String c EmptyString)
  = PyStr.split_ws_from word line.
Proof.
  revert word. induction line as [|d rest IH]; intros word;
    cbn [String.append PyStr.split_ws_from].
  - rewrite Hc. reflexivity.
  - destruct (PyStr.is_space d); now rewrite IH.
Qed.

Lemma line_value_trailing (line : string) :
  line_value (line ++ String c EmptyString) = line_value line.
Proof.
  unfold line_value, last_token, PyStr.split_ws.
  now rewrite split_ws_from_trailing.
Qed.

(** A prefix without whitespace is matched or not whatever blank follows
    the line. *)
Lemma startswith_trailing (prefix line : string) :
  all_chars (fun d => negb (PyStr.is_space d)) prefix = true ->
  PyStr.startswith (line ++ String c EmptyString) prefix
  = PyStr.startswith line prefix.
Proof.
  revert line. induction prefix as [|a prefix IH]; intros line Hp;
    [now destruct line|].
  cbn [all_chars] in Hp. apply andb_true_iff in Hp as [Ha Hp].
  destruct line as [|d rest]; cbn [String.append PyStr.startswith].
  - destruct (Ascii.eqb a c) eqn:E; [|reflexivity].
    apply Ascii.eqb_eq in E. subst a. rewrite Hc in Ha. discriminate Ha.
  - now rewrite (IH rest Hp).
Qed.

Lemma scan_line_trailing (vars : Z * Z) (line : string) :
  scan_line vars (line ++ String c EmptyString) = scan_line vars line.
Proof.
  unfold scan_line. destruct vars as [running total].
  rewrite !startswith_trailing, line_value_trailing by reflexivity.
  reflexivity.
Qed.

End TrailingBlank.

(** X15. A whitespace character at the end of the lines of a metrics page,
    such as the carriage return of a page with CR LF line ends, changes
    nothing of what the scan reads: the same two values, or the same
    exception. *)
Theorem scan_ignores_trailing_blank (c : ascii) (lines : list string)
    (vars : Z * Z)
    (Hc : PyStr.is_space c = true) :
  scan_lines vars (map (fun line => line ++ String c EmptyString)%string lines)
  = scan_lines vars lines.
Proof.
  revert vars. induction lines as [|line more IH]; intros vars; [reflexivity|].
  cbn [map scan_lines]. rewrite (scan_line_trailing c Hc).
  destruct (scan_line vars line); cbn [obind]; [apply IH | reflexivity].
Qed.

Lemma scan_ignores_trailing_blank_witness :
  scan_lines (0, 0)%Z
    (map (fun line => line ++ String (ascii_of_nat 13) EmptyString)%string
         ["vllm:num_requests_running{model_name=m} 3.0";
          "vllm:request_success_total{model_name=m} 128.0"])
  = Return (3, 128)%Z.
Proof.
  rewrite (scan_ignores_trailing_blank (ascii_of_nat 13)).
  - vm_compute. reflexivity.
  - reflexivity.
Defined.

(** ** A worker that stays dead *)

(** X16. A dead worker is reported again in every turn: when the setup has
    succeeded, no turn has Ctrl+C or a dead nginx, and in every turn worker
    [i] is dead and the workers before it are alive, the loop is still
    running after the last turn and has reported worker [i] once for each
    turn, and no other worker. *)
Theorem dead_worker_is_reported_every_turn (ARGS : args) (w : world) (i : nat)
    (Hpre : preflight_ok ARGS w = true)
    (Hpopen : popen_ok ARGS w = true)
    (Hi : i < List.length (GPU_GROUPS ARGS))
    (Hturns : Forall (fun t =>
                        interrupted t = false /\ poll t Nginx = None
                        /\ poll t (Worker i) <> None
                        /\ forall j, j < i -> poll t (Worker j) = None)
                     (ticks w)) :
  result (run ARGS w) = Return StillRunning
  /\ crashes (trace (run ARGS w)) = repeat i (List.length (ticks w)).
Proof.
  pose proof (planned_ports_length ARGS) as Hlen.
  rewrite (run_after_setup ARGS w Hpre Hpopen).
  assert (Hquiet : Forall (fun t => ends_loop t = false) (ticks w)).
  { eapply Forall_impl; [|exact Hturns].
    intros t [Hint [Hn _]]. unfold ends_loop, is_dead. now rewrite Hint, Hn. }
  destruct (monitor_keeps_running (planned_ports ARGS) (ticks w) 0%Q Hquiet)
    as [Hres Hcr].
  rewrite Hres. cbn [result trace fst snd]. split; [reflexivity|].
  rewrite crashes_app, Hcr, Hlen.
  rewrite (crashes_none (setup_trace ARGS)).
  2:{ eapply Forall_impl; [|apply setup_trace_kinds]. now intros e [_ He]. }
  cbn [app]. clear Hres Hcr Hquiet.
  induction Hturns as [|t later [_ [_ [Hdead Halive]]] _ IH]; [reflexivity|].
  cbn [flat_map List.length repeat]. rewrite IH.
  unfold reported, first_dead.
  rewrite (find_first_dead t _ 0 i); [reflexivity | lia | |].
  - unfold is_dead. destruct (poll t (Worker i)); [reflexivity | congruence].
  - intros j Hj. unfold is_dead. rewrite Halive by lia. reflexivity.
Qed.

Lemma dead_worker_is_reported_every_turn_witness :
  crashes (trace (run three_groups
                      (mk_world true (fun _ => false) (fun _ => false)
                         [workers_dead_tick 1700000001;
                          workers_dead_tick 1700000002]
                         (fun _ => None) (fun _ => false))))
  = [0; 0].
Proof.
  refine (proj2 (dead_worker_is_reported_every_turn three_groups _ 0 _ _ _ _)).
  - reflexivity.
  - reflexivity.
  - vm_compute. lia.
  - repeat constructor; try discriminate; intros j Hj; lia.
Defined.

(** ** Counts are read exactly *)

Section ExactCounts.

Local Open Scope Z_scope.

Lemma digitpart_rest_stops (acc cnt : Z) (rest : string) :
  ends_digits rest -> PyFloat.digitpart_rest acc cnt rest = (acc, cnt, rest).
Proof.
  intros [-> | [r ->]]; reflexivity.
Qed.

Lemma digitpart_rest_uint (d : Decimal.uint) (acc : positive) (cnt : Z)
    (rest : string) :
  ends_digits rest ->
  exists cnt',
    PyFloat.digitpart_rest (Z.pos acc) cnt
      (NilEmpty.string_of_uint d ++ rest)
    = (Z.pos (Pos.of_uint_acc d acc), cnt', rest).
Proof.
  intros Hrest. revert acc cnt.
  induction d as [|d IH|d IH|d IH|d IH|d IH|d IH|d IH|d IH|d IH|d IH];
    intros acc cnt;
    [exists cnt; now apply digitpart_rest_stops|..];
    cbn [NilEmpty.string_of_uint String.append PyFloat.digitpart_rest];
    match goal with
    | |- context [PyFloat.digit_of ?c] =>
        let v := eval vm_compute in (PyFloat.digit_of c) in
        change (PyFloat.digit_of c) with v
    end;
    cbv iota; cbn [Pos.of_uint_acc];
    match goal with
    | |- context [PyFloat.digitpart_rest ?a ?c _] =>
        match goal with
        | |- context [Pos.of_uint_acc d ?p] =>
            replace a with (Z.pos p) by lia; apply IH
        end
    end.
Qed.


Lemma digitpart_rest_uint0 (d : Decimal.uint) (cnt : Z) (rest : string) :
  ends_digits rest ->
  exists cnt',
    PyFloat.digitpart_rest 0 cnt (NilEmpty.string_of_uint d ++ rest)
    = (Z.of_N (Pos.of_uint d), cnt', rest).
Proof.
  intros Hrest. revert cnt.
  induction d as [|d IH|d IH|d IH|d IH|d IH|d IH|d IH|d IH|d IH|d IH];
    intros cnt;
    [exists cnt; now apply digitpart_rest_stops|..];
    cbn [NilEmpty.string_of_uint String.append PyFloat.digitpart_rest];
    match goal with
    | |- context [PyFloat.digit_of ?c] =>
        let v := eval vm_compute in (PyFloat.digit_of c) in
        change (PyFloat.digit_of c) with v
    end;
    cbv iota; cbn [Pos.of_uint Z.of_N Z.mul Z.add];
    [apply IH | now apply digitpart_rest_uint ..].
Qed.

(** The digits of a decimal numeral, read from the start of a number. *)
Lemma digitpart_uint (d : Decimal.uint) (rest : string) :
  d <> Decimal.Nil ->
  ends_digits rest ->
  exists cnt,
    PyFloat.digitpart 0 (NilEmpty.string_of_uint d ++ rest)
    = Some (Z.of_N (Pos.of_uint d), cnt, rest).
Proof.
  intros Hd Hrest.
  destruct (digitpart_rest_uint0 d 0 rest Hrest) as [cnt E].
  exists cnt. rewrite <- E.
  destruct d; [congruence|..]; reflexivity.
Qed.

(** [str n] for a natural number [n]: a numeral that starts with a digit. *)
Lemma str_numeral (n : Z) :
  0 <= n ->
  exists d, PyStr.str n = NilEmpty.string_of_uint d
            /\ d <> Decimal.Nil /\ Z.of_N (Pos.of_uint d) = n.
Proof.
  intros Hn. destruct n as [|p|p]; [| |lia].
  - exists (Decimal.D0 Decimal.Nil). now repeat split.
  - exists (Pos.to_uint p). split; [reflexivity|]. split.
    + apply DecimalPos.Unsigned.to_uint_nonnil.
    + now rewrite DecimalPos.Unsigned.of_to.
Qed.

(** A numeral has no sign and is none of the words [float] knows. *)
Lemma numeral_is_number (d : Decimal.uint) (rest : string) :
  d <> Decimal.Nil ->
  PyFloat.of_str (NilEmpty.string_of_uint d ++ rest)
  = match PyFloat.floatnumber (NilEmpty.string_of_uint d ++ rest) with
    | Some (digits, exp10) => Return (PyFloat.of_decimal false digits exp10)
    | None => Raise ValueError
    end.
Proof.
  intros Hd. destruct d; [congruence|..]; reflexivity.
Qed.

Lemma floor_log2_ratio_multiple (n q : Z) :
  0 < n -> 0 < q -> PyFloat.floor_log2_ratio (n * q) q = Z.log2 n.
Proof.
  intros Hn Hq. unfold PyFloat.floor_log2_ratio. cbv zeta.
  pose proof (Z.log2_mul_below n q Hn Hq) as Hlo.
  pose proof (Z.log2_mul_above n q ltac:(lia) ltac:(lia)) as Hhi.
  pose proof (Z.log2_nonneg n) as H0.
  destruct (Z.log2_spec n Hn) as [Hle Hlt].
  set (e := Z.log2 (n * q) - Z.log2 q) in *.
  assert (He : e = Z.log2 n \/ e = Z.log2 n + 1) by lia.
  replace (0 <=? e) with true by (symmetry; apply Z.leb_le; lia).
  destruct He as [-> | ->].
  - replace (q * 2 ^ Z.log2 n <=? n * q) with true; [reflexivity|].
    symmetry. apply Z.leb_le. nia.
  - replace (q * 2 ^ (Z.log2 n + 1) <=? n * q) with false; [lia|].
    symmetry. apply Z.leb_gt. unfold Z.succ in Hlt. nia.
Qed.

Lemma round_half_even_multiple (k d : Z) :
  0 < d -> PyFloat.round_half_even (k * d) d = k.
Proof.
  intros Hd. unfold PyFloat.round_half_even. cbv zeta.
  rewrite Z.mod_mul, Z.div_mul by lia.
  replace (2 * 0 <? d) with true; [reflexivity|].
  symmetry. apply Z.ltb_lt. lia.
Qed.

(** An integer below [2 ^ 53] is a binary64 value: the nearest float to
    [n * q / q] is [n] itself, and [int] gives it back. *)
Lemma nearest_binary64_integer (n q : Z) :
  0 < n < 2 ^ 53 -> 0 < q ->
  PyFloat.to_int (PyFloat.nearest_binary64 false (n * q) q) = Return n.
Proof.
  intros [Hn Hlt] Hq. unfold PyFloat.nearest_binary64. cbv zeta.
  rewrite floor_log2_ratio_multiple by assumption.
  pose proof (Z.log2_nonneg n) as H0.
  assert (Hlog : Z.log2 n < 53) by (apply Z.log2_lt_pow2; lia).
  rewrite Z.max_l by lia.
  set (s := Z.log2 n - 52).
  assert (Hs : s <= 0) by (unfold s; lia).
  destruct (0 <=? s) eqn:E.
  - apply Z.leb_le in E. assert (s = 0) as -> by lia.
    cbv iota. rewrite Z.pow_0_r, !Z.mul_1_r, round_half_even_multiple by lia.
    replace (2 ^ 1024 <=? n) with false.
    + cbn [andb PyFloat.to_int]. change (0 <=? 0) with true. cbv iota.
      rewrite Z.pow_0_r. f_equal. lia.
    + symmetry. apply Z.leb_gt.
      assert (2 ^ 53 < 2 ^ 1024) by (apply Z.pow_lt_mono_r; lia). lia.
  - apply Z.leb_gt in E. cbn [andb]. cbv iota.
    replace (n * q * 2 ^ (- s)) with (n * 2 ^ (- s) * q) by ring.
    rewrite round_half_even_multiple by lia.
    cbn [PyFloat.to_int].
    replace (0 <=? s) with false by (symmetry; apply Z.leb_gt; lia).
    f_equal. apply Z.div_mul. apply Z.pow_nonzero; lia.
Qed.

Lemma of_decimal_integer (n : Z) :
  0 <= n < 2 ^ 53 ->
  PyFloat.to_int (PyFloat.of_decimal false n 0) = Return n
  /\ PyFloat.to_int (PyFloat.of_decimal false (n * 10 + 0) (0 - 1))
     = Return n.
Proof.
  intros Hn. unfold PyFloat.of_decimal.
  destruct (Z.eq_dec n 0) as [-> | Hne]; [split; reflexivity|].
  replace (n =? 0) with false by (symmetry; apply Z.eqb_neq; lia).
  replace (n * 10 + 0 =? 0) with false by (symmetry; apply Z.eqb_neq; lia).
  split.
  - change (0 <=? 0) with true. cbv iota.
    change (10 ^ 0) with 1. apply nearest_binary64_integer; lia.
  - change (0 <=? 0 - 1) with false. cbv iota.
    change (10 ^ (- (0 - 1))) with 10. rewrite Z.add_0_r.
    apply nearest_binary64_integer; lia.
Qed.

(** [int(float(...))] of a natural number below [2 ^ 53], written as an
    integer or with one zero after the point. *)
Lemma int_float_count (n : Z) :
  0 <= n < 2 ^ 53 ->
  int_float (PyStr.str n) = Return n
  /\ int_float (PyStr.str n ++ ".0") = Return n.
Proof.
  intros Hn. destruct (str_numeral n (proj1 Hn)) as [d [-> [Hd Hval]]].
  destruct (of_decimal_integer n Hn) as [Hint Hpoint].
  unfold int_float. split.
  - rewrite <- (string_app_nil_r (NilEmpty.string_of_uint d)).
    rewrite (numeral_is_number d _ Hd). unfold PyFloat.floatnumber, PyFloat.number.
    destruct (digitpart_uint d "" Hd (or_introl eq_refl)) as [cnt ->].
    rewrite Hval. cbn [PyFloat.exponent obind]. exact Hint.
  - rewrite (numeral_is_number d _ Hd). unfold PyFloat.floatnumber, PyFloat.number.
    destruct (digitpart_uint d ".0" Hd (or_intror (ex_intro _ "0" eq_refl)))
      as [cnt ->].
    rewrite Hval. cbn [PyFloat.digitpart].
    change (PyFloat.digit_of "0") with (Some 0). cbv iota.
    cbn [PyFloat.digitpart_rest PyFloat.exponent obind]. exact Hpoint.
Qed.


Lemma startswith_prefix (p rest : string) :
  PyStr.startswith (p ++ rest) p = true.
Proof.
  induction p as [|a p IH]; [now destruct rest|].
  cbn [String.append PyStr.startswith]. now rewrite Ascii.eqb_refl, IH.
Qed.

Lemma last_token_after_blank (before token : string) :
  token <> EmptyString ->
  all_chars (fun c => negb (PyStr.is_space c)) token = true ->
  last_token (before ++ String " " token) = Return token.
Proof.
  intros Hne Hword. unfold last_token, PyStr.split_ws.
  rewrite split_ws_from_app by reflexivity.
  rewrite (split_ws_from_word token [] Hword) by exact Hne.
  rewrite rev_app_distr. reflexivity.
Qed.

Lemma count_is_a_word (n : Z) (tail : string) :
  0 <= n ->
  all_chars (fun c => negb (PyStr.is_space c)) tail = true ->
  (PyStr.str n ++ tail)%string <> EmptyString
  /\ all_chars (fun c => negb (PyStr.is_space c)) (PyStr.str n ++ tail)
     = true.
Proof.
  intros Hn Htail. split.
  - destruct (str_numeral n Hn) as [d [-> [Hd _]]].
    destruct d; [congruence|..]; discriminate.
  - rewrite all_chars_app, Htail, andb_true_r.
    apply (all_chars_impl is_decimal_char); [apply decimal_not_space|].
    apply str_decimal.
Qed.

End ExactCounts.

(** X17. A count below [2 ^ 53] is read exactly, whether the page writes it
    as an integer or with [.0] after it: [int(float(...))] gives the count
    back, and a line of either metric that ends in it, after anything and a
    blank, sets that metric to the count and leaves the other one as it
    was. *)
Theorem counts_are_read_exactly (n : Z) (labels value : string)
    (vars : Z * Z)
    (Hn : (0 <= n < 2 ^ 53)%Z)
    (Hvalue : value = PyStr.str n \/ value = (PyStr.str n ++ ".0")%string) :
  int_float value = Return n
  /\ scan_line vars (running_prefix ++ labels ++ " " ++ value)%string
     = Return (n, snd vars)
  /\ scan_line vars (success_prefix ++ labels ++ " " ++ value)%string
     = Return (fst vars, n).
Proof.
  destruct (int_float_count n Hn) as [Hint Hpoint].
  assert (Hread : int_float value = Return n)
    by (destruct Hvalue as [-> | ->]; assumption).
  assert (Hword : value <> EmptyString
                  /\ all_chars (fun c => negb (PyStr.is_space c)) value
                     = true).
  { destruct Hvalue as [-> | ->].
    - rewrite <- (string_app_nil_r (PyStr.str n)).
      now apply count_is_a_word.
    - now apply count_is_a_word. }
  destruct Hword as [Hne Hword]. destruct vars as [running total].
  split; [exact Hread|].
  split; unfold scan_line, line_value.
  - rewrite startswith_prefix.
    rewrite <- string_app_assoc.
    rewrite (last_token_after_blank _ value Hne Hword).
    cbn [obind]. now rewrite Hread.
  - replace (PyStr.startswith _ running_prefix) with false by reflexivity.
    rewrite startswith_prefix.
    rewrite <- string_app_assoc.
    rewrite (last_token_after_blank _ value Hne Hword).
    cbn [obind]. now rewrite Hread.
Qed.

Lemma counts_are_read_exactly_witness :
  int_float "128.0" = Return 128%Z
  /\ scan_line (3, 0)%Z
       "vllm:request_success_total{finished_reason=stop,model_name=m} 128.0"
     = Return (3, 128)%Z.
Proof.
  destruct (counts_are_read_exactly 128 "finished_reason=stop,model_name=m}"
              "128.0" (3, 0)%Z) as [Hint [_ Hscan]].
  - vm_compute. split; [discriminate | reflexivity].
  - right. reflexivity.
  - split; [exact Hint | exact Hscan].
Defined.

(** ** The ports of the load balancer and of the workers *)

Section PortClash.

Lemma config_upstream_ports (nginx_port : Z) (port_list : list Z) :
  NginxConf.upstream_ports (nginx_config nginx_port port_list) = port_list.
Proof.
  unfold NginxConf.upstream_ports, NginxConf.block.
  rewrite config_directives, after_app.
  cbn [existsb head_directives NginxConf.words_eqb String.eqb Ascii.eqb
       Bool.eqb andb orb NginxConf.after app].
  change (["least_conn;"] :: map server_directive port_list
          ++ tail_directives nginx_port)
    with ((["least_conn;"] :: map server_directive port_list)
          ++ tail_directives nginx_port).
  rewrite body_plain by (cbn [forallb]; now rewrite servers_plain).
  cbn [flat_map NginxConf.server_port app]. rewrite flat_map_app.
  rewrite servers_ports. cbn. now rewrite app_nil_r.
Qed.

Lemma config_listen_ports (nginx_port : Z) (port_list : list Z) :
  NginxConf.listen_ports (nginx_config nginx_port port_list) = [nginx_port].
Proof.
  unfold NginxConf.listen_ports, NginxConf.block.
  rewrite config_directives, after_app.
  cbn [existsb head_directives NginxConf.words_eqb String.eqb Ascii.eqb
       Bool.eqb andb orb].
  rewrite after_app, servers_not_opening.
  unfold tail_directives, server_block.
  cbn [app NginxConf.after NginxConf.words_eqb String.eqb Ascii.eqb
       Bool.eqb andb NginxConf.body last].
  rewrite not_open_brace.
  cbn [flat_map NginxConf.listen_port_of String.eqb Ascii.eqb Bool.eqb app].
  now rewrite chop_semicolon_app, read_int_str.
Qed.

Lemma run_starts_with_setup (ARGS : args) (w : world) :
  preflight_ok ARGS w = true ->
  popen_ok ARGS w = true ->
  exists rest, trace (run ARGS w) = setup_trace ARGS ++ rest.
Proof.
  intros Hpre Hpopen. rewrite (run_after_setup ARGS w Hpre Hpopen).
  destruct (result _) as [[|]|e]; cbn [trace fst snd];
    rewrite <- ?app_assoc; eexists; reflexivity.
Qed.

Lemma setup_starts_worker (ARGS : args) (i : nat) (group : string) :
  nth_error (GPU_GROUPS ARGS) i = Some group ->
  In (Popen (Worker i) (worker_cmd ARGS (START_PORT ARGS + Z.of_nat i)%Z)
            (Some group) (worker_log (START_PORT ARGS + Z.of_nat i)%Z))
     (setup_trace ARGS).
Proof.
  intros Hgroup. unfold setup_trace. cbv zeta. right.
  apply in_or_app. left. apply in_flat_map.
  exists (mk_placement i group (START_PORT ARGS + Z.of_nat i)%Z). split.
  - eapply nth_error_In. apply plan_nth. exact Hgroup.
  - left. reflexivity.
Qed.

End PortClash.

(** X18. The preflight never compares the port of the load balancer with
    the ports of the workers.  When [NGINX_PORT] is the port
    [START_PORT + i] of group [i] and the preflight finds nginx and every
    port free, the run goes on: worker [i] is started with that port, and
    the configuration written for nginx makes it listen on the port it
    also lists as a backend. *)
Theorem port_clash_is_not_detected (ARGS : args) (w : world) (i : nat)
    (Hpre : preflight_ok ARGS w = true)
    (Hpopen : popen_ok ARGS w = true)
    (Hi : i < List.length (GPU_GROUPS ARGS))
    (Hclash : NGINX_PORT ARGS = (START_PORT ARGS + Z.of_nat i)%Z) :
  check_requirements ARGS w [] = (Return tt, [], [])
  /\ (exists rest, trace (run ARGS w) = setup_trace ARGS ++ rest)
  /\ (exists group,
        nth_error (GPU_GROUPS ARGS) i = Some group
        /\ In (Popen (Worker i) (worker_cmd ARGS (NGINX_PORT ARGS))
                     (Some group) (worker_log (NGINX_PORT ARGS)))
              (setup_trace ARGS))
  /\ In (WriteConfig NGINX_CONF
           (nginx_config (NGINX_PORT ARGS) (planned_ports ARGS)))
        (setup_trace ARGS)
  /\ NginxConf.listen_ports
       (nginx_config (NGINX_PORT ARGS) (planned_ports ARGS))
     = [NGINX_PORT ARGS]
  /\ In (NGINX_PORT ARGS)
        (NginxConf.upstream_ports
           (nginx_config (NGINX_PORT ARGS) (planned_ports ARGS))).
Proof.
  split; [now apply check_requirements_passes|].
  split; [now apply run_starts_with_setup|].
  split.
  { destruct (nth_error (GPU_GROUPS ARGS) i) as [group|] eqn:E.
    - exists group. split; [reflexivity|]. rewrite Hclash.
      now apply setup_starts_worker.
    - apply nth_error_None in E. lia. }
  split.
  { unfold setup_trace, planned_ports. cbv zeta. right.
    apply in_or_app. right. left. reflexivity. }
  split; [apply config_listen_ports|].
  rewrite config_upstream_ports, Hclash, <- (planned_port_nth ARGS i Hi).
  apply nth_In. rewrite planned_ports_length. exact Hi.
Qed.

Lemma port_clash_is_not_detected_witness :
  NginxConf.listen_ports
    (nginx_config (NGINX_PORT clashing_ports) (planned_ports clashing_ports))
  = [8001%Z]
  /\ In 8001%Z
        (NginxConf.upstream_ports
           (nginx_config (NGINX_PORT clashing_ports)
                         (planned_ports clashing_ports))).
Proof.
  refine (proj2 (proj2 (proj2 (proj2
            (port_clash_is_not_detected clashing_ports
               (mk_world true (fun _ => false) (fun _ => false)
                         [interrupt_tick 1700000001]
                         (fun _ => None) (fun _ => false))
               1 _ _ _ _))))).
  - reflexivity.
  - reflexivity.
  - vm_compute. lia.
  - reflexivity.
Defined.

(** ** The pace of the stats table *)

Section Pace.

Variable worker_ports : list Z.

Lemma quiet_trace_refresh (last_stats_time : Q) (t : tick)
    (later : list tick) :
  refresh_times (quiet_trace worker_ports last_stats_time (t :: later))
  = if is_due last_stats_time t
    then clock t :: refresh_times (quiet_trace worker_ports (clock t) later)
    else refresh_times (quiet_trace worker_ports last_stats_time later).
Proof.
  cbn [quiet_trace]. rewrite !refresh_times_app.
  assert (Hcrash : refresh_times (crash_report t worker_ports) = []).
  { unfold crash_report. now destruct (first_dead t _). }
  rewrite Hcrash. unfold stats_report.
  destruct (is_due last_stats_time t); reflexivity.
Qed.

Lemma is_due_iff (last_stats_time : Q) (t : tick) :
  is_due last_stats_time t = true
  <-> (last_stats_time + STATS_INTERVAL <= clock t)%Q.
Proof.
  unfold is_due. rewrite Qle_bool_iff. unfold STATS_INTERVAL.
  split; intros H; lra.
Qed.

(** Writes [inject_Z] of a closed integer as a fraction. *)
Ltac fraction H :=
  match type of H with
  | context [inject_Z ?z] =>
      let v := eval vm_compute in z in change (inject_Z z) with (v # 1)%Q in H
  end.

(** With [wait] turns to go before the next table, the previous turn came
    [4 - wait] turns after the last table. *)
Lemma steady_refresh (turns : list tick) :
  forall (wait : nat) (last_stats_time prev : Q),
    wait <= 4 ->
    (inject_Z (4 - Z.of_nat wait) <= prev - last_stats_time)%Q ->
    (prev - last_stats_time <= (5 # 4) * inject_Z (4 - Z.of_nat wait))%Q ->
    steady prev turns ->
    refresh_times (quiet_trace worker_ports last_stats_time turns)
    = map clock (every_fifth wait turns).
Proof.
  induction turns as [|t later IH]; intros wait last_stats_time prev Hwait
    Hlo Hhi Hsteady; [reflexivity|].
  destruct Hsteady as [Hafter [Hbefore Hsteady]].
  rewrite quiet_trace_refresh. cbn [every_fifth].
  destruct (is_due last_stats_time t) eqn:Edue.
  - apply is_due_iff in Edue. unfold STATS_INTERVAL in Edue.
    destruct wait as [|wait].
    + cbn [map]. f_equal.
      apply (IH 4 (clock t) (clock t)); [lia | | | exact Hsteady];
        change (inject_Z (4 - Z.of_nat 4)) with (0 # 1)%Q; lra.
    + exfalso.
      do 4 (destruct wait as [|wait]; [fraction Hhi; lra|]). lia.
  - assert (Hnot : ~ (last_stats_time + STATS_INTERVAL <= clock t)%Q).
    { intros H. apply is_due_iff in H. congruence. }
    unfold STATS_INTERVAL in Hnot.
    destruct wait as [|wait]; [exfalso; fraction Hlo; lra|].
    assert (Hgoal : (inject_Z (4 - Z.of_nat wait) <= clock t - last_stats_time
                     <= (5 # 4) * inject_Z (4 - Z.of_nat wait))%Q).
    { do 4 (destruct wait as [|wait];
            [fraction Hlo; fraction Hhi;
             match goal with
             | |- context [inject_Z ?z] =>
                 let v := eval vm_compute in z in
                 change (inject_Z z) with (v # 1)%Q
             end; lra|]).
      lia. }
    apply (IH wait last_stats_time (clock t));
      [lia | apply Hgoal | apply Hgoal | exact Hsteady].
Qed.

End Pace.

(** X19. At a steady pace the stats table is printed in the first turn and
    then in every fifth turn.  When the setup has succeeded, no turn has
    Ctrl+C or a dead nginx, the clock of the first turn is
    [STATS_INTERVAL] or more, and every later turn comes at least one
    second and less than a second and a quarter after the one before it,
    the tables are those of turns 1, 6, 11 and so on. *)
Theorem table_every_fifth_turn (ARGS : args) (w : world) (t : tick)
    (later : list tick)
    (Hpre : preflight_ok ARGS w = true)
    (Hpopen : popen_ok ARGS w = true)
    (Hticks : ticks w = t :: later)
    (Hquiet : Forall (fun t => interrupted t = false /\ poll t Nginx = None)
                     (ticks w))
    (Hstart : (STATS_INTERVAL <= clock t)%Q)
    (Hsteady : steady (clock t) later) :
  refresh_times (trace (run ARGS w)) = map clock (every_fifth 0 (ticks w)).
Proof.
  assert (Hloop : Forall (fun t => ends_loop t = false) (ticks w)).
  { eapply Forall_impl; [|exact Hquiet].
    intros u [Hi Hp]. unfold ends_loop, is_dead. now rewrite Hi, Hp. }
  rewrite run_refresh_times, (main_after_setup ARGS w Hpre Hpopen).
  cbv zeta. cbn [trace fst snd]. rewrite refresh_times_app.
  rewrite (refresh_times_none (setup_trace ARGS)).
  2:{ eapply Forall_impl; [|apply setup_trace_kinds]. now intros e [_ He]. }
  cbn [app].
  pose proof (monitor_quiet_prefix (planned_ports ARGS) (ticks w) [] 0%Q
                Hloop) as Hloop_trace.
  cbv zeta in Hloop_trace. rewrite app_nil_r in Hloop_trace.
  cbn [monitor ret result registry trace fst snd] in Hloop_trace.
  rewrite app_nil_r in Hloop_trace.
  rewrite <- (planned_ports_length ARGS), monitoring_run. cbv zeta.
  rewrite Hloop_trace. cbn [result trace fst snd].
  rewrite Hticks, quiet_trace_refresh, (is_due_at_start t Hstart).
  cbn [every_fifth map]. f_equal.
  apply (steady_refresh (planned_ports ARGS) later 4 (clock t) (clock t));
    [lia | | | exact Hsteady];
    change (inject_Z (4 - Z.of_nat 4)) with (0 # 1)%Q; lra.
Qed.

Lemma table_every_fifth_turn_witness :
  refresh_times (trace (run three_groups world_six_turns))
  = [1700000001%Q; 1700000006%Q].
Proof.
  refine (table_every_fifth_turn three_groups world_six_turns
            (quiet_tick 1700000001) _ _ _ _ _ _ _).
  - reflexivity.
  - reflexivity.
  - reflexivity.
  - repeat constructor.
  - vm_compute. discriminate.
  - cbn [steady clock quiet_tick]. repeat split; vm_compute; congruence.
Defined.
